(** * qualpy: the Qualtrics API wrapper (src/qualpy/wrapper.py)

    A shallow embedding of the [QualtricsAPI] class: the mailing-list cache,
    the export poller ([_get_surv_data]), the two paginators
    ([_get_distribution], [_get_dist_links]) and the tabular converter
    ([_parse_distribution_page]).

    Python values decoded from JSON are modelled by [json]; a Python [dict]
    is an association list that keeps insertion order (the order decides the
    columns of a data frame).  Methods run in a state-and-exception monad
    over the object's mutable state and the log of HTTP requests issued so
    far; the platform is a function from that log and the current request to a
    response.  Loops of the source that have no bound take a fuel argument.
    Console output ([print]) is not part of the state. *)

From Stdlib Require Import ZArith Ascii String.
From stdpp Require Import base gmap strings list.

Local Set Warnings "-register-all,-clear-no-such-hyp".
Local Open Scope string_scope.
Local Open Scope list_scope.

(** ** Python values *)

Inductive json : Type :=
| JNull                                   (* None *)
| JBool (b : bool)
| JNum (n : Z)                            (* a number; none is computed with *)
| JStr (s : string)
| JList (items : list json)
| JObj (fields : list (string * json)).   (* dict, in insertion order *)

Abbreviation dict := (list (string * json)).

Inductive exn : Type :=
| KeyError (key : string)
| ValueError (msg : string)
| TypeError
| AttributeError (attr : string)
| UnboundLocalError (var : string)
| PlainException (msg : string)           (* raise Exception(msg) *)
| MissingSchema                           (* requests: the URL is no URL *)
| JSONDecodeError.

(** What a call does: return, raise, run out of fuel (an unbounded loop of the
    source cut off by the model), or leave the modelled fragment of Python
    and pandas. *)
Inductive outcome (A : Type) : Type :=
| Ok (a : A)
| Raise (e : exn)
| OutOfFuel
| Unmodelled.
Arguments Ok {A} a.
Arguments Raise {A} e.
Arguments OutOfFuel {A}.
Arguments Unmodelled {A}.

Definition obind {A B} (o : outcome A) (k : A -> outcome B) : outcome B :=
  match o with
  | Ok a => k a
  | Raise e => Raise e
  | OutOfFuel => OutOfFuel
  | Unmodelled => Unmodelled
  end.

Declare Scope outcome_scope.
Delimit Scope outcome_scope with out.
Notation "x <~ o ;; k" := (obind o (fun x => k))
  (at level 100, o at next level, right associativity) : outcome_scope.

(** *** dict operations *)

Fixpoint dict_get (d : dict) (k : string) : option json :=
  match d with
  | [] => None
  | (k', v) :: d' => if String.eqb k' k then Some v else dict_get d' k
  end.

(** [d[k] = v]: an existing key keeps its position, a new one goes last. *)
Fixpoint dict_set (d : dict) (k : string) (v : json) : dict :=
  match d with
  | [] => [(k, v)]
  | (k', v') :: d' =>
      if String.eqb k' k then (k', v) :: d' else (k', v') :: dict_set d' k v
  end.

(** [a | b]: a copy of [a] updated with the items of [b], in order. *)
Definition dict_or (a b : dict) : dict :=
  fold_left (fun acc kv => dict_set acc (fst kv) (snd kv)) b a.

Fixpoint dict_del (d : dict) (k : string) : dict :=
  match d with
  | [] => []
  | (k', v) :: d' => if String.eqb k' k then d' else (k', v) :: dict_del d' k
  end.

(** [d.pop(k)]: the value and the dict without the key. *)
Definition dict_pop (d : dict) (k : string) : outcome (json * dict) :=
  match dict_get d k with
  | Some v => Ok (v, dict_del d k)
  | None => Raise (KeyError k)
  end.

(** [j[k]] for a string [k]: only a dict can be subscripted by a string. *)
Definition getitem (j : json) (k : string) : outcome json :=
  match j with
  | JObj d => match dict_get d k with
              | Some v => Ok v
              | None => Raise (KeyError k)
              end
  | _ => Raise TypeError
  end.

Fixpoint chars (s : string) : list json :=
  match s with
  | EmptyString => []
  | String c s' => JStr (String c EmptyString) :: chars s'
  end.

(** [for x in j]: a list yields its items, a dict its keys, a string its
    characters; nothing else is iterable. *)
Definition py_iter (j : json) : outcome (list json) :=
  match j with
  | JList l => Ok l
  | JObj d => Ok (map (fun kv => JStr (fst kv)) d)
  | JStr s => Ok (chars s)
  | _ => Raise TypeError
  end.

Definition py_len (j : json) : outcome nat :=
  match j with
  | JList l => Ok (length l)
  | JObj d => Ok (length d)
  | JStr s => Ok (String.length s)
  | _ => Raise TypeError
  end.

(** [j == s] and [j != s] for a string [s]. *)
Definition is_str (j : json) (s : string) : bool :=
  match j with
  | JStr t => String.eqb t s
  | _ => false
  end.

(** [j is None] *)
Definition is_None (j : json) : bool :=
  match j with
  | JNull => true
  | _ => false
  end.

(** ['/'.join(args)] accepts strings only. *)
Fixpoint str_args (args : list json) : outcome (list string) :=
  match args with
  | [] => Ok []
  | JStr s :: rest => (ss <~ str_args rest ;; Ok (s :: ss))%out
  | _ :: _ => Raise TypeError
  end.

(** [f'{x:.2f}']: numbers (and booleans) format, a string has no format
    code [f], anything else rejects the format string. *)
Definition format_2f (j : json) : outcome unit :=
  match j with
  | JNum _ | JBool _ => Ok tt
  | JStr _ => Raise (ValueError "Unknown format code 'f' for object of type 'str'")
  | _ => Raise TypeError
  end.

Fixpoint all_chars (p : ascii -> bool) (s : string) : bool :=
  match s with
  | EmptyString => true
  | String c s' => p c && all_chars p s'
  end.

(** A string of ASCII characters only: one byte is one character. *)
Definition ascii_only (s : string) : bool :=
  all_chars (fun c => (nat_of_ascii c <? 128)%nat) s.

(** [str.lower] on a string of ASCII characters: the letters A to Z become
    a to z, every other character is kept.  It is applied to ASCII strings
    only, see [lower_columns]. *)
Definition lower_ascii (c : ascii) : ascii :=
  let n := nat_of_ascii c in
  if (65 <=? n)%nat && (n <=? 90)%nat then ascii_of_nat (n + 32) else c.

Fixpoint lower (s : string) : string :=
  match s with
  | EmptyString => EmptyString
  | String c s' => String (lower_ascii c) (lower s')
  end.

(** ** HTTP: requests and responses *)

Inductive method : Type := GET | POST.

Record request : Type := mkRequest {
  meth : method;
  url : string;
  headers : list (string * string);
  params : option dict;
  json_arg : option json;
  stream : bool
}.

Record response : Type := mkResponse {
  body : option json;          (* the decoded JSON body, if it is JSON *)
  content : list Byte.byte     (* the raw payload *)
}.

(** [r.json()] *)
Definition response_json (r : response) : outcome json :=
  match body r with
  | Some j => Ok j
  | None => Raise JSONDecodeError
  end.

(** [r.json()['result'][k]] *)
Definition result_field (r : response) (k : string) : outcome json :=
  (j <~ response_json r ;;
   res <~ getitem j "result" ;;
   getitem res k)%out.

(** ** Data frames *)

Inductive cell : Type :=
| NaN
| Val (v : json).

Record DataFrame : Type := mkDataFrame {
  columns : list string;
  index : list nat;
  data : list (list cell)
}.

Definition dedup_keys (ks : list string) : list string :=
  fold_left (fun acc k => if existsb (String.eqb k) acc then acc else acc ++ [k])
            ks [].

Definition record_row (cols : list string) (r : dict) : list cell :=
  map (fun c => match dict_get r c with
                | Some v => Val v
                | None => NaN
                end) cols.

(** [pd.DataFrame(records)] for a list of dicts: the columns are the keys in
    order of first appearance, a key a record lacks is NaN there. *)
Definition DataFrame_of_records (records : list dict) : DataFrame :=
  let cols := dedup_keys (concat (map (map fst) records)) in
  {| columns := cols;
     index := seq 0 (length records);
     data := map (record_row cols) records |}.

Fixpoint as_records (items : list json) : option (list dict) :=
  match items with
  | [] => Some []
  | JObj d :: rest => match as_records rest with
                      | Some ds => Some (d :: ds)
                      | None => None
                      end
  | _ :: _ => None
  end.

(** [pd.DataFrame(j)] for a decoded JSON value; only a list of dicts is
    modelled. *)
Definition pd_DataFrame (j : json) : outcome DataFrame :=
  match j with
  | JList items => match as_records items with
                   | Some ds => Ok (DataFrame_of_records ds)
                   | None => Unmodelled
                   end
  | _ => Unmodelled
  end.

Fixpoint position (c : string) (cols : list string) : option nat :=
  match cols with
  | [] => None
  | c' :: rest => if String.eqb c' c then Some 0
                  else match position c rest with
                       | Some n => Some (S n)
                       | None => None
                       end
  end.

Definition realign (cols : list string) (df : DataFrame) : list (list cell) :=
  map (fun row => map (fun c => match position c (columns df) with
                                | Some n => nth n row NaN
                                | None => NaN
                                end) cols)
      (data df).

(** [pd.concat(dfs, ignore_index=True)] *)
Definition pd_concat (dfs : list DataFrame) : outcome DataFrame :=
  match dfs with
  | [] => Raise (ValueError "No objects to concatenate")
  | _ =>
      let cols := dedup_keys (concat (map columns dfs)) in
      let rows := concat (map (realign cols) dfs) in
      Ok {| columns := cols; index := seq 0 (length rows); data := rows |}
  end.

(** [df.iloc[n:, :].copy()] keeps the row labels of the rows it keeps. *)
Definition iloc_from (n : nat) (df : DataFrame) : DataFrame :=
  {| columns := columns df;
     index := drop n (index df);
     data := drop n (data df) |}.

(** [df.reset_index(inplace=True, drop=True)] *)
Definition reset_index (df : DataFrame) : DataFrame :=
  {| columns := columns df;
     index := seq 0 (length (data df));
     data := data df |}.

(** [df.columns = df.columns.str.lower()]; the [.str] accessor of a frame
    without columns is not modelled, and neither is a column name that is
    not ASCII, which Python lowers by the rules of Unicode. *)
Definition lower_columns (df : DataFrame) : outcome DataFrame :=
  match columns df with
  | [] => Unmodelled
  | _ => if forallb ascii_only (columns df)
         then Ok {| columns := map lower (columns df);
                    index := index df;
                    data := data df |}
         else Unmodelled
  end.

(** ** The monad of the methods *)

Definition M (S A : Type) : Type := S -> outcome A * S.

Definition ret {S A} (a : A) : M S A := fun s => (Ok a, s).

Definition bind {S A B} (m : M S A) (k : A -> M S B) : M S B :=
  fun s =>
    match m s with
    | (Ok a, s') => k a s'
    | (Raise e, s') => (Raise e, s')
    | (OutOfFuel, s') => (OutOfFuel, s')
    | (Unmodelled, s') => (Unmodelled, s')
    end.

Definition lift {S A} (o : outcome A) : M S A := fun s => (o, s).

Definition raise {S A} (e : exn) : M S A := lift (Raise e).

Definition gets {S A} (f : S -> A) : M S A := fun s => (Ok (f s), s).

Definition modify {S} (f : S -> S) : M S unit := fun s => (Ok tt, f s).

(** [try: m  except KeyError: h]; what [m] did to the state before it raised
    stays done. *)
Definition try_except_KeyError {S A} (m : M S A) (h : M S A) : M S A :=
  fun s =>
    match m s with
    | (Raise (KeyError _), s') => h s'
    | r => r
    end.

(** Run a computation on a part of the state. *)
Definition zoom {S T A} (get : S -> T) (set : T -> S -> S) (m : M T A) : M S A :=
  fun s => let (o, t) := m (get s) in (o, set t s).

Declare Scope method_scope.
Delimit Scope method_scope with M.
Notation "x <- m ;; k" := (bind m (fun x => k))
  (at level 100, m at next level, right associativity) : method_scope.
Notation "m ;;; k" := (bind m (fun _ => k))
  (at level 100, right associativity) : method_scope.

(** ** The client object and the world it runs in *)

Record QualtricsAPI : Type := mkQualtricsAPI {
  base_url : string;
  library_id : string;
  api_token : string;
  _headers : list (string * string);
  mls : option (gmap string dict)     (* None: the attribute is not set yet *)
}.

Record world : Type := mkWorld {
  self : QualtricsAPI;
  log : list request                  (* the requests issued so far *)
}.

Definition set_mls (m : gmap string dict) (w : world) : world :=
  {| self := {| base_url := base_url (self w);
                library_id := library_id (self w);
                api_token := api_token (self w);
                _headers := _headers (self w);
                mls := Some m |};
     log := log w |}.

Definition set_headers (h : list (string * string)) (w : world) : world :=
  {| self := {| base_url := base_url (self w);
                library_id := library_id (self w);
                api_token := api_token (self w);
                _headers := h;
                mls := mls (self w) |};
     log := log w |}.

(** The class statement: the default of [api_token] is the value of
    [os.environ['QUAL_APIKEY']] when the statement runs, that is when the
    module is imported. *)
Record QualtricsAPI_class : Type := mkClass {
  api_token_default : string
}.

Definition class_QualtricsAPI (environ : gmap string string)
  : outcome QualtricsAPI_class :=
  match environ !! "QUAL_APIKEY" with
  | Some t => Ok {| api_token_default := t |}
  | None => Raise (KeyError "QUAL_APIKEY")
  end.

(** The survey-listing and mailing-list helpers that do not touch the
    network. *)

(** The loop of [_get_survey_id]: the id of the first survey of that name,
    [None] when there is none. *)
Fixpoint find_survey (surveys : list json) (suname : string) : outcome json :=
  match surveys with
  | [] => Ok JNull
  | survey :: rest =>
      (name <~ getitem survey "name" ;;
       if is_str name suname then getitem survey "id"
       else find_survey rest suname)%out
  end.

(** [set(ml['name'] for ml in mailing_lists)], before the set forgets the
    order; a name that is a list or a dict cannot be hashed, a name that is
    neither that nor a string is not modelled. *)
Fixpoint names_of (mailing_lists : list json) : outcome (list string) :=
  match mailing_lists with
  | [] => Ok []
  | ml :: rest =>
      (n <~ getitem ml "name" ;;
       match n with
       | JStr s => ns <~ names_of rest ;; Ok (s :: ns)
       | JList _ | JObj _ => Raise TypeError
       | _ => Unmodelled
       end)%out
  end.

(** [{ml.pop('name'): ml for ml in mailing_lists}] *)
Fixpoint build_cache (mailing_lists : list json) (acc : gmap string dict)
  : outcome (gmap string dict) :=
  match mailing_lists with
  | [] => Ok acc
  | JObj d :: rest =>
      (p <~ dict_pop d "name" ;;
       match fst p with
       | JStr s => build_cache rest (<[s := snd p]> acc)
       | JList _ | JObj _ => Raise TypeError
       | _ => Unmodelled
       end)%out
  | _ :: _ => Raise (AttributeError "pop")
  end.

(** The body of [_parse_distribution_page] for one person. *)
Fixpoint merge_history (p_dict : dict) (history : list json) : outcome (list dict) :=
  match history with
  | [] => Ok []
  | JObj email :: rest =>
      (rows <~ merge_history p_dict rest ;; Ok (dict_or p_dict email :: rows))%out
  | _ :: _ => Raise TypeError
  end.

Definition parse_person (person : json) : outcome (list dict) :=
  (id <~ getitem person "id" ;;
   email <~ getitem person "email" ;;
   language <~ getitem person "language" ;;
   unsubscribed <~ getitem person "unsubscribed" ;;
   let p_dict := [("contactid", id); ("email", email);
                  ("language", language); ("unsubscribed", unsubscribed)] in
   hist <~ getitem person "emailHistory" ;;
   history <~ py_iter hist ;;
   merge_history p_dict history)%out.

Fixpoint parse_persons (persons : list json) : outcome (list dict) :=
  match persons with
  | [] => Ok []
  | person :: rest =>
      (rows <~ parse_person person ;;
       more <~ parse_persons rest ;;
       Ok (rows ++ more))%out
  end.

Definition _parse_distribution_page (r : response) : outcome (list dict) :=
  (elements <~ result_field r "elements" ;;
   persons <~ py_iter elements ;;
   parse_persons persons)%out.

(** ** The methods *)

Section Client.

(** The platform: its answer to a request, given the requests before it. *)
Variable server : list request -> request -> response.

(** [pd.read_csv(io.BytesIO(content), compression='zip', low_memory=False)] *)
Variable pd_read_csv : list Byte.byte -> outcome DataFrame.

Local Open Scope method_scope.

Definition send (rq : request) : M world response :=
  fun w => (Ok (server (log w) rq), {| self := self w; log := log w ++ [rq] |}).

(** [requests.get(u, headers=hdrs, params=ps, stream=st)]; a value that is
    no string (such as [None]) is no URL. *)
Definition requests_get (u : json) (hdrs : list (string * string))
    (ps : option dict) (st : bool) : M world response :=
  match u with
  | JStr s => send {| meth := GET; url := s; headers := hdrs; params := ps;
                      json_arg := None; stream := st |}
  | _ => raise MissingSchema
  end.

(** [requests.post(url=u, headers=hdrs, json=j)] *)
Definition requests_post (u : string) (hdrs : list (string * string))
    (j : json) : M world response :=
  send {| meth := POST; url := u; headers := hdrs; params := None;
          json_arg := Some j; stream := false |}.

Definition _build_url (args : list json) : M world string :=
  b <- gets (fun w => base_url (self w)) ;;
  ss <- lift (str_args args) ;;
  ret (String.concat "/" (b :: ss)).

Definition _list_surveys : M world response :=
  u <- _build_url [JStr "surveys"] ;;
  h <- gets (fun w => _headers (self w)) ;;
  requests_get (JStr u) h None false.

Definition _get_survey_id (suname : string) : M world json :=
  r <- _list_surveys ;;
  elements <- lift (result_field r "elements") ;;
  surveys <- lift (py_iter elements) ;;
  suid <- lift (find_survey surveys suname) ;;
  if is_None suid then raise (ValueError "survey does not exist")
  else ret suid.

Definition _get_mailing_list_attr (mlname key : string) : M world json :=
  cache <- gets (fun w => mls (self w)) ;;
  match cache with
  | None => raise (AttributeError "mls")
  | Some m =>
      match m !! mlname with
      | None => raise (KeyError mlname)
      | Some ml => lift (getitem (JObj ml) key)
      end
  end.

(** The handler of [get_mailing_list_id] raises again what it caught. *)
Definition get_mailing_list_id (mlname : string) : M world json :=
  _get_mailing_list_attr mlname "id".

Definition duplicate_names_message : string :=
  "There are duplicate names for mailing lists. This program assumes that the names are unique and casts these into a set therefore some information might be lost. Please make sure that there are no duplicate names for mailing lists.".

Definition _list_mailing_lists : M world (gmap string dict) :=
  u <- _build_url [JStr "mailinglists"] ;;
  h <- gets (fun w => _headers (self w)) ;;
  response <- requests_get (JStr u) h None false ;;
  mailing_lists <- lift (result_field response "elements") ;;
  items <- lift (py_iter mailing_lists) ;;
  names_list <- lift (names_of items) ;;
  let names : gset string := list_to_set names_list in
  n <- lift (py_len mailing_lists) ;;
  if negb (size names =? n)%nat then raise (ValueError duplicate_names_message)
  else lift (build_cache items ∅).

Definition __post_init__ : M world unit :=
  tok <- gets (fun w => api_token (self w)) ;;
  modify (set_headers [("content-type", "application/json");
                       ("x-api-token", tok)]) ;;;
  m <- _list_mailing_lists ;;
  modify (set_mls m).

(** [QualtricsAPI(base_url, library_id)] or
    [QualtricsAPI(base_url, library_id, api_token)]: the generated [__init__]
    sets the fields and calls [__post_init__]. *)
Definition QualtricsAPI_new (cls : QualtricsAPI_class) (base lib : string)
    (token : option string) (history : list request)
  : outcome unit * world :=
  __post_init__
    {| self := {| base_url := base;
                  library_id := lib;
                  api_token := match token with
                               | Some t => t
                               | None => api_token_default cls
                               end;
                  _headers := [];
                  mls := None |};
       log := history |}.

(** Importing the module, then constructing a client. *)
Definition import_and_construct (environ : gmap string string)
    (base lib : string) (token : option string) (history : list request)
  : outcome unit * option world :=
  match class_QualtricsAPI environ with
  | Ok cls => let (o, w) := QualtricsAPI_new cls base lib token history in
              (o, Some w)
  | Raise e => (Raise e, None)
  | OutOfFuel => (OutOfFuel, None)
  | Unmodelled => (Unmodelled, None)
  end.

Definition create_mailing_list (name : string) (category : option string)
  : M world json :=
  try_except_KeyError
    (get_mailing_list_id name)
    (u <- _build_url [JStr "mailinglists"] ;;
     h <- gets (fun w => _headers (self w)) ;;
     lib <- gets (fun w => library_id (self w)) ;;
     requests_post u h
       (JObj [("name", JStr name);
              ("libraryId", JStr lib);
              ("category", match category with
                           | Some c => JStr c
                           | None => JNull
                           end)]) ;;;
     m <- _list_mailing_lists ;;
     modify (set_mls m) ;;;
     get_mailing_list_id name).

(** *** The export poller *)

(** The [while] loop of [_get_surv_data], with the three variables it
    assigns; [req_check_resp] is unbound until the body has run once. *)
Fixpoint poll (fuel : nat) (surv_name : string) (verbose : bool)
    (prog_id prog_status ready : json) (req_check_resp : option response)
  : M world (json * json * option response) :=
  if negb (is_str prog_status "complete")
     && negb (is_str prog_status "failed")
     && is_None ready
  then
    match fuel with
    | O => lift OutOfFuel
    | S fuel' =>
        sid <- _get_survey_id surv_name ;;
        req_check_url <- _build_url [JStr "surveys"; sid;
                                     JStr "export-responses"; prog_id] ;;
        h <- gets (fun w => _headers (self w)) ;;
        resp <- requests_get (JStr req_check_url) h None false ;;
        req_check_prog <- lift (result_field resp "percentComplete") ;;
        (if is_None ready && verbose then lift (format_2f req_check_prog)
         else ret tt) ;;;
        ready' <- try_except_KeyError (lift (result_field resp "fileId"))
                                      (ret ready) ;;
        prog_status' <- lift (result_field resp "status") ;;
        poll fuel' surv_name verbose prog_id prog_status' ready' (Some resp)
    end
  else ret (prog_status, ready, req_check_resp).

Definition _get_surv_data (fuel : nat) (surv_name : string)
    (verbose finished_only : bool) (embedded_fields : list string)
  : M world DataFrame :=
  sid <- _get_survey_id surv_name ;;
  u <- _build_url [JStr "surveys"; sid; JStr "export-responses"] ;;
  let data_kwds :=
    JObj [("format", JStr "csv");
          ("useLabels", JBool true);
          ("exportResponsesInProgress", JBool (negb finished_only));
          ("compress", JBool true);
          ("embeddedDataIds", JList (map JStr embedded_fields))] in
  let ready := JNull in
  h <- gets (fun w => _headers (self w)) ;;
  dl_req <- requests_post u h data_kwds ;;
  prog_id <- lift (result_field dl_req "progressId") ;;
  prog_status <- lift (result_field dl_req "status") ;;
  st <- poll fuel surv_name verbose prog_id prog_status ready None ;;
  let prog_status := fst (fst st) in
  let req_check_resp := snd st in
  if is_str prog_status "failed" then raise (PlainException "export failed")
  else
    resp <- match req_check_resp with
            | Some r => ret r
            | None => raise (UnboundLocalError "req_check_resp")
            end ;;
    file_id <- lift (result_field resp "fileId") ;;
    sid' <- _get_survey_id surv_name ;;
    req_dl_url <- _build_url [JStr "surveys"; sid'; JStr "export-responses";
                              file_id; JStr "file"] ;;
    req_dl <- requests_get (JStr req_dl_url) h None true ;;
    df <- lift (pd_read_csv (content req_dl)) ;;
    let df := reset_index (iloc_from 2 df) in
    lift (lower_columns df).

(** *** The paginator of the contacts of a mailing list *)

Fixpoint contact_pages (fuel : nat) (nextPage : json) (dfs : list dict)
    (count : Z) : M world (list dict) :=
  if negb (is_None nextPage) then
    match fuel with
    | O => lift OutOfFuel
    | S fuel' =>
        h <- gets (fun w => _headers (self w)) ;;
        r <- requests_get nextPage h None false ;;
        data <- lift (response_json r) ;;
        let count := (count + 1)%Z in
        res <- lift (getitem data "result") ;;
        elements <- lift (getitem res "elements") ;;
        nrecords <- lift (py_len elements) ;;
        rows <- lift (_parse_distribution_page r) ;;
        res' <- lift (getitem data "result") ;;
        nextPage' <- lift (getitem res' "nextPage") ;;
        contact_pages fuel' nextPage' (dfs ++ rows) count
    end
  else ret dfs.

Definition _get_distribution (fuel : nat) (ml_id : string) (verbose : bool)
  : M world DataFrame :=
  u <- _build_url [JStr "mailinglists"; JStr ml_id; JStr "contacts"] ;;
  h <- gets (fun w => _headers (self w)) ;;
  r <- requests_get (JStr u) h None false ;;
  nextPage <- lift (result_field r "nextPage") ;;
  rows <- lift (_parse_distribution_page r) ;;
  dfs <- contact_pages fuel nextPage ([] ++ rows) 0%Z ;;
  ret (DataFrame_of_records dfs).

(** *** The paginator of the links of a distribution *)

(** The variables of [_get_dist_links] that its [try] body assigns: what
    the body assigned before it raised is still assigned in the handler. *)
Record links_locals : Type := mkLinksLocals {
  count : Z;
  r : response;
  df : option DataFrame;
  dfs : list DataFrame;
  nextPage : json
}.

Definition in_world {L A} (m : M world A) : M (L * world) A :=
  zoom snd (fun w s => (fst s, w)) m.

Definition on_locals {L} (f : L -> L) : M (L * world) unit :=
  modify (fun s => (f (fst s), snd s)).

Definition with_locals {L A} (init : L) (m : M (L * world) A) : M world A :=
  fun w => let (o, s) := m (init, w) in (o, snd s).

(** The five statements that the [try] body and the handler share. *)
Definition fetch_next : M (links_locals * world) unit :=
  on_locals (fun l => {| count := count l + 1; r := r l; df := df l;
                         dfs := dfs l; nextPage := nextPage l |}) ;;;
  np <- gets (fun s => nextPage (fst s)) ;;
  h <- gets (fun s => _headers (self (snd s))) ;;
  resp <- in_world (requests_get np h None false) ;;
  on_locals (fun l => {| count := count l; r := resp; df := df l;
                         dfs := dfs l; nextPage := nextPage l |}) ;;;
  elements <- lift (result_field resp "elements") ;;
  frame <- lift (pd_DataFrame elements) ;;
  on_locals (fun l => {| count := count l; r := r l; df := Some frame;
                         dfs := dfs l; nextPage := nextPage l |}) ;;;
  on_locals (fun l => {| count := count l; r := r l; df := df l;
                         dfs := dfs l ++ [frame]; nextPage := nextPage l |}) ;;;
  np' <- lift (result_field resp "nextPage") ;;
  on_locals (fun l => {| count := count l; r := r l; df := df l;
                         dfs := dfs l; nextPage := np' |}).

(** [for attempt in range(n)] with its [else] clause: the [else] of the
    [try] leaves the loop, the handler does not. *)
Fixpoint attempts (n : nat) : M (links_locals * world) unit :=
  match n with
  | O => raise (KeyError "Tried 10 attempts with a failure.")
  | S n' =>
      broke <- try_except_KeyError (fetch_next ;;; ret true)
                                   (fetch_next ;;; ret false) ;;
      if broke : bool then ret tt else attempts n'
  end.

Fixpoint link_pages (fuel : nat) : M (links_locals * world) unit :=
  np <- gets (fun s => nextPage (fst s)) ;;
  if negb (is_None np) then
    match fuel with
    | O => lift OutOfFuel
    | S fuel' => attempts 10 ;;; link_pages fuel'
    end
  else ret tt.

Definition _get_dist_links (fuel : nat) (dist_id surv_name : string)
    (verbose : bool) : M world DataFrame :=
  u <- _build_url [JStr "distributions"; JStr dist_id; JStr "links"] ;;
  h <- gets (fun w => _headers (self w)) ;;
  sid <- _get_survey_id surv_name ;;
  first <- requests_get (JStr u) h (Some [("surveyId", sid)]) false ;;
  np <- lift (result_field first "nextPage") ;;
  elements <- lift (result_field first "elements") ;;
  frame <- lift (pd_DataFrame elements) ;;
  with_locals {| count := 1; r := first; df := None; dfs := [] ++ [frame];
                 nextPage := np |}
    (link_pages fuel ;;;
     frames <- gets (fun s => dfs (fst s)) ;;
     all <- lift (pd_concat frames) ;;
     lift (lower_columns all)).

End Client.

(** ** The remaining methods *)

(** *** Rows of a data frame as [itertuples] yields them *)

Definition python_keywords : list string :=
  ["False"; "None"; "True"; "and"; "as"; "assert"; "async"; "await"; "break";
   "class"; "continue"; "def"; "del"; "elif"; "else"; "except"; "finally";
   "for"; "from"; "global"; "if"; "import"; "in"; "is"; "lambda"; "nonlocal";
   "not"; "or"; "pass"; "raise"; "return"; "try"; "while"; "with"; "yield"].

Definition is_keyword (s : string) : bool :=
  existsb (String.eqb s) python_keywords.

Definition is_letter (c : ascii) : bool :=
  let n := nat_of_ascii c in
  ((65 <=? n)%nat && (n <=? 90)%nat) || ((97 <=? n)%nat && (n <=? 122)%nat).

Definition is_digit (c : ascii) : bool :=
  let n := nat_of_ascii c in (48 <=? n)%nat && (n <=? 57)%nat.

Definition is_underscore (c : ascii) : bool := (nat_of_ascii c =? 95)%nat.

(** [s.isidentifier()] for a string of ASCII characters. *)
Definition is_identifier (s : string) : bool :=
  match s with
  | EmptyString => false
  | String c s' =>
      (is_letter c || is_underscore c)
      && all_chars (fun d => is_letter d || is_digit d || is_underscore d) s'
  end.

Definition starts_with_underscore (s : string) : bool :=
  match s with
  | String c _ => is_underscore c
  | EmptyString => false
  end.

(** [getattr(row, name)] for a row of [df.itertuples()]: the named tuple has
    the field [Index] and one field per column, where a column whose name is
    no identifier, is a keyword, starts with an underscore or was seen
    before goes by its position instead.  Names that are not ASCII or start
    with an underscore, and the tuple methods [count] and [index], are not
    modelled. *)
Definition row_getattr (cols : list string) (label : nat) (row : list cell)
    (name : string) : outcome cell :=
  if negb (ascii_only name) || starts_with_underscore name then Unmodelled
  else if negb (is_identifier name) || is_keyword name
  then Raise (AttributeError name)
  else if String.eqb name "Index" then Ok (Val (JNum (Z.of_nat label)))
  else match position name cols with
       | Some n => Ok (nth n row NaN)
       | None => if String.eqb name "count" || String.eqb name "index"
                 then Unmodelled
                 else Raise (AttributeError name)
       end.

(** A value of a row that goes into a contact; a missing value (NaN) is a
    float and not modelled. *)
Definition cell_value (c : cell) : outcome json :=
  match c with
  | Val v => Ok v
  | NaN => Unmodelled
  end.

(** A failed [assert] raises [AssertionError], which nothing in the module
    catches: the result of a function that asserts is what it returns or the
    message of the assertion that failed. *)
Inductive checked (A : Type) : Type :=
| Passed (a : A)
| AssertionFailed (msg : string).
Arguments Passed {A} a.
Arguments AssertionFailed {A} msg.

(** The [ecols] argument: one column name or a list of them. *)
Inductive ecols_arg : Type :=
| OneColumn (c : string)
| Columns (cs : list string).

Fixpoint getattrs (cols : list string) (label : nat) (row : list cell)
    (names : list string) : outcome (list json) :=
  match names with
  | [] => Ok []
  | name :: rest =>
      (c <~ row_getattr cols label row name ;;
       v <~ cell_value c ;;
       vs <~ getattrs cols label row rest ;;
       Ok (v :: vs))%out
  end.

(** [dict(zip(keys, values))] *)
Definition dict_zip (keys : list string) (values : list json) : dict :=
  fold_left (fun acc kv => dict_set acc (fst kv) (snd kv))
            (combine keys values) [].

(** The body of the loop of [_convert_df_to_contacts] for one row. *)
Definition row_contact (cols : list string) (emailcol : string)
    (langcol : option string) (ecols : option (list string))
    (label : nat) (row : list cell) : outcome dict :=
  (e <~ row_getattr cols label row emailcol ;;
   email <~ cell_value e ;;
   let contact_data := dict_set [] "email" email in
   contact_data <~ match langcol with
                   | Some lc =>
                       l <~ row_getattr cols label row lc ;;
                       language <~ cell_value l ;;
                       Ok (dict_set contact_data "language" language)
                   | None => Ok contact_data
                   end ;;
   match ecols with
   | Some ecs =>
       values <~ getattrs cols label row ecs ;;
       Ok (dict_set contact_data "embeddedData" (JObj (dict_zip ecs values)))
   | None => Ok contact_data
   end)%out.

Fixpoint rows_contacts (cols : list string) (emailcol : string)
    (langcol : option string) (ecols : option (list string))
    (labels : list nat) (rows : list (list cell)) : outcome (list dict) :=
  match rows with
  | [] => Ok []
  | row :: rows' =>
      (contact <~ row_contact cols emailcol langcol ecols
                    (List.hd 0 labels) row ;;
       contacts <~ rows_contacts cols emailcol langcol ecols
                     (List.tl labels) rows' ;;
       Ok (contact :: contacts))%out
  end.

(** [set(contact['email'] for contact in contacts)], before the set forgets
    the order; only strings are modelled as hashable values. *)
Fixpoint emails_of (contacts : list dict) : outcome (list string) :=
  match contacts with
  | [] => Ok []
  | contact :: rest =>
      (e <~ getitem (JObj contact) "email" ;;
       match e with
       | JStr s => es <~ emails_of rest ;; Ok (s :: es)
       | JList _ | JObj _ => Raise TypeError
       | _ => Unmodelled
       end)%out
  end.

(** [if isinstance(ecols, str): ecols = [ecols]] *)
Definition ecols_list (ecols : option ecols_arg) : option (list string) :=
  match ecols with
  | Some (OneColumn c) => Some [c]
  | Some (Columns cs) => Some cs
  | None => None
  end.

Definition _convert_df_to_contacts (df : DataFrame) (emailcol : string)
    (langcol : option string) (ecols : option ecols_arg)
  : outcome (checked (list dict)) :=
  if negb (Z.of_nat (length (data df)) <=? 10000)%Z
  then Ok (AssertionFailed "maximum contacts to import at once is 10000")
  else
    let ecols := ecols_list ecols in
    (contacts <~ rows_contacts (columns df) emailcol langcol ecols
                   (index df) (data df) ;;
     emails <~ emails_of contacts ;;
     if (size (list_to_set emails : gset string) =? length (data df))%nat
     then Ok (Passed contacts)
     else Ok (AssertionFailed ""))%out.

(** *** Distributions *)

(** The loop of [_get_distribution_ids]; [dists] maps a mailing-list id to
    the distribution id and send date of its invite. *)
Fixpoint invites (results : list json) (dists : dict) : outcome dict :=
  match results with
  | [] => Ok dists
  | result :: rest =>
      (resultType <~ getitem result "requestType" ;;
       recipients <~ getitem result "recipients" ;;
       sampleId <~ getitem recipients "sampleId" ;;
       dist_id <~ getitem result "id" ;;
       recipients' <~ getitem result "recipients" ;;
       ml_id <~ getitem recipients' "mailingListId" ;;
       send_date <~ getitem result "sendDate" ;;
       if is_str resultType "Invite" && is_None sampleId then
         match ml_id with
         | JStr k =>
             invites rest
               (dict_set dists k (JObj (dict_set [("dist_id", dist_id)]
                                                 "send_date" send_date)))
         | JList _ | JObj _ => Raise TypeError
         | _ => Unmodelled
         end
       else invites rest dists)%out
  end.

(** [df[col] = v] for a scalar [v]: the column is overwritten where it is,
    or added last; a frame with two columns of one name is not modelled. *)
Definition set_column (df : DataFrame) (col : string) (v : json)
  : outcome DataFrame :=
  if negb (length (dedup_keys (columns df)) =? length (columns df))%nat
  then Unmodelled
  else match position col (columns df) with
       | Some n => Ok {| columns := columns df;
                         index := index df;
                         data := map (fun row => <[n := Val v]> row) (data df) |}
       | None => Ok {| columns := columns df ++ [col];
                       index := index df;
                       data := map (fun row => row ++ [Val v]) (data df) |}
       end.

(** [pd.concat(dfs)]: as [pd_concat], but the rows keep their labels;
    frames with two columns of one name are not modelled. *)
Definition pd_concat_labels (dfs : list DataFrame) : outcome DataFrame :=
  match dfs with
  | [] => Raise (ValueError "No objects to concatenate")
  | _ =>
      if forallb (fun df => (length (dedup_keys (columns df))
                             =? length (columns df))%nat) dfs
      then
        let cols := dedup_keys (concat (map columns dfs)) in
        Ok {| columns := cols;
              index := concat (map index dfs);
              data := concat (map (realign cols) dfs) |}
      else Unmodelled
  end.

Section MoreMethods.

Variable server : list request -> request -> response.
Variable pd_read_csv : list Byte.byte -> outcome DataFrame.

Local Open Scope method_scope.

Definition import_contacts (mlname : string) (contacts : DataFrame)
    (emailcol : string) (langcol : option string) (ecols : option ecols_arg)
  : M world (checked response) :=
  mlid <- get_mailing_list_id mlname ;;
  converted <- lift (_convert_df_to_contacts contacts emailcol langcol ecols) ;;
  match converted with
  | AssertionFailed msg => ret (AssertionFailed msg)
  | Passed cs =>
      u <- _build_url [JStr "mailinglists"; mlid; JStr "contactimports"] ;;
      h <- gets (fun w => _headers (self w)) ;;
      response <- requests_post server u h
                    (JObj [("contacts", JList (map JObj cs))]) ;;
      ret (Passed response)
  end.

Definition get_all_surv_data (fuel : nat) (surv_name : string)
    (verbose : bool) (embedded_fields : list string) : M world DataFrame :=
  aux <- _get_surv_data server pd_read_csv fuel surv_name verbose false
                        embedded_fields ;;
  aux <- lift (set_column aux "finished" (JBool false)) ;;
  aux' <- _get_surv_data server pd_read_csv fuel surv_name verbose true
                         embedded_fields ;;
  aux' <- lift (set_column aux' "finished" (JBool true)) ;;
  lift (pd_concat_labels ([] ++ [aux] ++ [aux'])).

Definition _get_distribution_ids (surv_name : string) : M world dict :=
  u <- _build_url [JStr "distributions"] ;;
  h <- gets (fun w => _headers (self w)) ;;
  sid <- _get_survey_id server surv_name ;;
  r <- requests_get server (JStr u) h (Some [("surveyId", sid)]) false ;;
  elements <- lift (result_field r "elements") ;;
  results <- lift (py_iter elements) ;;
  lift (invites results []).

(** The loop of [get_all_distribution_data] over the mailing-list ids. *)
Fixpoint distributions_of (fuel : nat) (ml_ids : list string) (verbose : bool)
  : M world (list DataFrame) :=
  match ml_ids with
  | [] => ret []
  | ml_id :: rest =>
      aux <- _get_distribution server fuel ml_id verbose ;;
      auxs <- distributions_of fuel rest verbose ;;
      ret (aux :: auxs)
  end.

Definition get_all_distribution_data (fuel : nat) (surv_name : string)
    (verbose : bool) : M world DataFrame :=
  mailing_lists <- _get_distribution_ids surv_name ;;
  auxs <- distributions_of fuel (map fst mailing_lists) verbose ;;
  df <- lift (pd_concat auxs) ;;
  lift (lower_columns df).

(** [ts] is [datetime.now().strftime('%Y-%m-%d %H:%M:%S')], the local time
    of the call. *)
Definition _create_distribution_links (ts : string) (suname mlname : string)
  : M world response :=
  mlid <- get_mailing_list_id mlname ;;
  u <- _build_url [JStr "distributions"] ;;
  h <- gets (fun w => _headers (self w)) ;;
  sid <- _get_survey_id server suname ;;
  requests_post server u h
    (JObj [("surveyId", sid);
           ("linkType", JStr "Individual");
           ("action", JStr "CreateDistribution");
           ("description", JStr ("dist " +:+ ts));
           ("mailingListId", mlid)]).

End MoreMethods.

(** * Vocabulary of the statements *)

(** A contact record as the platform sends it, seen through the five fields
    the converter reads. *)
Record contact : Type := mkContact {
  c_id : json;
  c_email : json;
  c_language : json;
  c_unsubscribed : json;
  c_history : list dict
}.

Definition is_contact (person : json) (c : contact) : Prop :=
  exists d, person = JObj d
    /\ dict_get d "id" = Some (c_id c)
    /\ dict_get d "email" = Some (c_email c)
    /\ dict_get d "language" = Some (c_language c)
    /\ dict_get d "unsubscribed" = Some (c_unsubscribed c)
    /\ dict_get d "emailHistory" = Some (JList (map JObj (c_history c))).

Definition contact_fields (c : contact) : dict :=
  [("contactid", c_id c); ("email", c_email c);
   ("language", c_language c); ("unsubscribed", c_unsubscribed c)].

Definition get_request (hdrs : list (string * string)) (u : string) : request :=
  {| meth := GET; url := u; headers := hdrs; params := None;
     json_arg := None; stream := false |}.

Definition auth_headers (token : string) : list (string * string) :=
  [("content-type", "application/json"); ("x-api-token", token)].

Definition add_request (rq : request) (w : world) : world :=
  {| self := self w; log := log w ++ [rq] |}.

Definition creation_request (obj : QualtricsAPI) (name : string)
    (category : option string) : request :=
  {| meth := POST;
     url := String.concat "/" [base_url obj; "mailinglists"];
     headers := _headers obj;
     params := None;
     json_arg := Some (JObj [("name", JStr name);
                             ("libraryId", JStr (library_id obj));
                             ("category", match category with
                                          | Some c => JStr c
                                          | None => JNull
                                          end)]);
     stream := false |}.

Definition listing_request (obj : QualtricsAPI) : request :=
  get_request (_headers obj) (String.concat "/" [base_url obj; "mailinglists"]).

(** A POST to the endpoint that creates mailing lists. *)
Definition is_creation_post (obj : QualtricsAPI) (rq : request) : bool :=
  match meth rq with
  | POST => String.eqb (url rq) (String.concat "/" [base_url obj; "mailinglists"])
  | GET => false
  end.

Definition creation_posts (obj : QualtricsAPI) (l : list request) : nat :=
  length (filter (fun rq => is_creation_post obj rq = true) l).

(** *** The export workflow *)

Definition surveys_request (obj : QualtricsAPI) : request :=
  get_request (_headers obj) (String.concat "/" [base_url obj; "surveys"]).

Definition export_request (obj : QualtricsAPI) (sid : string)
    (finished_only : bool) (embedded_fields : list string) : request :=
  {| meth := POST;
     url := String.concat "/" [base_url obj; "surveys"; sid; "export-responses"];
     headers := _headers obj;
     params := None;
     json_arg := Some (JObj [("format", JStr "csv");
                             ("useLabels", JBool true);
                             ("exportResponsesInProgress", JBool (negb finished_only));
                             ("compress", JBool true);
                             ("embeddedDataIds", JList (map JStr embedded_fields))]);
     stream := false |}.

Definition status_url (obj : QualtricsAPI) (sid pid : string) : string :=
  String.concat "/" [base_url obj; "surveys"; sid; "export-responses"; pid].

Definition status_request (obj : QualtricsAPI) (sid pid : string) : request :=
  get_request (_headers obj) (status_url obj sid pid).

Definition download_request (obj : QualtricsAPI) (sid fid : string) : request :=
  {| meth := GET;
     url := String.concat "/" [base_url obj; "surveys"; sid; "export-responses";
                               fid; "file"];
     headers := _headers obj;
     params := None;
     json_arg := None;
     stream := true |}.

(** A status check of the job [pid]: a plain GET of its status URL. *)
Definition is_status_check (obj : QualtricsAPI) (sid pid : string)
    (rq : request) : bool :=
  match meth rq with
  | GET => String.eqb (url rq) (status_url obj sid pid) && negb (stream rq)
  | POST => false
  end.

Definition status_checks (obj : QualtricsAPI) (sid pid : string)
    (l : list request) : nat :=
  length (filter (fun rq => is_status_check obj sid pid rq = true) l).

(** What [n] turns of the polling loop send: the survey listing that
    resolves the name, then the status check. *)
Fixpoint poll_rounds (obj : QualtricsAPI) (sid pid : string) (n : nat)
  : list request :=
  match n with
  | O => []
  | S n' => surveys_request obj :: status_request obj sid pid
            :: poll_rounds obj sid pid n'
  end.

(** The survey name resolves to [sid] whenever the surveys are listed. *)
Definition survey_listed (server : list request -> request -> response)
    (obj : QualtricsAPI) (surv_name sid : string) : Prop :=
  forall h, exists surveys,
    result_field (server h (surveys_request obj)) "elements" = Ok (JList surveys)
    /\ find_survey surveys surv_name = Ok (JStr sid).

(** A status response the loop body reads without raising: it has a
    status and a progress figure (a number, when progress is printed). *)
Definition status_response (verbose : bool) (resp : response) (st : json) : Prop :=
  result_field resp "status" = Ok st
  /\ exists pc, result_field resp "percentComplete" = Ok pc
       /\ (verbose = true -> format_2f pc = Ok tt).

(** The file id a status response carries, [None] when it has none. *)
Definition file_id_of (resp : response) : json :=
  match result_field resp "fileId" with
  | Ok f => f
  | _ => JNull
  end.

Definition job_running (st : json) : Prop :=
  is_str st "complete" = false /\ is_str st "failed" = false.

(** In progress and no file id yet. *)
Definition still_running (verbose : bool) (resp : response) : Prop :=
  exists st, status_response verbose resp st
    /\ job_running st
    /\ is_None (file_id_of resp) = true.

(** A file id, or a status that is complete or failed. *)
Definition terminal (verbose : bool) (resp : response) (st : json) : Prop :=
  status_response verbose resp st
  /\ (is_None (file_id_of resp) = false
      \/ is_str st "complete" = true
      \/ is_str st "failed" = true).

(** The log once the export job has been created. *)
Definition started (obj : QualtricsAPI) (sid : string) (finished_only : bool)
    (embedded_fields : list string) (h0 : list request) : list request :=
  h0 ++ [surveys_request obj; export_request obj sid finished_only embedded_fields].

(** The answer of the platform to the [n]-th status check (from 0) of a job
    created at log [h]. *)
Definition nth_status (server : list request -> request -> response)
    (obj : QualtricsAPI) (sid pid : string) (h : list request) (n : nat)
  : response :=
  server (h ++ poll_rounds obj sid pid n ++ [surveys_request obj])
         (status_request obj sid pid).

(** *** Pagination *)

(** The cell of a record under a column: its value there, [NaN] when the
    record has no such key. *)
Definition cell_of (row : dict) (c : string) : cell :=
  match dict_get row c with
  | Some v => Val v
  | None => NaN
  end.

(** The table [t] holds the records [rows], one row each and in their
    order: it has as many rows as there are records, labelled from zero;
    its columns are the keys of the records, each once; and its [k]-th row
    has, under every column, the cell of the [k]-th record. *)
Definition holds_rows (t : DataFrame) (rows : list dict) : Prop :=
  index t = seq 0 (length rows)
  /\ length (data t) = length rows
  /\ NoDup (columns t)
  /\ (forall c, c ∈ columns t <-> exists row, row ∈ rows /\ c ∈ map fst row)
  /\ (forall k row, rows !! k = Some row ->
        exists cells,
          data t !! k = Some cells
          /\ length cells = length (columns t)
          /\ forall n c, columns t !! n = Some c ->
                         cells !! n = Some (cell_of row c)).

Definition contacts_url (obj : QualtricsAPI) (ml_id : string) : string :=
  String.concat "/" [base_url obj; "mailinglists"; ml_id; "contacts"].

(** The cursor that leads to a chain of pages: the URL of its first page,
    [None] when the chain is empty. *)
Definition cursor_to (pages : list (string * response)) : json :=
  match pages with
  | [] => JNull
  | (u, _) :: _ => JStr u
  end.

(** A chain of pages, each with its URL: the platform answers a GET of the
    URL with the page, and the [nextPage] of a page is the URL of the page
    after it, [None] on the last. *)
Fixpoint linked (server : list request -> request -> response)
    (obj : QualtricsAPI) (pages : list (string * response)) : Prop :=
  match pages with
  | [] => True
  | (u, resp) :: rest =>
      (forall h, server h (get_request (_headers obj) u) = resp)
      /\ result_field resp "nextPage" = Ok (cursor_to rest)
      /\ linked server obj rest
  end.

Definition page_requests (obj : QualtricsAPI)
    (pages : list (string * response)) : list request :=
  map (fun p => get_request (_headers obj) (fst p)) pages.

(** * A simulated platform *)

Definition result_body (fields : dict) : response :=
  {| body := Some (JObj [("result", JObj fields)]); content := [] |}.

Definition sim_base : string := "https://sim.qualtrics.com/API/v3".

Definition sim_client : QualtricsAPI :=
  {| base_url := sim_base;
     library_id := "UR_1";
     api_token := "t0k3n";
     _headers := auth_headers "t0k3n";
     mls := Some ∅ |}.

(** An account with one mailing list. *)
Definition one_list_server (h : list request) (rq : request) : response :=
  result_body
    [("elements", JList [JObj [("name", JStr "panel"); ("id", JStr "ML_1");
                               ("category", JNull)]])].

(** An account where two mailing lists share a name. *)
Definition twin_lists : list json :=
  [JObj [("name", JStr "panel"); ("id", JStr "ML_1")];
   JObj [("name", JStr "pilot"); ("id", JStr "ML_2")];
   JObj [("name", JStr "panel"); ("id", JStr "ML_3")]].

Definition twin_server (h : list request) (rq : request) : response :=
  result_body [("elements", JList twin_lists)].

(** An export job of survey [SV_1], created with status [created], that
    answers [polls - 1] status checks with "in progress" and every later
    one with [final]. *)
Definition job_server (created : string) (polls : nat) (final : dict)
    (h : list request) (rq : request) : response :=
  if String.eqb (url rq) (sim_base +:+ "/surveys") then
    result_body [("elements", JList [JObj [("name", JStr "Survey A");
                                           ("id", JStr "SV_1")]])]
  else if String.eqb (url rq) (sim_base +:+ "/surveys/SV_1/export-responses") then
    result_body [("progressId", JStr "ES_1"); ("percentComplete", JNum 0);
                 ("status", JStr created)]
  else if String.eqb (url rq)
            (sim_base +:+ "/surveys/SV_1/export-responses/ES_1") then
    if (S (status_checks sim_client "SV_1" "ES_1" h) <? polls)%nat then
      result_body [("percentComplete", JNum 50); ("status", JStr "inProgress")]
    else result_body final
  else {| body := None; content := [Byte.x50; Byte.x4b] |}.

Definition job_complete : dict :=
  [("percentComplete", JNum 100); ("status", JStr "complete");
   ("fileId", JStr "F_1")].
Definition job_failed : dict :=
  [("percentComplete", JNum 70); ("status", JStr "failed")].
(** The file id is there while the status still says in progress. *)
Definition job_file_early : dict :=
  [("percentComplete", JNum 99); ("status", JStr "inProgress");
   ("fileId", JStr "F_1")].

Definition table_cell (s : string) : cell := Val (JStr s).

Definition sim_csv : DataFrame :=
  {| columns := ["StartDate"; "Q1"];
     index := [0; 1; 2; 3];
     data := [[table_cell "Start Date"; table_cell "How are you?"];
              [table_cell "{ImportId:startDate}"; table_cell "{ImportId:QID1}"];
              [table_cell "2021-12-19"; table_cell "Fine"];
              [table_cell "2021-12-20"; table_cell "Tired"]] |}.

Definition sim_read_csv (payload : list Byte.byte) : outcome DataFrame :=
  match payload with
  | [] => Raise (ValueError "No columns to parse from file")
  | _ => Ok sim_csv
  end.

(** Three pages of contacts of the mailing list [ML_1]. *)
Definition sim_person (id email : string) (history : list json) : json :=
  JObj [("id", JStr id); ("email", JStr email); ("language", JStr "EN");
        ("unsubscribed", JBool false); ("emailHistory", JList history)].

Definition sim_sent (dist result : string) : json :=
  JObj [("emailDistributionId", JStr dist); ("result", JStr result)].

Definition contacts_page (persons : list json) (next : json) : response :=
  result_body [("elements", JList persons); ("nextPage", next)].

Definition page_A : response :=
  contacts_page [sim_person "C1" "a@x.org" [sim_sent "D1" "Success"; sim_sent "D2" "Bounce"]]
                (JStr "https://sim.qualtrics.com/next/B").
Definition page_B : response :=
  contacts_page [sim_person "C2" "b@x.org" []; sim_person "C3" "c@x.org" [sim_sent "D1" "Success"]]
                (JStr "https://sim.qualtrics.com/next/C").
Definition page_C : response :=
  contacts_page [sim_person "C4" "d@x.org" [sim_sent "D2" "Success"]] JNull.

Definition rows_of (page : response) : list dict :=
  match _parse_distribution_page page with
  | Ok rows => rows
  | _ => []
  end.

(** The rows of the three pages of contacts: two for the contact of the
    first page, who was sent two messages, none for the first contact of the
    second page, who was sent none, one for each of the two others. *)
Definition sim_contact_row (id email dist result : string) : dict :=
  [("contactid", JStr id); ("email", JStr email); ("language", JStr "EN");
   ("unsubscribed", JBool false); ("emailDistributionId", JStr dist);
   ("result", JStr result)].

Definition contacts_server (h : list request) (rq : request) : response :=
  if String.eqb (url rq) "https://sim.qualtrics.com/next/B" then page_B
  else if String.eqb (url rq) "https://sim.qualtrics.com/next/C" then page_C
  else page_A.

(** The links of the distribution [D1], in three pages; the page at
    [bad_url] comes as [broken] the first [failures] times it is asked for. *)
Definition links_page (link : string) (next : json) : response :=
  result_body [("elements", JList [JObj [("contactId", JStr link)]]);
               ("nextPage", next)].

Definition fetches_of (u : string) (h : list request) : nat :=
  length (filter (fun rq => String.eqb (url rq) u = true) h).

Definition next_2 : string := "https://sim.qualtrics.com/next/2".
Definition next_3 : string := "https://sim.qualtrics.com/next/3".

(** A response that lacks [result] altogether, and a second page that
    lacks only its [nextPage]. *)
Definition no_result : response :=
  {| body := Some (JObj [("meta", JObj [])]); content := [] |}.
Definition no_next_page : response :=
  result_body [("elements", JList [JObj [("contactId", JStr "C2")]])].

Definition links_server (bad_url : string) (failures : nat)
    (broken : response) (h : list request) (rq : request) : response :=
  if String.eqb (url rq) (sim_base +:+ "/surveys") then
    result_body [("elements", JList [JObj [("name", JStr "Survey A");
                                           ("id", JStr "SV_1")]])]
  else if String.eqb (url rq) bad_url
          && (fetches_of bad_url h <? failures)%nat then broken
  else if String.eqb (url rq) next_2 then links_page "C2" (JStr next_3)
  else if String.eqb (url rq) next_3 then links_page "C3" JNull
  else links_page "C1" (JStr next_2).

(** The call the statements about the links paginator run. *)
Definition sim_get_dist_links (server : list request -> request -> response)
  : outcome DataFrame * world :=
  _get_dist_links server 5 "D1" "Survey A" false (mkWorld sim_client []).

(** The [contactId] column of a table of links. *)
Definition contact_ids (o : outcome DataFrame) : option (list (list cell)) :=
  match o with
  | Ok t => Some (data t)
  | _ => None
  end.

(** *** Surveys and distributions *)

(** A survey record that goes by another name than [suname]. *)
Definition other_survey (suname : string) (survey : json) : Prop :=
  exists n, getitem survey "name" = Ok n /\ is_str n suname = false.

Definition distributions_request (obj : QualtricsAPI) (sid : json) : request :=
  {| meth := GET;
     url := String.concat "/" [base_url obj; "distributions"];
     headers := _headers obj;
     params := Some [("surveyId", sid)];
     json_arg := None;
     stream := false |}.

(** A distribution record as the platform sends it, seen through the five
    fields [_get_distribution_ids] reads. *)
Record distribution : Type := mkDistribution {
  d_type : json;
  d_sample : json;
  d_id : json;
  d_list : string;
  d_date : json
}.

Definition is_distribution (result : json) (d : distribution) : Prop :=
  exists recipients,
    getitem result "requestType" = Ok (d_type d)
    /\ getitem result "recipients" = Ok recipients
    /\ getitem recipients "sampleId" = Ok (d_sample d)
    /\ getitem result "id" = Ok (d_id d)
    /\ getitem recipients "mailingListId" = Ok (JStr (d_list d))
    /\ getitem result "sendDate" = Ok (d_date d).

(** An invite that was not sent to a sample. *)
Definition is_invite (d : distribution) : bool :=
  is_str (d_type d) "Invite" && is_None (d_sample d).

Definition invite_of (d : distribution) : json :=
  JObj [("dist_id", d_id d); ("send_date", d_date d)].

(** *** Tables *)

(** The cells of a column, top down. *)
Definition column_cells (df : DataFrame) (col : string) : option (list cell) :=
  match position col (columns df) with
  | Some n => Some (map (fun row => nth n row NaN) (data df))
  | None => None
  end.

(** Every row has one cell per column, and no two columns share a name. *)
Definition well_formed (df : DataFrame) : Prop :=
  NoDup (columns df)
  /\ Forall (fun row => length row = length (columns df)) (data df).

(** *** The links of a distribution *)

Definition links_request (obj : QualtricsAPI) (dist_id : string) (sid : json)
  : request :=
  {| meth := GET;
     url := String.concat "/" [base_url obj; "distributions"; dist_id; "links"];
     headers := _headers obj;
     params := Some [("surveyId", sid)];
     json_arg := None;
     stream := false |}.

(** The frame [pd.DataFrame] makes of the elements of a page. *)
Definition page_frame (page : response) (frame : DataFrame) : Prop :=
  exists elements,
    result_field page "elements" = Ok elements
    /\ pd_DataFrame elements = Ok frame.

(** *** Contacts *)

(** What a contact has of the row it was made from: the email of the row,
    its language exactly when a language column is given, embedded data
    exactly when embedded columns are given. *)
Definition contact_of_row (cols : list string) (emailcol : string)
    (langcol : option string) (ecols : option (list string))
    (row : list cell) (contact : dict) : Prop :=
  exists label e,
    row_getattr cols label row emailcol = Ok (Val e)
    /\ dict_get contact "email" = Some e
    /\ match langcol with
       | Some lc => exists l, row_getattr cols label row lc = Ok (Val l)
                              /\ dict_get contact "language" = Some l
       | None => dict_get contact "language" = None
       end
    /\ match ecols with
       | Some ecs => exists values, getattrs cols label row ecs = Ok values
                       /\ dict_get contact "embeddedData"
                          = Some (JObj (dict_zip ecs values))
       | None => dict_get contact "embeddedData" = None
       end.

Definition import_request (obj : QualtricsAPI) (mlid : string)
    (contacts : list dict) : request :=
  {| meth := POST;
     url := String.concat "/" [base_url obj; "mailinglists"; mlid;
                               "contactimports"];
     headers := _headers obj;
     params := None;
     json_arg := Some (JObj [("contacts", JList (map JObj contacts))]);
     stream := false |}.

Definition create_links_request (obj : QualtricsAPI) (ts : string)
    (sid mlid : json) : request :=
  {| meth := POST;
     url := String.concat "/" [base_url obj; "distributions"];
     headers := _headers obj;
     params := None;
     json_arg := Some (JObj [("surveyId", sid);
                             ("linkType", JStr "Individual");
                             ("action", JStr "CreateDistribution");
                             ("description", JStr ("dist " +:+ ts));
                             ("mailingListId", mlid)]);
     stream := false |}.

(** An account with three surveys, two of them of one name. *)
Definition sim_surveys : list json :=
  [JObj [("name", JStr "Survey B"); ("id", JStr "SV_2")];
   JObj [("name", JStr "Survey A"); ("id", JStr "SV_1")];
   JObj [("name", JStr "Survey A"); ("id", JStr "SV_9")]].

(** The distributions of survey [SV_1] are [results]; every other request
    is answered with the list of the surveys. *)
Definition dist_server (results : list json) (h : list request)
    (rq : request) : response :=
  if String.eqb (url rq) (sim_base +:+ "/distributions") then
    result_body [("elements", JList results)]
  else result_body [("elements", JList sim_surveys)].

Definition sim_distribution (kind id list : string) (sample date : json)
  : json :=
  JObj [("id", JStr id); ("requestType", JStr kind); ("sendDate", date);
        ("recipients", JObj [("mailingListId", JStr list);
                             ("sampleId", sample)])].

Definition sim_distributions : list json :=
  [sim_distribution "Invite" "EMD_1" "ML_1" JNull (JStr "2021-12-19T19:54:09Z");
   sim_distribution "Reminder" "EMD_2" "ML_1" JNull (JStr "2021-12-21T08:00:00Z");
   sim_distribution "Invite" "EMD_3" "ML_2" (JStr "SMP_1") (JStr "2021-12-22T08:00:00Z");
   sim_distribution "Invite" "EMD_4" "ML_1" JNull (JStr "2021-12-23T08:00:00Z")].

Definition sim_reminders : list json :=
  [sim_distribution "Reminder" "EMD_2" "ML_1" JNull (JStr "2021-12-21T08:00:00Z")].

(** A job that never leaves "in progress". *)
Definition job_idle : dict :=
  [("percentComplete", JNum 50); ("status", JStr "inProgress")].

(** A page of contacts that names itself as the next page. *)
Definition page_loop : response :=
  contacts_page [sim_person "C2" "b@x.org" [sim_sent "D1" "Success"]]
                (JStr "https://sim.qualtrics.com/next/B").

Definition cycle_server (h : list request) (rq : request) : response :=
  if String.eqb (url rq) "https://sim.qualtrics.com/next/B" then page_loop
  else page_A.

(** A client whose cache holds the mailing list [panel]. *)
Definition sim_cached : QualtricsAPI :=
  {| base_url := sim_base;
     library_id := "UR_1";
     api_token := "t0k3n";
     _headers := auth_headers "t0k3n";
     mls := Some {["panel" := [("id", JStr "ML_1"); ("category", JNull)]]} |}.

(** Tables of contacts. *)
Definition sim_contacts : DataFrame :=
  {| columns := ["email"; "lang"; "cohort"];
     index := [0; 1];
     data := [[table_cell "a@x.org"; table_cell "EN"; table_cell "2021"];
              [table_cell "b@x.org"; table_cell "ES"; table_cell "2022"]] |}.

Definition sim_contacts_twice : DataFrame :=
  {| columns := ["email"; "lang"; "cohort"];
     index := [0; 1; 2];
     data := [[table_cell "a@x.org"; table_cell "EN"; table_cell "2021"];
              [table_cell "b@x.org"; table_cell "ES"; table_cell "2022"];
              [table_cell "a@x.org"; table_cell "FR"; table_cell "2023"]] |}.

Definition sim_contacts_list : list dict :=
  [[("email", JStr "a@x.org"); ("language", JStr "EN");
    ("embeddedData", JObj [("cohort", JStr "2021")])];
   [("email", JStr "b@x.org"); ("language", JStr "ES");
    ("embeddedData", JObj [("cohort", JStr "2022")])]].

Definition sim_distribution_records : list distribution :=
  [mkDistribution (JStr "Invite") JNull (JStr "EMD_1") "ML_1"
                  (JStr "2021-12-19T19:54:09Z");
   mkDistribution (JStr "Reminder") JNull (JStr "EMD_2") "ML_1"
                  (JStr "2021-12-21T08:00:00Z");
   mkDistribution (JStr "Invite") (JStr "SMP_1") (JStr "EMD_3") "ML_2"
                  (JStr "2021-12-22T08:00:00Z");
   mkDistribution (JStr "Invite") JNull (JStr "EMD_4") "ML_1"
                  (JStr "2021-12-23T08:00:00Z")].

Definition sim_export : DataFrame :=
  {| columns := ["startdate"; "q1"];
     index := [0; 1];
     data := [[table_cell "2021-12-19"; table_cell "Fine"];
              [table_cell "2021-12-20"; table_cell "Tired"]] |}.

Definition sim_contacts_spaced : DataFrame :=
  {| columns := ["e mail"; "lang"];
     index := [0];
     data := [[table_cell "a@x.org"; table_cell "EN"]] |}.

Definition sim_contacts_none : DataFrame :=
  {| columns := ["email"; "lang"]; index := []; data := [] |}.

(** * Properties *)

(** ** Running the monad *)

Lemma bind_Ok {S A B} (m : M S A) (k : A -> M S B) s a s' :
  m s = (Ok a, s') -> bind m k s = k a s'.
Proof. intros H. unfold bind. now rewrite H. Qed.

Lemma bind_Raise {S A B} (m : M S A) (k : A -> M S B) s e s' :
  m s = (Raise e, s') -> bind m k s = (Raise e, s').
Proof. intros H. unfold bind. now rewrite H. Qed.

Lemma bind_Ok_inv {S A B} (m : M S A) (k : A -> M S B) s b s' :
  bind m k s = (Ok b, s') ->
  exists a s1, m s = (Ok a, s1) /\ k a s1 = (Ok b, s').
Proof.
  unfold bind. destruct (m s) as [[a | e | | ] s1]; intros H;
    try discriminate.
  exists a, s1. split; [reflexivity | exact H].
Qed.

Lemma lift_Ok_inv {S A} (o : outcome A) (s s' : S) a :
  lift o s = (Ok a, s') -> o = Ok a /\ s' = s.
Proof. unfold lift. intros H. inversion H. split; reflexivity. Qed.

(** ** The tabular converter *)

Lemma dict_get_set (d : dict) k v k' :
  dict_get (dict_set d k v) k' =
  if String.eqb k k' then Some v else dict_get d k'.
Proof.
  induction d as [| [k0 v0] d IH]; simpl.
  - reflexivity.
  - destruct (String.eqb k0 k) eqn:E0; simpl.
    + apply String.eqb_eq in E0. subst k0.
      destruct (String.eqb k k'); reflexivity.
    + rewrite IH. destruct (String.eqb k0 k') eqn:E1; [| reflexivity].
      apply String.eqb_eq in E1. subst k0.
      rewrite String.eqb_sym in E0. now rewrite E0.
Qed.

(** A key of the right operand of [a | b] wins; for a key [b] holds once
    that is the value [b] has for it. *)
Lemma dict_get_or (b : dict) : forall (a : dict) k,
  NoDup (map fst b) ->
  dict_get (dict_or a b) k =
  match dict_get b k with
  | Some v => Some v
  | None => dict_get a k
  end.
Proof.
  unfold dict_or.
  induction b as [| [k0 v0] b IH]; intros a k Hnd; simpl.
  - reflexivity.
  - inversion Hnd as [| ? ? Hnotin Hnd']; subst.
    rewrite IH by assumption. rewrite dict_get_set.
    destruct (String.eqb k0 k) eqn:E; [| reflexivity].
    apply String.eqb_eq in E. subst k0.
    destruct (dict_get b k) eqn:G; [| reflexivity].
    exfalso. apply Hnotin. clear -G.
    induction b as [| [k1 v1] b IH]; simpl in *; [discriminate |].
    destruct (String.eqb k1 k) eqn:E.
    + apply String.eqb_eq in E. subst. left.
    + right. now apply IH.
Qed.

Lemma merge_history_objects p_dict (hist : list dict) :
  merge_history p_dict (map JObj hist) = Ok (map (dict_or p_dict) hist).
Proof.
  induction hist as [| e hist IH]; simpl.
  - reflexivity.
  - now rewrite IH.
Qed.

Lemma parse_person_contact person c :
  is_contact person c ->
  parse_person person = Ok (map (dict_or (contact_fields c)) (c_history c)).
Proof.
  intros (d & -> & Hid & Hem & Hla & Hun & Hhi).
  unfold parse_person, getitem.
  rewrite Hid, Hem, Hla, Hun, Hhi. simpl.
  apply merge_history_objects.
Qed.

(** C8: a contact with N entries in its email history gives N rows, the
    n-th of them the contact-level fields merged with the n-th entry, and
    a page gives the rows of its contacts one contact after the other. *)
Theorem parse_distribution_page_rows (resp : response) (persons : list json)
    (cs : list contact) :
  result_field resp "elements" = Ok (JList persons) ->
  Forall2 is_contact persons cs ->
  _parse_distribution_page resp
    = Ok (concat (map (fun c => map (dict_or (contact_fields c)) (c_history c)) cs))
  /\ Forall2 (fun person c =>
        exists rows, parse_person person = Ok rows
          /\ length rows = length (c_history c)
          /\ forall n e, c_history c !! n = Some e ->
               rows !! n = Some (dict_or (contact_fields c) e)) persons cs.
Proof.
  intros Hel Hcs. split.
  - unfold _parse_distribution_page. rewrite Hel. simpl. clear Hel.
    induction Hcs as [| person c persons cs Hc _ IH]; simpl.
    + reflexivity.
    + rewrite (parse_person_contact _ _ Hc). simpl. now rewrite IH.
  - clear Hel. induction Hcs as [| person c persons cs Hc _ IH];
      constructor; [| exact IH].
    exists (map (dict_or (contact_fields c)) (c_history c)).
    split; [now apply parse_person_contact |].
    split; [now rewrite length_map |].
    intros n e Hn. rewrite list_lookup_fmap, Hn. reflexivity.
Qed.

(** ** The requests the client sends *)

Lemma str_args_strings (ss : list string) : str_args (map JStr ss) = Ok ss.
Proof. induction ss as [| s ss IH]; simpl; [reflexivity | now rewrite IH]. Qed.

Lemma run_build_url (ss : list string) (w : world) :
  _build_url (map JStr ss) w
  = (Ok (String.concat "/" (base_url (self w) :: ss)), w).
Proof.
  unfold _build_url, bind, gets, lift, ret. now rewrite str_args_strings.
Qed.

Lemma run_requests_get server u hdrs ps st (w : world) :
  requests_get server (JStr u) hdrs ps st w
  = (Ok (server (log w) {| meth := GET; url := u; headers := hdrs;
                           params := ps; json_arg := None; stream := st |}),
     add_request {| meth := GET; url := u; headers := hdrs; params := ps;
                    json_arg := None; stream := st |} w).
Proof. reflexivity. Qed.

Lemma lift_run {S A} (o : outcome A) (a : A) (s : S) :
  o = Ok a -> lift o s = (Ok a, s).
Proof. now intros ->. Qed.

Lemma bind_lift {S A B} (o : outcome A) (k : A -> M S B) (s : S) :
  bind (lift o) k s
  = match o with
    | Ok a => k a s
    | Raise e => (Raise e, s)
    | OutOfFuel => (OutOfFuel, s)
    | Unmodelled => (Unmodelled, s)
    end.
Proof. unfold bind, lift. now destruct o. Qed.

Ltac run_with H := erewrite bind_Ok by (exact H).
Ltac run_lift H := erewrite bind_Ok by (exact (lift_run _ _ _ H)).
Ltac run_refl := erewrite bind_Ok by reflexivity.

(** ** The mailing-list cache *)

Lemma size_list_to_set_NoDup (l : list string) :
  size (list_to_set l : gset string) = length l -> NoDup l.
Proof.
  assert (Hle : forall l' : list string,
             size (list_to_set l' : gset string) <= length l').
  { induction l' as [| x l' IH].
    - rewrite list_to_set_nil, size_empty. reflexivity.
    - rewrite list_to_set_cons, size_union_alt, size_singleton.
      assert (Hsub : size (list_to_set l' ∖ {[x]} : gset string)
                     <= size (list_to_set l' : gset string)).
      { apply subseteq_size. set_solver. }
      cbn [length]. lia. }
  induction l as [| x l IH]; intros Hsz.
  - constructor.
  - rewrite list_to_set_cons in Hsz. cbn [length] in Hsz.
    destruct (decide (x ∈ l)) as [Hin | Hnin].
    + exfalso.
      assert (Heq : ({[x]} ∪ list_to_set l : gset string) = list_to_set l).
      { set_solver. }
      rewrite Heq in Hsz. specialize (Hle l). lia.
    + constructor; [exact Hnin |]. apply IH.
      rewrite size_union in Hsz by set_solver.
      rewrite size_singleton in Hsz. lia.
Qed.

Lemma names_of_length items names :
  names_of items = Ok names -> length names = length items.
Proof.
  revert names. induction items as [| ml items IH]; simpl; intros names H.
  - now inversion H.
  - destruct (getitem ml "name") as [n | | |]; simpl in H; try discriminate.
    destruct n; try discriminate.
    destruct (names_of items) as [ns | | |]; simpl in H; try discriminate.
    inversion H. simpl. now rewrite (IH ns).
Qed.

Section Duplicates.

Variable server : list request -> request -> response.
Variables (base token : string).

Local Abbreviation listing :=
  (get_request (auth_headers token) (String.concat "/" [base; "mailinglists"])).

Variables (items : list json) (names : list string).

(** The listing has string names, two of them equal. *)
Hypothesis Hlisting :
  forall h, result_field (server h listing) "elements" = Ok (JList items).
Hypothesis Hnames : names_of items = Ok names.
Variables (i j : nat) (n : string).
Hypothesis Hij : i < j.
Hypothesis Hi : names !! i = Some n.
Hypothesis Hj : names !! j = Some n.

Lemma list_mailing_lists_duplicates (w : world) :
  base_url (self w) = base ->
  _headers (self w) = auth_headers token ->
  _list_mailing_lists server w
  = (Raise (ValueError duplicate_names_message), add_request listing w).
Proof.
  intros Hb Hh. unfold _list_mailing_lists.
  run_with (run_build_url ["mailinglists"] w).
  run_refl. run_with (run_requests_get server
                        (String.concat "/" [base_url (self w); "mailinglists"])
                        (_headers (self w)) None false w).
  rewrite Hb, Hh.
  unfold bind, lift. rewrite Hlisting. simpl. rewrite Hnames.
  destruct (size (list_to_set names : gset string) =? length items)%nat eqn:E;
    [| reflexivity].
  exfalso. apply Nat.eqb_eq in E.
  rewrite <- (names_of_length _ _ Hnames) in E.
  apply size_list_to_set_NoDup in E.
  pose proof (NoDup_lookup _ _ _ _ E Hi Hj). lia.
Qed.

(** C3: a listing with two entries of the same name makes the cache
    construction raise the duplicate-names error before any mapping is
    built: [_list_mailing_lists] only adds its request to the log, a
    client under construction is left without a cache, and a client that
    reloads after a creation keeps the cache it had. *)
Theorem duplicate_names_fail_fast :
  (forall w, base_url (self w) = base ->
     _headers (self w) = auth_headers token ->
     _list_mailing_lists server w
     = (Raise (ValueError duplicate_names_message), add_request listing w)
     /\ mls (self (add_request listing w)) = mls (self w))
  /\ (forall cls lib tok h,
       match tok with Some t => t | None => api_token_default cls end = token ->
       exists w', QualtricsAPI_new server cls base lib tok h
                  = (Raise (ValueError duplicate_names_message), w')
         /\ mls (self w') = None
         /\ log w' = h ++ [listing])
  /\ (forall w name category k,
       base_url (self w) = base ->
       _headers (self w) = auth_headers token ->
       get_mailing_list_id name w = (Raise (KeyError k), w) ->
       exists w', create_mailing_list server name category w
                  = (Raise (ValueError duplicate_names_message), w')
         /\ mls (self w') = mls (self w)).
Proof.
  split; [| split].
  - intros w Hb Hh. split; [now apply list_mailing_lists_duplicates |].
    reflexivity.
  - intros cls lib tok h Htok.
    eexists. unfold QualtricsAPI_new, __post_init__.
    run_refl. run_refl. cbn [self api_token]. rewrite Htok.
    erewrite bind_Raise
      by (apply list_mailing_lists_duplicates; reflexivity).
    split; [reflexivity |]. split; reflexivity.
  - intros w name category k Hb Hh Hget.
    eexists. unfold create_mailing_list, try_except_KeyError.
    rewrite Hget.
    run_with (run_build_url ["mailinglists"] w).
    run_refl. run_refl. run_refl.
    erewrite bind_Raise
      by (apply list_mailing_lists_duplicates; assumption).
    split; reflexivity.
Qed.

End Duplicates.

(** *** Creation *)

Lemma get_mailing_list_id_world name w :
  snd (get_mailing_list_id name w) = w.
Proof.
  unfold get_mailing_list_id, _get_mailing_list_attr, bind, gets, raise, lift.
  simpl. destruct (mls (self w)) as [m |]; [| reflexivity].
  destruct (m !! name); reflexivity.
Qed.

Lemma get_mailing_list_id_pure name w o w' :
  get_mailing_list_id name w = (o, w') -> w' = w.
Proof.
  intros H. pose proof (get_mailing_list_id_world name w) as Hw.
  rewrite H in Hw. exact Hw.
Qed.

Lemma pure_tail_world {A B} (o : outcome A) (k : A -> M world B) (w : world) :
  (forall a, snd (k a w) = w) -> snd (bind (lift o) k w) = w.
Proof. intros H. unfold bind, lift. destruct o; simpl; auto. Qed.

Lemma list_mailing_lists_world server w :
  snd (_list_mailing_lists server w) = add_request (listing_request (self w)) w.
Proof.
  unfold _list_mailing_lists.
  run_with (run_build_url ["mailinglists"] w).
  run_refl.
  run_with (run_requests_get server
              (String.concat "/" [base_url (self w); "mailinglists"])
              (_headers (self w)) None false w).
  fold (listing_request (self w)). fold (get_request (_headers (self w))
    (String.concat "/" [base_url (self w); "mailinglists"])).
  fold (listing_request (self w)).
  repeat (apply pure_tail_world; intros ?).
  match goal with
  | |- context [if ?b then _ else _] => destruct b; reflexivity
  end.
Qed.

(** C2: creating a mailing list whose name resolves returns the cached id
    and sends nothing; creating one whose name does not resolve sends one
    POST, reloads the cache and resolves again; after a creation that
    returned, the name resolves to the returned id and creating it again
    returns that id without another request. *)
Theorem create_mailing_list_idempotent server (name : string)
    (category : option string) (w : world) :
  (forall i, get_mailing_list_id name w = (Ok i, w) ->
     create_mailing_list server name category w = (Ok i, w))
  /\ (forall k m w2,
        get_mailing_list_id name w = (Raise (KeyError k), w) ->
        _list_mailing_lists server
          (add_request (creation_request (self w) name category) w) = (Ok m, w2) ->
        create_mailing_list server name category w
          = get_mailing_list_id name (set_mls m w2)
        /\ log w2 = log w ++ [creation_request (self w) name category;
                              listing_request (self w)])
  /\ (forall i w',
        create_mailing_list server name category w = (Ok i, w') ->
        get_mailing_list_id name w' = (Ok i, w')
        /\ (forall category',
              create_mailing_list server name category' w' = (Ok i, w'))
        /\ creation_posts (self w) (log w')
           <= creation_posts (self w) (log w) + 1).
Proof.
  assert (Hhit : forall c v i, get_mailing_list_id name v = (Ok i, v) ->
                   create_mailing_list server name c v = (Ok i, v)).
  { intros c v i H. unfold create_mailing_list, try_except_KeyError.
    now rewrite H. }
  assert (Hmiss : forall k m w2,
    get_mailing_list_id name w = (Raise (KeyError k), w) ->
    _list_mailing_lists server
      (add_request (creation_request (self w) name category) w) = (Ok m, w2) ->
    create_mailing_list server name category w
      = get_mailing_list_id name (set_mls m w2)
    /\ w2 = add_request (listing_request (self w))
              (add_request (creation_request (self w) name category) w)).
  { intros k m w2 Hget Hlist. split.
    - unfold create_mailing_list, try_except_KeyError. rewrite Hget.
      run_with (run_build_url ["mailinglists"] w).
      run_refl. run_refl. run_refl.
      fold (creation_request (self w) name category).
      change (mkWorld (self w) (log w ++ [creation_request (self w) name category]))
        with (add_request (creation_request (self w) name category) w).
      run_with Hlist. run_refl. reflexivity.
    - pose proof (list_mailing_lists_world server
        (add_request (creation_request (self w) name category) w)) as Hw.
      rewrite Hlist in Hw. exact Hw. }
  split; [apply Hhit | split].
  - intros k m w2 Hget Hlist.
    destruct (Hmiss k m w2 Hget Hlist) as [Hc ->]. split; [exact Hc |].
    unfold add_request; simpl. now rewrite <- app_assoc.
  - intros i w' Hcreate.
    assert (Hres : get_mailing_list_id name w' = (Ok i, w')
                   /\ (w' = w \/
                         log w' = log w ++ [creation_request (self w) name category;
                                            listing_request (self w)])).
    { destruct (get_mailing_list_id name w) as [o w0] eqn:Hget.
      pose proof (get_mailing_list_id_pure _ _ _ _ Hget) as ->.
      destruct o as [i0 | e | |].
      - rewrite (Hhit category w i0 Hget) in Hcreate.
        inversion Hcreate; subst. split; [exact Hget | now left].
      - destruct e;
          try (unfold create_mailing_list, try_except_KeyError in Hcreate;
               rewrite Hget in Hcreate; discriminate).
        destruct (_list_mailing_lists server
                    (add_request (creation_request (self w) name category) w))
          as [ol w2] eqn:Hlist.
        destruct ol as [m | e | |].
        + destruct (Hmiss key m w2 eq_refl eq_refl) as [Hc ->].
          rewrite Hc in Hcreate.
          pose proof (get_mailing_list_id_pure _ _ _ _ Hcreate) as ->.
          split; [exact Hcreate |]. right.
          unfold add_request; simpl. now rewrite <- app_assoc.
        + exfalso. revert Hcreate.
          unfold create_mailing_list, try_except_KeyError. rewrite Hget.
          run_with (run_build_url ["mailinglists"] w).
          run_refl. run_refl. run_refl.
          fold (creation_request (self w) name category).
          change (mkWorld (self w) (log w ++ [creation_request (self w) name category]))
            with (add_request (creation_request (self w) name category) w).
          erewrite bind_Raise by (exact Hlist). discriminate.
        + exfalso. revert Hcreate.
          unfold create_mailing_list, try_except_KeyError. rewrite Hget.
          run_with (run_build_url ["mailinglists"] w).
          run_refl. run_refl. run_refl.
          fold (creation_request (self w) name category).
          change (mkWorld (self w) (log w ++ [creation_request (self w) name category]))
            with (add_request (creation_request (self w) name category) w).
          unfold bind at 1. rewrite Hlist. discriminate.
        + exfalso. revert Hcreate.
          unfold create_mailing_list, try_except_KeyError. rewrite Hget.
          run_with (run_build_url ["mailinglists"] w).
          run_refl. run_refl. run_refl.
          fold (creation_request (self w) name category).
          change (mkWorld (self w) (log w ++ [creation_request (self w) name category]))
            with (add_request (creation_request (self w) name category) w).
          unfold bind at 1. rewrite Hlist. discriminate.
      - unfold create_mailing_list, try_except_KeyError in Hcreate.
        rewrite Hget in Hcreate. discriminate.
      - unfold create_mailing_list, try_except_KeyError in Hcreate.
        rewrite Hget in Hcreate. discriminate. }
    destruct Hres as [Hget Hlog]. split; [exact Hget |].
    split; [intros c'; now apply Hhit |].
    destruct Hlog as [-> | Hlog]; [lia |].
    rewrite Hlog. unfold creation_posts.
    rewrite filter_app, length_app.
    apply Nat.add_le_mono_l.
    rewrite filter_cons.
    rewrite (filter_cons_False _ (listing_request (self w)))
      by (cbv [is_creation_post listing_request get_request meth]; discriminate).
    rewrite filter_nil. case_decide; simpl; lia.
Qed.

(** ** The export poller *)

Lemma result_field_other (resp : response) a x b :
  result_field resp a = Ok x ->
  (exists y, result_field resp b = Ok y)
  \/ result_field resp b = Raise (KeyError b).
Proof.
  unfold result_field, response_json, getitem.
  destruct (body resp) as [j |]; simpl; [| discriminate].
  destruct j; simpl; try discriminate.
  destruct (dict_get fields "result") as [res |]; simpl; [| discriminate].
  destruct res; simpl; try discriminate.
  intros _. destruct (dict_get fields0 b); eauto.
Qed.

Lemma try_file_id {S} (resp : response) a x (s : S) :
  result_field resp a = Ok x ->
  try_except_KeyError (lift (result_field resp "fileId")) (ret JNull) s
  = (Ok (file_id_of resp), s).
Proof.
  intros H. unfold try_except_KeyError, lift, ret, file_id_of.
  destruct (result_field_other resp a x "fileId" H) as [[y ->] | ->];
    reflexivity.
Qed.

Lemma string_app_inv_head (a x y : string) : a +:+ x = a +:+ y -> x = y.
Proof.
  induction a as [| c a IH]; simpl; intros H; [exact H |].
  apply IH. now inversion H.
Qed.

Lemma surveys_url_not_status (obj : QualtricsAPI) sid pid :
  String.eqb (String.concat "/" [base_url obj; "surveys"]) (status_url obj sid pid)
  = false.
Proof.
  apply String.eqb_neq. unfold status_url. simpl. intros H.
  apply string_app_inv_head in H. discriminate.
Qed.

Section Poller.

Variable server : list request -> request -> response.
Variable pd_read_csv : list Byte.byte -> outcome DataFrame.
Variable obj : QualtricsAPI.
Variables (surv_name sid pid : string) (verbose : bool).

Hypothesis Hsurvey : survey_listed server obj surv_name sid.

Lemma run_get_survey_id (h : list request) :
  _get_survey_id server surv_name (mkWorld obj h)
  = (Ok (JStr sid), mkWorld obj (h ++ [surveys_request obj])).
Proof.
  destruct (Hsurvey h) as (surveys & Hel & Hfind).
  assert (Hlist : _list_surveys server (mkWorld obj h)
                  = (Ok (server h (surveys_request obj)),
                     mkWorld obj (h ++ [surveys_request obj])))
    by reflexivity.
  unfold _get_survey_id. run_with Hlist.
  unfold bind, lift. rewrite Hel. simpl. rewrite Hfind. reflexivity.
Qed.

Lemma status_checks_app l1 l2 :
  status_checks obj sid pid (l1 ++ l2)
  = status_checks obj sid pid l1 + status_checks obj sid pid l2.
Proof. unfold status_checks. now rewrite filter_app, length_app. Qed.

Lemma surveys_request_no_check :
  is_status_check obj sid pid (surveys_request obj) = false.
Proof.
  unfold is_status_check, surveys_request, get_request. cbn [meth url stream].
  now rewrite surveys_url_not_status.
Qed.

Lemma status_request_check :
  is_status_check obj sid pid (status_request obj sid pid) = true.
Proof.
  unfold is_status_check, status_request, get_request. cbn [meth url stream].
  now rewrite String.eqb_refl.
Qed.

Lemma status_checks_cons rq l :
  status_checks obj sid pid (rq :: l)
  = (if is_status_check obj sid pid rq then 1 else 0)
    + status_checks obj sid pid l.
Proof.
  unfold status_checks. rewrite filter_cons.
  destruct (is_status_check obj sid pid rq); case_decide; simpl; congruence.
Qed.

Lemma status_checks_rounds n :
  status_checks obj sid pid (poll_rounds obj sid pid n) = n.
Proof.
  induction n as [| n IH]; [reflexivity |]. cbn [poll_rounds].
  rewrite !status_checks_cons, surveys_request_no_check, status_request_check.
  simpl. now rewrite IH.
Qed.

(** One turn of the loop. *)
Lemma poll_step fuel st rc h resp st' :
  job_running st ->
  server (h ++ [surveys_request obj]) (status_request obj sid pid) = resp ->
  status_response verbose resp st' ->
  poll server (S fuel) surv_name verbose (JStr pid) st JNull rc (mkWorld obj h)
  = poll server fuel surv_name verbose (JStr pid) st' (file_id_of resp) (Some resp)
      (mkWorld obj (h ++ [surveys_request obj; status_request obj sid pid])).
Proof.
  intros [Hc Hf] Hresp (Hst & pc & Hpc & Hfmt).
  cbn [poll]. rewrite Hc, Hf. cbn [negb andb is_None].
  run_with (run_get_survey_id h).
  run_with (run_build_url ["surveys"; sid; "export-responses"; pid]
              (mkWorld obj (h ++ [surveys_request obj]))).
  run_refl. run_refl. cbn [log self].
  fold (status_url obj sid pid).
  fold (get_request (_headers obj) (status_url obj sid pid)).
  fold (status_request obj sid pid). rewrite Hresp.
  erewrite bind_Ok by (unfold lift; rewrite Hpc; reflexivity).
  erewrite bind_Ok
    by (destruct verbose; [unfold lift; rewrite (Hfmt eq_refl) |]; reflexivity).
  erewrite bind_Ok by (apply (try_file_id resp _ _ _ Hpc)).
  erewrite bind_Ok by (unfold lift; rewrite Hst; reflexivity).
  now rewrite <- app_assoc.
Qed.

(** The loop is left as soon as its condition fails, whatever the fuel. *)
Lemma poll_stop fuel st ready rc w :
  negb (is_str st "complete") && negb (is_str st "failed") && is_None ready
  = false ->
  poll server fuel surv_name verbose (JStr pid) st ready rc w
  = (Ok (st, ready, rc), w).
Proof. intros H. destruct fuel; cbn [poll]; now rewrite H. Qed.

(** [n] turns on responses that are in progress and carry no file id. *)
Lemma poll_running n : forall h st rc,
  job_running st ->
  (forall j, j < n ->
     still_running verbose
       (server (h ++ poll_rounds obj sid pid j ++ [surveys_request obj])
               (status_request obj sid pid))) ->
  exists st' rc',
    job_running st'
    /\ (n = 0 -> rc' = rc)
    /\ (forall m, n = S m ->
          rc' = Some (server (h ++ poll_rounds obj sid pid m
                                ++ [surveys_request obj])
                             (status_request obj sid pid)))
    /\ forall fuel,
         poll server (n + fuel) surv_name verbose (JStr pid) st JNull rc
              (mkWorld obj h)
         = poll server fuel surv_name verbose (JStr pid) st' JNull rc'
              (mkWorld obj (h ++ poll_rounds obj sid pid n)).
Proof.
  induction n as [| n IH]; intros h st rc Hrun Hresp.
  - exists st, rc. split; [exact Hrun |]. split; [reflexivity |].
    split; [discriminate |].
    intros fuel. simpl. now rewrite app_nil_r.
  - destruct (Hresp 0 ltac:(lia)) as (st1 & Hst1 & Hrun1 & Hnone).
    simpl in Hst1, Hnone.
    destruct (IH (h ++ [surveys_request obj; status_request obj sid pid]) st1
                (Some (server (h ++ [surveys_request obj])
                              (status_request obj sid pid))) Hrun1)
      as (st' & rc' & Hrun' & Hrc0 & HrcS & Hpoll).
    { intros j Hj. specialize (Hresp (S j) ltac:(lia)).
      cbn [poll_rounds] in Hresp.
      rewrite <- app_assoc. exact Hresp. }
    exists st', rc'. split; [exact Hrun' |]. split; [discriminate |]. split.
    + intros m Hm. injection Hm as <-. destruct n as [| n'].
      * now rewrite Hrc0.
      * rewrite (HrcS n' eq_refl). cbn [poll_rounds].
        now rewrite <- app_assoc.
    + intros fuel. cbn [Nat.add].
      rewrite (poll_step _ _ _ _ _ st1 Hrun eq_refl Hst1).
      destruct (file_id_of (server (h ++ [surveys_request obj])
                                   (status_request obj sid pid)));
        try discriminate.
      rewrite Hpoll. cbn [poll_rounds]. now rewrite <- app_assoc.
Qed.

Lemma poll_rounds_snoc n :
  poll_rounds obj sid pid (S n)
  = poll_rounds obj sid pid n ++ [surveys_request obj; status_request obj sid pid].
Proof.
  induction n as [| n IH]; [reflexivity |].
  cbn [poll_rounds] in *. cbn [app]. do 2 f_equal. exact IH.
Qed.

(** The loop on a job whose first [k - 1] status responses are in progress
    without a file id and whose [k]-th is terminal: [k] turns, then out. *)
Lemma poll_until k h st0 st :
  1 <= k ->
  job_running st0 ->
  (forall j, j < k - 1 ->
     still_running verbose (nth_status server obj sid pid h j)) ->
  terminal verbose (nth_status server obj sid pid h (k - 1)) st ->
  forall fuel, k <= fuel ->
    poll server fuel surv_name verbose (JStr pid) st0 JNull None (mkWorld obj h)
    = (Ok (st, file_id_of (nth_status server obj sid pid h (k - 1)),
           Some (nth_status server obj sid pid h (k - 1))),
       mkWorld obj (h ++ poll_rounds obj sid pid k)).
Proof.
  intros Hk Hrun0 Hrun [Hresp Hterm] fuel Hfuel.
  destruct k as [| n]; [lia |]. replace (S n - 1) with n in * by lia.
  destruct (poll_running n h st0 None Hrun0 Hrun)
    as (st' & rc' & Hrun' & _ & _ & Hpoll).
  replace fuel with (n + S (fuel - S n)) by lia.
  rewrite Hpoll.
  rewrite (poll_step _ _ _ _ _ st Hrun' eq_refl).
  2:{ rewrite <- app_assoc. exact Hresp. }
  rewrite <- !app_assoc. fold (nth_status server obj sid pid h n).
  rewrite poll_stop.
  - now rewrite poll_rounds_snoc.
  - destruct Hterm as [H | [H | H]]; rewrite H;
      repeat (simpl; rewrite ?andb_false_r); reflexivity.
Qed.

Lemma download_request_no_check fid :
  is_status_check obj sid pid (download_request obj sid fid) = false.
Proof.
  unfold is_status_check, download_request. cbn [meth url stream].
  apply andb_false_r.
Qed.

Lemma export_request_no_check fo emb :
  is_status_check obj sid pid (export_request obj sid fo emb) = false.
Proof. reflexivity. Qed.

Section Job.

Variables (finished_only : bool) (embedded_fields : list string).
Variables (h0 : list request) (st0 : json).

Local Abbreviation created :=
  (server (h0 ++ [surveys_request obj])
          (export_request obj sid finished_only embedded_fields)).
Local Abbreviation start := (started obj sid finished_only embedded_fields h0).

Hypothesis Hpid : result_field created "progressId" = Ok (JStr pid).
Hypothesis Hst0 : result_field created "status" = Ok st0.

(** Up to the loop. *)
Lemma export_prelude fuel :
  _get_surv_data server pd_read_csv fuel surv_name verbose finished_only
                 embedded_fields (mkWorld obj h0)
  = bind (poll server fuel surv_name verbose (JStr pid) st0 JNull None)
      (fun st =>
         if is_str (fst (fst st)) "failed"
         then raise (PlainException "export failed")
         else
           (resp <- match snd st with
                    | Some r => ret r
                    | None => raise (UnboundLocalError "req_check_resp")
                    end ;;
            file_id <- lift (result_field resp "fileId") ;;
            sid' <- _get_survey_id server surv_name ;;
            req_dl_url <- _build_url [JStr "surveys"; sid';
                                      JStr "export-responses"; file_id;
                                      JStr "file"] ;;
            req_dl <- requests_get server (JStr req_dl_url) (_headers obj)
                                   None true ;;
            df <- lift (pd_read_csv (content req_dl)) ;;
            lift (lower_columns (reset_index (iloc_from 2 df))))%M)
      (mkWorld obj start).
Proof.
  unfold _get_surv_data.
  run_with (run_get_survey_id h0).
  run_with (run_build_url ["surveys"; sid; "export-responses"]
              (mkWorld obj (h0 ++ [surveys_request obj]))).
  run_refl. run_refl.
  run_lift Hpid. run_lift Hst0.
  unfold started. cbn [log self]. rewrite <- app_assoc. reflexivity.
Qed.

(** The job is already complete when it is created: the loop body never
    runs and the response it would bind is not bound. *)
Lemma export_created_complete fuel :
  st0 = JStr "complete" ->
  _get_surv_data server pd_read_csv fuel surv_name verbose finished_only
                 embedded_fields (mkWorld obj h0)
  = (Raise (UnboundLocalError "req_check_resp"), mkWorld obj start).
Proof.
  intros E. rewrite export_prelude, E.
  rewrite (bind_Ok _ _ _ _ _
             (poll_stop fuel (JStr "complete") JNull None _ eq_refl)).
  reflexivity.
Qed.

Hypothesis Hrun0 : job_running st0.

Variable k : nat.
Hypothesis Hk : 1 <= k.
Hypothesis Hbefore :
  forall j, j < k - 1 ->
    still_running verbose (nth_status server obj sid pid start j).

Local Abbreviation last := (nth_status server obj sid pid start (k - 1)).

Lemma trace_status_checks tail :
  status_checks obj sid pid tail = 0 ->
  status_checks obj sid pid
    ([surveys_request obj; export_request obj sid finished_only embedded_fields]
     ++ poll_rounds obj sid pid k ++ tail) = k.
Proof.
  intros Htail. rewrite !status_checks_app, status_checks_rounds, Htail.
  rewrite !status_checks_cons, surveys_request_no_check,
    export_request_no_check.
  unfold status_checks. simpl. lia.
Qed.

(** C4: a job that is in progress for [k - 1] status checks and complete,
    with its file id, at the [k]-th: the poller sends exactly [k] status
    checks, then downloads the file, and returns the CSV without its first
    two rows, reindexed from zero, the column names in lower case.  The
    column names of the CSV are ASCII, where [lower] is [str.lower]. *)
Theorem export_complete_after_k_polls (fid : string) (csv : DataFrame) :
  status_response verbose last (JStr "complete") ->
  result_field last "fileId" = Ok (JStr fid) ->
  pd_read_csv
    (content (server (start ++ poll_rounds obj sid pid k ++ [surveys_request obj])
                     (download_request obj sid fid))) = Ok csv ->
  columns csv <> [] ->
  forallb ascii_only (columns csv) = true ->
  forall fuel, k <= fuel ->
    _get_surv_data server pd_read_csv fuel surv_name verbose finished_only
                   embedded_fields (mkWorld obj h0)
    = (Ok {| columns := map lower (columns csv);
             index := seq 0 (length (drop 2 (data csv)));
             data := drop 2 (data csv) |},
       mkWorld obj (start ++ poll_rounds obj sid pid k
                      ++ [surveys_request obj; download_request obj sid fid]))
    /\ status_checks obj sid pid
         ([surveys_request obj;
           export_request obj sid finished_only embedded_fields]
          ++ poll_rounds obj sid pid k
          ++ [surveys_request obj; download_request obj sid fid]) = k.
Proof.
  intros Hlast Hfid Hcsv Hcols Hascii fuel Hfuel. split.
  - rewrite export_prelude.
    run_with (poll_until k start st0 (JStr "complete") Hk Hrun0 Hbefore
                (conj Hlast (or_intror (or_introl eq_refl))) fuel Hfuel).
    cbn [fst snd is_str String.eqb Ascii.eqb Bool.eqb].
    run_refl. run_lift Hfid.
    run_with (run_get_survey_id (start ++ poll_rounds obj sid pid k)).
    run_with (run_build_url ["surveys"; sid; "export-responses"; fid; "file"]
                (mkWorld obj ((start ++ poll_rounds obj sid pid k)
                                ++ [surveys_request obj]))).
    run_refl. rewrite app_assoc in Hcsv. run_lift Hcsv.
    unfold lift, lower_columns, reset_index, iloc_from. cbn [columns data index].
    rewrite Hascii.
    destruct (columns csv) as [| c cs] eqn:Ec; [congruence |].
    cbn [log self]. rewrite <- !app_assoc. reflexivity.
  - apply trace_status_checks.
    rewrite !status_checks_cons, surveys_request_no_check,
      download_request_no_check. reflexivity.
Qed.

(** C5: a job that is in progress for [k - 1] status checks and failed at
    the [k]-th: the poller raises the export failure after these [k]
    checks; it sends nothing more, in particular no download (the one
    request that streams), and returns no table. *)
Theorem export_failed_no_download :
  status_response verbose last (JStr "failed") ->
  forall fuel, k <= fuel ->
    _get_surv_data server pd_read_csv fuel surv_name verbose finished_only
                   embedded_fields (mkWorld obj h0)
    = (Raise (PlainException "export failed"),
       mkWorld obj (start ++ poll_rounds obj sid pid k))
    /\ Forall (fun rq => stream rq = false)
         ([surveys_request obj;
           export_request obj sid finished_only embedded_fields]
          ++ poll_rounds obj sid pid k)
    /\ status_checks obj sid pid
         ([surveys_request obj;
           export_request obj sid finished_only embedded_fields]
          ++ poll_rounds obj sid pid k) = k.
Proof.
  intros Hlast fuel Hfuel. split; [| split].
  - rewrite export_prelude.
    run_with (poll_until k start st0 (JStr "failed") Hk Hrun0 Hbefore
                (conj Hlast (or_intror (or_intror eq_refl))) fuel Hfuel).
    reflexivity.
  - apply Forall_app. split; [repeat constructor |].
    clear. induction k as [| n IH]; cbn [poll_rounds]; repeat constructor.
    exact IH.
  - pose proof (trace_status_checks [] eq_refl) as H.
    now rewrite app_nil_r in H.
Qed.

(** C6: the first status response that carries a file id, or whose status
    is complete or failed, is the last one the poller asks for: after the
    [k] checks that lead to it, whatever the call does next, it sends no
    status check. *)
Theorem poller_stops_when_terminal (st : json) :
  terminal verbose last st ->
  forall fuel, k <= fuel ->
    exists o tail,
      _get_surv_data server pd_read_csv fuel surv_name verbose finished_only
                     embedded_fields (mkWorld obj h0)
      = (o, mkWorld obj (start ++ poll_rounds obj sid pid k ++ tail))
      /\ status_checks obj sid pid tail = 0
      /\ status_checks obj sid pid
           ([surveys_request obj;
             export_request obj sid finished_only embedded_fields]
            ++ poll_rounds obj sid pid k ++ tail) = k.
Proof.
  intros Hlast fuel Hfuel.
  assert (Hgoal : exists o tail,
      _get_surv_data server pd_read_csv fuel surv_name verbose finished_only
                     embedded_fields (mkWorld obj h0)
      = (o, mkWorld obj (start ++ poll_rounds obj sid pid k ++ tail))
      /\ status_checks obj sid pid tail = 0).
  { rewrite export_prelude.
    run_with (poll_until k start st0 st Hk Hrun0 Hbefore Hlast fuel Hfuel).
    cbn [fst snd].
    destruct (is_str st "failed").
    { exists (Raise (PlainException "export failed")), [].
      rewrite app_nil_r. split; reflexivity. }
    run_refl. rewrite bind_lift.
    destruct (result_field _ "fileId") as [f | e | |] eqn:Ef;
      [| eexists _, []; rewrite app_nil_r; split; reflexivity ..].
    run_with (run_get_survey_id (start ++ poll_rounds obj sid pid k)).
    destruct f as [| b | z | fid | l | d];
      try (exists (Raise TypeError), [surveys_request obj];
           rewrite <- app_assoc; split; [reflexivity |];
           rewrite status_checks_cons, surveys_request_no_check; reflexivity).
    run_with (run_build_url ["surveys"; sid; "export-responses"; fid; "file"]
                (mkWorld obj ((start ++ poll_rounds obj sid pid k)
                                ++ [surveys_request obj]))).
    run_refl.
    match goal with
    | |- exists o tail, ?m ?w = _ /\ _ =>
        exists (fst (m w)), [surveys_request obj; download_request obj sid fid]
    end.
    split.
    - cbn [log self]. rewrite <- !app_assoc.
      match goal with
      | |- ?lhs = (fst ?lhs', ?w) =>
          assert (Hsnd : snd lhs = w);
          [| rewrite <- Hsnd; now destruct lhs]
      end.
      apply pure_tail_world. intros df0. reflexivity.
    - rewrite !status_checks_cons, surveys_request_no_check,
        download_request_no_check. reflexivity. }
  destruct Hgoal as (o & tail & Hrun & Htail).
  exists o, tail. split; [exact Hrun |]. split; [exact Htail |].
  now apply trace_status_checks.
Qed.

End Job.

End Poller.

(** *** What a returned export has sent *)

Lemma str_args_inv args : forall ss,
  str_args args = Ok ss -> args = map JStr ss.
Proof.
  induction args as [| a args IH]; simpl; intros ss H.
  - now inversion H.
  - destruct a; try discriminate.
    destruct (str_args args) as [ss' | | |]; simpl in H; try discriminate.
    inversion H. simpl. now rewrite (IH ss').
Qed.

Lemma build_url_inv args w u w1 :
  _build_url args w = (Ok u, w1) ->
  w1 = w /\ exists ss, args = map JStr ss
                       /\ u = String.concat "/" (base_url (self w) :: ss).
Proof.
  unfold _build_url, bind, gets, lift, ret.
  destruct (str_args args) as [ss | | |] eqn:E; try discriminate.
  intros H. inversion H. split; [reflexivity |].
  exists ss. split; [now apply str_args_inv | reflexivity].
Qed.

Lemma get_survey_id_world server suname w :
  snd (_get_survey_id server suname w)
  = add_request (surveys_request (self w)) w.
Proof.
  unfold _get_survey_id.
  assert (Hlist : _list_surveys server w
                  = (Ok (server (log w) (surveys_request (self w))),
                     add_request (surveys_request (self w)) w))
    by reflexivity.
  run_with Hlist.
  repeat (apply pure_tail_world; intros ?).
  match goal with
  | |- context [if ?b then _ else _] => destruct b; reflexivity
  end.
Qed.

Lemma try_lift_world {S A} (o : outcome A) (x : A) (s s' : S) a :
  try_except_KeyError (lift o) (ret x) s = (Ok a, s') -> s' = s.
Proof.
  unfold try_except_KeyError, lift, ret.
  destruct o as [y | e | |]; try destruct e; intros H; now inversion H.
Qed.

Tactic Notation "inv_bind" hyp(H) ident(a) ident(w) :=
  apply bind_Ok_inv in H; destruct H as (a & w & ? & H).

Lemma poll_inv server fuel surv_name verbose prog_id :
  forall st rd rc w st' rd' rc' w',
    poll server fuel surv_name verbose prog_id st rd rc w
    = (Ok (st', rd', rc'), w') ->
    (rc' = rc /\ w' = w)
    \/ exists sid pid post,
         log w' = log w ++ surveys_request (self w)
                          :: status_request (self w) sid pid :: post.
Proof.
  induction fuel as [| fuel IH]; intros st rd rc w st' rd' rc' w' H;
    cbn [poll] in H;
    destruct (negb (is_str st "complete") && negb (is_str st "failed")
              && is_None rd);
    try discriminate;
    try (left; inversion H; split; reflexivity).
  right.
  inv_bind H sidj w1.
  match goal with
  | Hs : _get_survey_id _ _ _ = _ |- _ =>
      pose proof (get_survey_id_world server surv_name w) as Hw1;
      rewrite Hs in Hw1; cbn [snd] in Hw1; subst w1
  end.
  inv_bind H u w2.
  match goal with
  | Hb : _build_url _ _ = _ |- _ =>
      apply build_url_inv in Hb; destruct Hb as (-> & ss & Hargs & ->)
  end.
  destruct ss as [| s1 [| sid [| s3 [| pid [| ? ?]]]]]; try discriminate.
  cbn [map] in Hargs. injection Hargs as <- -> <- ->.
  inv_bind H hdrs w3.
  match goal with
  | Hg : gets _ _ = _ |- _ => inversion Hg; subst hdrs w3
  end.
  inv_bind H resp w4.
  match goal with
  | Hr : requests_get _ _ _ _ _ _ = _ |- _ =>
      rewrite run_requests_get in Hr; inversion Hr; subst resp w4; clear Hr
  end.
  inv_bind H pc w5.
  match goal with
  | Hl : lift _ _ = _ |- _ => apply lift_Ok_inv in Hl; destruct Hl as [_ ->]
  end.
  inv_bind H x6 w6.
  match goal with
  | Hl : (if _ then _ else _) _ = _ |- _ =>
      assert (w6 = add_request
                     {| meth := GET;
                        url := String.concat "/"
                                 [base_url (self w); "surveys"; sid;
                                  "export-responses"; pid];
                        headers := _headers (self w);
                        params := None; json_arg := None; stream := false |}
                     (add_request (surveys_request (self w)) w))
        by (destruct (is_None rd && verbose);
            [apply lift_Ok_inv in Hl; now destruct Hl
            | now inversion Hl]);
      subst w6; clear Hl
  end.
  inv_bind H rd1 w7.
  match goal with
  | Hl : try_except_KeyError _ _ _ = _ |- _ =>
      apply try_lift_world in Hl; subst w7
  end.
  inv_bind H st1 w8.
  match goal with
  | Hl : lift _ _ = _ |- _ => apply lift_Ok_inv in Hl; destruct Hl as [_ ->]
  end.
  apply IH in H.
  exists sid, pid.
  destruct H as [[_ ->] | (sid' & pid' & post & ->)].
  - exists []. cbn [add_request log self]. rewrite <- app_assoc. reflexivity.
  - eexists. cbn [add_request log self]. rewrite <- !app_assoc. reflexivity.
Qed.

Lemma export_ok_polled server pd_read_csv fuel surv_name verbose finished_only
    embedded_fields (w : world) (table : DataFrame) (w' : world) :
  _get_surv_data server pd_read_csv fuel surv_name verbose finished_only
                 embedded_fields w = (Ok table, w') ->
  exists sid pid pre post,
    log w' = log w ++ pre ++ status_request (self w) sid pid :: post.
Proof.
  intros H. unfold _get_surv_data in H.
  inv_bind H sidj w1.
  match goal with
  | Hs : _get_survey_id _ _ _ = _ |- _ =>
      pose proof (get_survey_id_world server surv_name w) as Hw1;
      rewrite Hs in Hw1; cbn [snd] in Hw1; subst w1; clear Hs
  end.
  inv_bind H u w2.
  match goal with
  | Hb : _build_url _ _ = _ |- _ =>
      apply build_url_inv in Hb; destruct Hb as (-> & _)
  end.
  inv_bind H hdrs w3.
  match goal with
  | Hg : gets _ _ = _ |- _ => inversion Hg; subst hdrs w3; clear Hg
  end.
  inv_bind H dl_req w4.
  match goal with
  | Hp : requests_post _ _ _ _ _ = _ |- _ =>
      unfold requests_post, send in Hp; inversion Hp; subst dl_req w4; clear Hp
  end.
  inv_bind H prog_id w5.
  match goal with
  | Hl : lift _ _ = _ |- _ => apply lift_Ok_inv in Hl; destruct Hl as [_ ->]
  end.
  inv_bind H st0 w6.
  match goal with
  | Hl : lift _ _ = _ |- _ => apply lift_Ok_inv in Hl; destruct Hl as [_ ->]
  end.
  inv_bind H st w7.
  destruct st as [[st' rd'] rc'].
  match goal with
  | Hp : poll _ _ _ _ _ _ _ _ _ = _ |- _ =>
      apply poll_inv in Hp;
      destruct Hp as [[-> ->] | (sid & pid & post & Hlog)]
  end.
  - exfalso. cbn [fst snd] in H.
    destruct (is_str st' "failed"); [discriminate |].
    apply bind_Ok_inv in H. destruct H as (? & ? & Hraise & _).
    discriminate.
  - cbn [fst snd] in H.
    destruct (is_str st' "failed"); [discriminate |].
    inv_bind H resp w8.
    match goal with
    | Hr : match rc' with _ => _ end _ = _ |- _ =>
        destruct rc'; [inversion Hr; subst w8; clear Hr | discriminate]
    end.
    inv_bind H file_id w9.
    match goal with
    | Hl : lift _ _ = _ |- _ => apply lift_Ok_inv in Hl; destruct Hl as [_ ->]
    end.
    inv_bind H sidj' w10.
    match goal with
    | Hs : _get_survey_id _ _ _ = _ |- _ =>
        pose proof (get_survey_id_world server surv_name w7) as Hw10;
        rewrite Hs in Hw10; cbn [snd] in Hw10; subst w10; clear Hs
    end.
    inv_bind H req_dl_url w11.
    match goal with
    | Hb : _build_url _ _ = _ |- _ =>
        apply build_url_inv in Hb; destruct Hb as (-> & _)
    end.
    inv_bind H req_dl w12.
    match goal with
    | Hr : requests_get _ _ _ _ _ _ = _ |- _ =>
        rewrite run_requests_get in Hr; inversion Hr; subst req_dl w12; clear Hr
    end.
    inv_bind H df0 w13.
    apply lift_Ok_inv in H. destruct H as [_ ->].
    match goal with
    | Hl : lift _ _ = _ |- _ => apply lift_Ok_inv in Hl; destruct Hl as [_ ->]
    end.
    exists sid, pid. cbn [add_request log self] in *. rewrite Hlog.
    eexists (_ :: _ :: _ :: []), _.
    rewrite <- !app_assoc. cbn [app]. reflexivity.
Qed.

(** C10: when the response that creates the export already says complete,
    the loop body never runs and [_get_surv_data] raises on the unbound
    [req_check_resp] with nothing downloaded; an export that returns a table
    has sent at least one status check. *)
Theorem export_needs_one_poll server pd_read_csv :
  (forall obj surv_name sid pid verbose finished_only embedded_fields h0 fuel,
     survey_listed server obj surv_name sid ->
     result_field (server (h0 ++ [surveys_request obj])
                          (export_request obj sid finished_only embedded_fields))
                  "progressId" = Ok (JStr pid) ->
     result_field (server (h0 ++ [surveys_request obj])
                          (export_request obj sid finished_only embedded_fields))
                  "status" = Ok (JStr "complete") ->
     _get_surv_data server pd_read_csv fuel surv_name verbose finished_only
                    embedded_fields (mkWorld obj h0)
     = (Raise (UnboundLocalError "req_check_resp"),
        mkWorld obj (h0 ++ [surveys_request obj;
                            export_request obj sid finished_only embedded_fields])))
  /\ (forall fuel surv_name verbose finished_only embedded_fields w table w',
        _get_surv_data server pd_read_csv fuel surv_name verbose finished_only
                       embedded_fields w = (Ok table, w') ->
        exists sid pid pre post,
          log w' = log w ++ pre ++ status_request (self w) sid pid :: post).
Proof.
  split.
  - intros obj surv_name sid pid verbose fo emb h0 fuel Hsurvey Hpid Hst.
    exact (export_created_complete server pd_read_csv obj surv_name sid pid
             verbose Hsurvey fo emb h0 (JStr "complete") Hpid Hst fuel eq_refl).
  - intros fuel surv_name verbose fo emb w table w' H.
    exact (export_ok_polled _ _ _ _ _ _ _ _ _ _ H).
Qed.

(** ** The paginator of the contacts of a mailing list *)

Lemma page_fields resp rows np :
  _parse_distribution_page resp = Ok rows ->
  result_field resp "nextPage" = Ok np ->
  exists data res elements n,
    response_json resp = Ok data
    /\ getitem data "result" = Ok res
    /\ getitem res "elements" = Ok elements
    /\ py_len elements = Ok n
    /\ getitem res "nextPage" = Ok np.
Proof.
  unfold _parse_distribution_page, result_field.
  destruct (response_json resp) as [data | | |] eqn:Hdata; simpl;
    try discriminate.
  destruct (getitem data "result") as [res | | |] eqn:Hres; simpl;
    try discriminate.
  destruct (getitem res "elements") as [elements | | |] eqn:Hel; simpl;
    try discriminate.
  intros Hrows Hnp. exists data, res, elements.
  destruct elements; simpl in Hrows; try discriminate;
    eexists; repeat split; try reflexivity; assumption.
Qed.

(** ** The table of a list of records *)

Lemma existsb_eqb_false k (acc : list string) :
  k ∉ acc -> existsb (String.eqb k) acc = false.
Proof.
  induction acc as [| a acc IH]; intros H; [reflexivity |].
  apply not_elem_of_cons in H as [Hne H]. cbn [existsb].
  apply String.eqb_neq in Hne. rewrite Hne. now apply IH.
Qed.

Lemma dedup_keys_fold_NoDup (l : list string) : forall acc,
  NoDup (acc ++ l) ->
  fold_left (fun acc k => if existsb (String.eqb k) acc then acc
                          else acc ++ [k]) l acc = acc ++ l.
Proof.
  induction l as [| k l IH]; intros acc Hnd; cbn [fold_left].
  - now rewrite app_nil_r.
  - rewrite existsb_eqb_false.
    + rewrite IH; rewrite <- app_assoc; [reflexivity | exact Hnd].
    + apply NoDup_app in Hnd as (_ & Hdisj & _).
      intros Hin. apply (Hdisj k Hin). left.
Qed.

Lemma dedup_keys_NoDup (l : list string) : NoDup l -> dedup_keys l = l.
Proof. intros H. unfold dedup_keys. now rewrite dedup_keys_fold_NoDup. Qed.

Lemma dedup_keys_fold_elem c (l : list string) : forall acc,
  c ∈ acc \/ c ∈ l ->
  c ∈ fold_left (fun acc k => if existsb (String.eqb k) acc then acc
                              else acc ++ [k]) l acc.
Proof.
  induction l as [| k l IH]; intros acc H; cbn [fold_left].
  - destruct H as [H | H]; [exact H | now apply not_elem_of_nil in H].
  - apply IH. destruct H as [H | H].
    + left. destruct (existsb (String.eqb k) acc); [exact H |].
      apply elem_of_app. now left.
    + apply elem_of_cons in H as [-> | H]; [| now right].
      left. destruct (existsb (String.eqb k) acc) eqn:E.
      * apply existsb_exists in E as (x & Hx & Hkx).
        apply String.eqb_eq in Hkx. subst x. now apply list_elem_of_In.
      * apply elem_of_app. right. left.
Qed.

Lemma dedup_keys_elem c (l : list string) : c ∈ l -> c ∈ dedup_keys l.
Proof. intros H. apply dedup_keys_fold_elem. now right. Qed.

Lemma existsb_eqb_true k (acc : list string) :
  existsb (String.eqb k) acc = true -> k ∈ acc.
Proof.
  intros E. apply existsb_exists in E as (x & Hx & Hkx).
  apply String.eqb_eq in Hkx. subst x. now apply list_elem_of_In.
Qed.

(** The keys kept are distinct, and each is one of the keys given. *)
Lemma dedup_keys_fold_distinct (l : list string) : forall acc,
  NoDup acc ->
  NoDup (fold_left (fun acc k => if existsb (String.eqb k) acc then acc
                                 else acc ++ [k]) l acc)
  /\ forall c,
       c ∈ fold_left (fun acc k => if existsb (String.eqb k) acc then acc
                                   else acc ++ [k]) l acc ->
       c ∈ acc \/ c ∈ l.
Proof.
  induction l as [| k l IH]; intros acc Hnd; cbn [fold_left].
  - split; [exact Hnd | intros c H; now left].
  - destruct (existsb (String.eqb k) acc) eqn:E.
    + destruct (IH acc Hnd) as [H1 H2]. split; [exact H1 |].
      intros c Hc. destruct (H2 c Hc) as [H | H]; [now left |].
      right. now apply elem_of_cons; right.
    + assert (Hk : k ∉ acc).
      { intros Hin. rewrite (proj2 (existsb_exists _ _)) in E; [discriminate |].
        exists k. split; [now apply list_elem_of_In | apply String.eqb_refl]. }
      assert (Hnd' : NoDup (acc ++ [k])).
      { apply NoDup_app. split; [exact Hnd |]. split; [| apply NoDup_singleton].
        intros x Hx Hxk. apply list_elem_of_singleton in Hxk. now subst x. }
      destruct (IH (acc ++ [k]) Hnd') as [H1 H2]. split; [exact H1 |].
      intros c Hc. destruct (H2 c Hc) as [H | H].
      * apply elem_of_app in H as [H | H]; [now left |].
        apply list_elem_of_singleton in H. subst c. right. left.
      * right. now apply elem_of_cons; right.
Qed.

Lemma dedup_keys_distinct (l : list string) : NoDup (dedup_keys l).
Proof. apply (dedup_keys_fold_distinct l []). constructor. Qed.

Lemma dedup_keys_from c (l : list string) : c ∈ dedup_keys l -> c ∈ l.
Proof.
  intros H. destruct (proj2 (dedup_keys_fold_distinct l [] (NoDup_nil_2)) c H)
    as [Hc | Hc]; [now apply not_elem_of_nil in Hc | exact Hc].
Qed.

Lemma keys_of_records c (records : list dict) :
  c ∈ concat (map (map fst) records)
  <-> exists row, row ∈ records /\ c ∈ map fst row.
Proof.
  rewrite list_elem_of_In, in_concat. split.
  - intros (ks & Hks & Hc). apply in_map_iff in Hks as (row & <- & Hrow).
    exists row. split; now apply list_elem_of_In.
  - intros (row & Hrow & Hc). exists (map fst row). split.
    + apply in_map. now apply list_elem_of_In.
    + now apply list_elem_of_In.
Qed.

(** [pd.DataFrame(records)] holds the records, one row each, in their
    order. *)
Lemma records_table_holds_rows (records : list dict) :
  holds_rows (DataFrame_of_records records) records.
Proof.
  unfold holds_rows, DataFrame_of_records. cbn [columns index data].
  split; [reflexivity |].
  split; [apply length_map |].
  split; [apply dedup_keys_distinct |].
  split.
  - intros c. rewrite <- keys_of_records. split.
    + apply dedup_keys_from.
    + apply dedup_keys_elem.
  - intros k row Hrow. exists (record_row (dedup_keys (concat (map (map fst) records))) row).
    split; [now rewrite list_lookup_fmap, Hrow |].
    split; [apply length_map |].
    intros n c Hc. unfold record_row, cell_of.
    now rewrite list_lookup_fmap, Hc.
Qed.

Section Contacts.

Variable server : list request -> request -> response.
Variable obj : QualtricsAPI.

(** The loop on the pages that remain. *)
Lemma contact_pages_chain (rest : list (string * response)) :
  forall (rowss : list (list dict)) (acc : list dict) (count : Z)
         (h : list request) (fuel : nat),
    linked server obj rest ->
    Forall2 (fun p rows => _parse_distribution_page (snd p) = Ok rows)
            rest rowss ->
    length rest <= fuel ->
    contact_pages server fuel (cursor_to rest) acc count (mkWorld obj h)
    = (Ok (acc ++ concat rowss),
       mkWorld obj (h ++ page_requests obj rest)).
Proof.
  induction rest as [| [u resp] rest IH];
    intros rowss acc count h fuel Hlinked Hrows Hfuel.
  - inversion Hrows; subst. unfold page_requests. simpl.
    rewrite !app_nil_r. destruct fuel; reflexivity.
  - inversion Hrows as [| ? rows ? rowss' Hparse Hrest]; subst.
    cbn [snd] in Hparse. destruct Hlinked as (Hserver & Hnext & Hlinked).
    destruct (page_fields resp rows _ Hparse Hnext)
      as (data & res & elements & n & Hdata & Hres & Hel & Hlen & Hnp).
    destruct fuel as [| fuel]; [simpl in Hfuel; lia |].
    cbn [contact_pages cursor_to is_None negb].
    run_refl. run_refl. cbn [log self].
    fold (get_request (_headers obj) u). rewrite Hserver.
    run_lift Hdata. run_lift Hres. run_lift Hel. run_lift Hlen.
    run_lift Hparse. run_lift Hres. run_lift Hnp.
    rewrite (IH rowss' (acc ++ rows) (count + 1)%Z _ fuel Hlinked Hrest)
      by (simpl in Hfuel; lia).
    unfold page_requests. cbn [map concat fst].
    rewrite <- !app_assoc. reflexivity.
Qed.

(** The requests and the records of the paginator of the contacts. *)
Lemma get_distribution_pages (ml_id : string) (verbose : bool)
    (first : response) (rest : list (string * response))
    (rowss : list (list dict)) (h0 : list request) (fuel : nat) :
  linked server obj ((contacts_url obj ml_id, first) :: rest) ->
  Forall2 (fun p rows => _parse_distribution_page (snd p) = Ok rows)
          ((contacts_url obj ml_id, first) :: rest) rowss ->
  length rest <= fuel ->
  _get_distribution server fuel ml_id verbose (mkWorld obj h0)
  = (Ok (DataFrame_of_records (concat rowss)),
     mkWorld obj (h0 ++ page_requests obj ((contacts_url obj ml_id, first) :: rest))).
Proof.
  intros (Hserver & Hnext & Hlinked) Hrows Hfuel.
  inversion Hrows as [| ? rows ? rowss' Hparse Hrest]; subst.
  cbn [snd] in Hparse.
  unfold _get_distribution.
  run_with (run_build_url ["mailinglists"; ml_id; "contacts"] (mkWorld obj h0)).
  run_refl. run_refl. cbn [log self].
  fold (contacts_url obj ml_id).
  fold (get_request (_headers obj) (contacts_url obj ml_id)).
  rewrite Hserver. run_lift Hnext. run_lift Hparse.
  run_with (contact_pages_chain rest rowss' ([] ++ rows) 0%Z
              (h0 ++ [get_request (_headers obj) (contacts_url obj ml_id)])
              fuel Hlinked Hrest Hfuel).
  unfold ret, page_requests. cbn [map concat fst app].
  rewrite <- !app_assoc. reflexivity.
Qed.

(** C7: on a chain of contact pages linked by their [nextPage] cursors
    and ended by [None], the paginator fetches the first page, then each
    next one, and returns a table that holds all the parsed rows, page
    after page, the rows of a page in their order: the [k]-th row of the
    table has, under every column, the value of the [k]-th row of the
    concatenation of the pages, and the columns are the keys of the
    rows. *)
Theorem get_distribution_concatenates (ml_id : string) (verbose : bool)
    (first : response) (rest : list (string * response))
    (rowss : list (list dict)) (h0 : list request) (fuel : nat) :
  linked server obj ((contacts_url obj ml_id, first) :: rest) ->
  Forall2 (fun p rows => _parse_distribution_page (snd p) = Ok rows)
          ((contacts_url obj ml_id, first) :: rest) rowss ->
  length rest <= fuel ->
  exists table,
    _get_distribution server fuel ml_id verbose (mkWorld obj h0)
    = (Ok table,
       mkWorld obj (h0 ++ page_requests obj ((contacts_url obj ml_id, first) :: rest)))
    /\ holds_rows table (concat rowss).
Proof.
  intros Hlinked Hrows Hfuel.
  exists (DataFrame_of_records (concat rowss)). split.
  - now apply get_distribution_pages.
  - apply records_table_holds_rows.
Qed.

End Contacts.

(** ** Construction *)

(** [__post_init__] keeps the token and uses it: the headers it stores
    carry the token, and the one request it sends, the listing of the
    mailing lists, carries these headers. *)
Lemma post_init_uses_token server (w : world) :
  api_token (self (snd (__post_init__ server w))) = api_token (self w)
  /\ _headers (self (snd (__post_init__ server w)))
     = [("content-type", "application/json"); ("x-api-token", api_token (self w))]
  /\ log (snd (__post_init__ server w))
     = log w
       ++ [{| meth := GET;
              url := String.concat "/" [base_url (self w); "mailinglists"];
              headers := [("content-type", "application/json");
                          ("x-api-token", api_token (self w))];
              params := None; json_arg := None; stream := false |}].
Proof.
  unfold __post_init__. run_refl. run_refl.
  set (w1 := set_headers _ w).
  pose proof (list_mailing_lists_world server w1) as Hw.
  unfold bind.
  destruct (_list_mailing_lists server w1) as [[m | e | |] w2];
    cbn [snd] in Hw; subst w2; repeat split; reflexivity.
Qed.

(** C9 fails on the code: the token in the environment is read when the
    module is imported, whether or not a token is passed later.  Without the
    variable the import raises [KeyError] and no client is constructed,
    even with a token passed explicitly.  With the variable, construction
    is that of the class, and the client uses the token passed to it, the
    one of the environment when none is passed: it is the token it keeps,
    the [x-api-token] of the headers it stores, and the [x-api-token] of
    the request it sends, the listing of the mailing lists. *)
Theorem environ_token_read_at_import server (environ : gmap string string)
    (base lib : string) (token : option string) (h : list request) :
  (environ !! "QUAL_APIKEY" = None ->
     import_and_construct server environ base lib token h
     = (Raise (KeyError "QUAL_APIKEY"), None))
  /\ (forall t, environ !! "QUAL_APIKEY" = Some t ->
        exists o w,
          import_and_construct server environ base lib token h = (o, Some w)
          /\ QualtricsAPI_new server {| api_token_default := t |} base lib
                              token h = (o, w)
          /\ api_token (self w) = match token with
                                  | Some explicit => explicit
                                  | None => t
                                  end
          /\ _headers (self w)
             = [("content-type", "application/json");
                ("x-api-token", match token with
                                | Some explicit => explicit
                                | None => t
                                end)]
          /\ log w
             = h ++ [{| meth := GET;
                        url := String.concat "/" [base; "mailinglists"];
                        headers := [("content-type", "application/json");
                                    ("x-api-token", match token with
                                                    | Some explicit => explicit
                                                    | None => t
                                                    end)];
                        params := None; json_arg := None; stream := false |}]).
Proof.
  unfold import_and_construct, class_QualtricsAPI. split.
  - intros ->. reflexivity.
  - intros t ->.
    destruct (QualtricsAPI_new server {| api_token_default := t |} base lib
                               token h) as [o w] eqn:E.
    exists o, w. split; [reflexivity |]. split; [reflexivity |].
    unfold QualtricsAPI_new in E.
    match type of E with
    | __post_init__ _ ?w0 = _ =>
        pose proof (post_init_uses_token server w0) as Ht;
        rewrite E in Ht; exact Ht
    end.
Qed.

(** C9 on an account with one mailing list and the token passed
    explicitly: the import fails without the variable; with the variable
    set to another value, the client is constructed and its request carries
    the token that was passed. *)
Lemma environ_token_read_at_import_witness :
  import_and_construct one_list_server ∅ sim_base "UR_1" (Some "t0k3n") []
  = (Raise (KeyError "QUAL_APIKEY"), None)
  /\ exists w,
       import_and_construct one_list_server {["QUAL_APIKEY" := "other"]}
                            sim_base "UR_1" (Some "t0k3n") []
       = (Ok tt, Some w)
       /\ api_token (self w) = "t0k3n"
       /\ _headers (self w)
          = [("content-type", "application/json"); ("x-api-token", "t0k3n")]
       /\ log w
          = [{| meth := GET;
                url := "https://sim.qualtrics.com/API/v3/mailinglists";
                headers := [("content-type", "application/json");
                            ("x-api-token", "t0k3n")];
                params := None; json_arg := None; stream := false |}].
Proof.
  split.
  - apply (environ_token_read_at_import one_list_server ∅ sim_base "UR_1"
             (Some "t0k3n") []).
    reflexivity.
  - assert (Henv : ({["QUAL_APIKEY" := "other"]} : gmap string string)
                     !! "QUAL_APIKEY" = Some "other")
      by (vm_compute; reflexivity).
    destruct (proj2 (environ_token_read_at_import one_list_server
                       {["QUAL_APIKEY" := "other"]} sim_base "UR_1"
                       (Some "t0k3n") []) "other" Henv)
      as (o & w & Hrun & Hnew & Htok & Hhdrs & Hlog).
    exists w. split; [| split; [exact Htok | split; [exact Hhdrs | exact Hlog]]].
    rewrite Hrun. f_equal.
    change o with (fst (o, w)). rewrite <- Hnew. vm_compute. reflexivity.
Defined.

(** ** The paginator of the links of a distribution *)

(** A fetch of the page at the cursor whose response lacks a field of
    [result] (or [result] itself) raises the [KeyError] and leaves the
    cursor where it was. *)
Lemma fetch_next_missing_field server (l : links_locals) (w : world) u k :
  nextPage l = JStr u ->
  result_field (server (log w) (get_request (_headers (self w)) u)) "elements"
    = Raise (KeyError k) ->
  exists l',
    fetch_next server (l, w)
    = (Raise (KeyError k), (l', add_request (get_request (_headers (self w)) u) w))
    /\ nextPage l' = JStr u.
Proof.
  intros Hnp Hel. eexists. split.
  - unfold fetch_next. run_refl. run_refl. run_refl.
    cbn [fst snd nextPage]. rewrite Hnp.
    erewrite bind_Ok by reflexivity. run_refl.
    erewrite bind_Raise; [reflexivity |].
    unfold lift. cbn [snd fst log self add_request].
    fold (get_request (_headers (self w)) u). rewrite Hel. reflexivity.
  - reflexivity.
Qed.

(** The defect behind C1, on any platform: when the fetch in the [try]
    body and the fetch in the handler both lack the field, the second
    [KeyError] leaves the call, however many attempts remain. *)
Lemma attempts_two_failures server (n : nat) (l : links_locals) (w : world)
    u k1 k2 :
  nextPage l = JStr u ->
  result_field (server (log w) (get_request (_headers (self w)) u)) "elements"
    = Raise (KeyError k1) ->
  result_field (server (log w ++ [get_request (_headers (self w)) u])
                       (get_request (_headers (self w)) u)) "elements"
    = Raise (KeyError k2) ->
  fst (attempts server (S n) (l, w)) = Raise (KeyError k2).
Proof.
  intros Hnp H1 H2.
  destruct (fetch_next_missing_field server l w u k1 Hnp H1)
    as (l1 & Hrun1 & Hnp1).
  destruct (fetch_next_missing_field server l1
              (add_request (get_request (_headers (self w)) u) w) u k2 Hnp1 H2)
    as (l2 & Hrun2 & _).
  cbn [attempts]. unfold bind at 1, try_except_KeyError.
  rewrite (bind_Raise _ _ _ _ _ Hrun1).
  rewrite (bind_Raise _ _ _ _ _ Hrun2). reflexivity.
Qed.

(** C1 fails on the code: the handler of the retry loop fetches again
    outside any [try] and never leaves the loop.  A page that lacks its
    [result] twice in a row ends the call with that [KeyError] after two
    fetches, be it 2 or 10 failures that were to come, and never with the
    error of the exhausted attempts; one failure on the last page ends it
    on the fetch of the [None] cursor; one failure after the page was
    appended returns a table that has the page twice. *)
Theorem dist_links_retry_defect :
  contact_ids (fst (sim_get_dist_links (links_server next_2 0 no_result)))
    = Some [[Val (JStr "C1")]; [Val (JStr "C2")]; [Val (JStr "C3")]]
  /\ fst (sim_get_dist_links (links_server next_2 2 no_result)) = Raise (KeyError "result")
  /\ fetches_of next_2 (log (snd (sim_get_dist_links (links_server next_2 2 no_result)))) = 2
  /\ fst (sim_get_dist_links (links_server next_2 10 no_result)) = Raise (KeyError "result")
  /\ fetches_of next_2 (log (snd (sim_get_dist_links (links_server next_2 10 no_result)))) = 2
  /\ fst (sim_get_dist_links (links_server next_3 1 no_result)) = Raise MissingSchema
  /\ contact_ids (fst (sim_get_dist_links (links_server next_2 1 no_next_page)))
     = Some [[Val (JStr "C1")]; [Val (JStr "C2")]; [Val (JStr "C2")];
             [Val (JStr "C3")]].
Proof. repeat split; vm_compute; reflexivity. Qed.

(** * The statements on the simulated platform *)

Lemma parse_distribution_page_rows_witness :
  _parse_distribution_page page_B
  = Ok [[("contactid", JStr "C3"); ("email", JStr "c@x.org");
         ("language", JStr "EN"); ("unsubscribed", JBool false);
         ("emailDistributionId", JStr "D1"); ("result", JStr "Success")]].
Proof.
  destruct (parse_distribution_page_rows page_B
              [sim_person "C2" "b@x.org" [];
               sim_person "C3" "c@x.org" [sim_sent "D1" "Success"]]
              [mkContact (JStr "C2") (JStr "b@x.org") (JStr "EN") (JBool false) [];
               mkContact (JStr "C3") (JStr "c@x.org") (JStr "EN") (JBool false)
                 [[("emailDistributionId", JStr "D1"); ("result", JStr "Success")]]]
              eq_refl) as [H _].
  - repeat constructor; eexists; repeat split; reflexivity.
  - rewrite H. reflexivity.
Defined.

Lemma create_mailing_list_idempotent_witness :
  get_mailing_list_id "panel"
    (snd (create_mailing_list one_list_server "panel" None
            (mkWorld sim_client [])))
  = (Ok (JStr "ML_1"),
     snd (create_mailing_list one_list_server "panel" None
            (mkWorld sim_client []))).
Proof.
  destruct (create_mailing_list_idempotent one_list_server "panel" None
              (mkWorld sim_client [])) as (_ & _ & H).
  destruct (H (JStr "ML_1")
              (snd (create_mailing_list one_list_server "panel" None
                      (mkWorld sim_client []))))
    as [Hget _].
  - vm_compute. reflexivity.
  - exact Hget.
Defined.

Lemma duplicate_names_fail_fast_witness :
  _list_mailing_lists twin_server (mkWorld sim_client [])
  = (Raise (ValueError duplicate_names_message),
     mkWorld sim_client [listing_request sim_client]).
Proof.
  assert (Hij : 0 < 2) by lia.
  destruct (duplicate_names_fail_fast twin_server sim_base "t0k3n" twin_lists
              ["panel"; "pilot"; "panel"] (fun h => eq_refl) eq_refl
              0 2 "panel" Hij eq_refl eq_refl) as [H _].
  destruct (H (mkWorld sim_client []) eq_refl eq_refl) as [Hrun _].
  rewrite Hrun. reflexivity.
Defined.

Lemma sim_survey_listed created polls final :
  survey_listed (job_server created polls final) sim_client "Survey A" "SV_1".
Proof. intros h. eexists. split; reflexivity. Defined.

Lemma sim_first_poll_running final :
  forall j, j < 2 - 1 ->
    still_running true
      (nth_status (job_server "inProgress" 2 final) sim_client "SV_1" "ES_1"
                  (started sim_client "SV_1" true [] []) j).
Proof.
  intros j Hj. destruct j as [| j]; [| lia].
  exists (JStr "inProgress").
  split; [split; [reflexivity | eexists; split; [reflexivity | reflexivity]] |].
  split; [split; reflexivity | reflexivity].
Defined.

Lemma export_complete_after_k_polls_witness :
  _get_surv_data (job_server "inProgress" 2 job_complete) sim_read_csv 2
                 "Survey A" true true [] (mkWorld sim_client [])
  = (Ok {| columns := ["startdate"; "q1"];
           index := [0; 1];
           data := [[table_cell "2021-12-19"; table_cell "Fine"];
                    [table_cell "2021-12-20"; table_cell "Tired"]] |},
     mkWorld sim_client
       [surveys_request sim_client; export_request sim_client "SV_1" true [];
        surveys_request sim_client; status_request sim_client "SV_1" "ES_1";
        surveys_request sim_client; status_request sim_client "SV_1" "ES_1";
        surveys_request sim_client; download_request sim_client "SV_1" "F_1"]).
Proof.
  assert (Hk : 1 <= 2) by lia. assert (Hfuel : 2 <= 2) by lia.
  assert (Hcols : columns sim_csv <> []) by discriminate.
  destruct (export_complete_after_k_polls
              (job_server "inProgress" 2 job_complete) sim_read_csv sim_client
              "Survey A" "SV_1" "ES_1" true
              (sim_survey_listed "inProgress" 2 job_complete)
              true [] [] (JStr "inProgress") eq_refl eq_refl
              (conj eq_refl eq_refl) 2 Hk (sim_first_poll_running job_complete)
              "F_1" sim_csv
              (conj eq_refl (ex_intro _ (JNum 100) (conj eq_refl (fun _ => eq_refl))))
              eq_refl eq_refl Hcols eq_refl 2 Hfuel) as [Hrun _].
  rewrite Hrun. reflexivity.
Defined.

Lemma export_failed_no_download_witness :
  _get_surv_data (job_server "inProgress" 2 job_failed) sim_read_csv 2
                 "Survey A" true true [] (mkWorld sim_client [])
  = (Raise (PlainException "export failed"),
     mkWorld sim_client
       [surveys_request sim_client; export_request sim_client "SV_1" true [];
        surveys_request sim_client; status_request sim_client "SV_1" "ES_1";
        surveys_request sim_client; status_request sim_client "SV_1" "ES_1"]).
Proof.
  assert (Hk : 1 <= 2) by lia. assert (Hfuel : 2 <= 2) by lia.
  destruct (export_failed_no_download
              (job_server "inProgress" 2 job_failed) sim_read_csv sim_client
              "Survey A" "SV_1" "ES_1" true
              (sim_survey_listed "inProgress" 2 job_failed)
              true [] [] (JStr "inProgress") eq_refl eq_refl
              (conj eq_refl eq_refl) 2 Hk (sim_first_poll_running job_failed)
              (conj eq_refl (ex_intro _ (JNum 70) (conj eq_refl (fun _ => eq_refl))))
              2 Hfuel) as [Hrun _].
  rewrite Hrun. reflexivity.
Defined.

Lemma poller_stops_when_terminal_witness :
  exists o tail,
    _get_surv_data (job_server "inProgress" 2 job_file_early) sim_read_csv 9
                   "Survey A" true true [] (mkWorld sim_client [])
    = (o, mkWorld sim_client
            (started sim_client "SV_1" true [] []
             ++ poll_rounds sim_client "SV_1" "ES_1" 2 ++ tail))
    /\ status_checks sim_client "SV_1" "ES_1" tail = 0
    /\ status_checks sim_client "SV_1" "ES_1"
         ([surveys_request sim_client; export_request sim_client "SV_1" true []]
          ++ poll_rounds sim_client "SV_1" "ES_1" 2 ++ tail) = 2.
Proof.
  assert (Hk : 1 <= 2) by lia. assert (Hfuel : 2 <= 9) by lia.
  exact (poller_stops_when_terminal
           (job_server "inProgress" 2 job_file_early) sim_read_csv sim_client
           "Survey A" "SV_1" "ES_1" true
           (sim_survey_listed "inProgress" 2 job_file_early)
           true [] [] (JStr "inProgress") eq_refl eq_refl
           (conj eq_refl eq_refl) 2 Hk (sim_first_poll_running job_file_early)
           (JStr "inProgress")
           (conj (conj eq_refl
                       (ex_intro _ (JNum 99) (conj eq_refl (fun _ => eq_refl))))
                 (or_introl eq_refl))
           9 Hfuel).
Defined.

Lemma get_distribution_concatenates_witness :
  exists table,
    _get_distribution contacts_server 2 "ML_1" false (mkWorld sim_client [])
    = (Ok table,
       mkWorld sim_client
         [get_request (_headers sim_client) (contacts_url sim_client "ML_1");
          get_request (_headers sim_client) "https://sim.qualtrics.com/next/B";
          get_request (_headers sim_client) "https://sim.qualtrics.com/next/C"])
    /\ holds_rows table
         [sim_contact_row "C1" "a@x.org" "D1" "Success";
          sim_contact_row "C1" "a@x.org" "D2" "Bounce";
          sim_contact_row "C3" "c@x.org" "D1" "Success";
          sim_contact_row "C4" "d@x.org" "D2" "Success"]
    /\ table
       = {| columns := ["contactid"; "email"; "language"; "unsubscribed";
                        "emailDistributionId"; "result"];
            index := [0; 1; 2; 3];
            data := [[Val (JStr "C1"); Val (JStr "a@x.org"); Val (JStr "EN");
                      Val (JBool false); Val (JStr "D1"); Val (JStr "Success")];
                     [Val (JStr "C1"); Val (JStr "a@x.org"); Val (JStr "EN");
                      Val (JBool false); Val (JStr "D2"); Val (JStr "Bounce")];
                     [Val (JStr "C3"); Val (JStr "c@x.org"); Val (JStr "EN");
                      Val (JBool false); Val (JStr "D1"); Val (JStr "Success")];
                     [Val (JStr "C4"); Val (JStr "d@x.org"); Val (JStr "EN");
                      Val (JBool false); Val (JStr "D2"); Val (JStr "Success")]] |}.
Proof.
  assert (Hfuel : 2 <= 2) by lia.
  destruct (get_distribution_concatenates contacts_server sim_client "ML_1" false
              page_A
              [("https://sim.qualtrics.com/next/B", page_B);
               ("https://sim.qualtrics.com/next/C", page_C)]
              [[sim_contact_row "C1" "a@x.org" "D1" "Success";
                sim_contact_row "C1" "a@x.org" "D2" "Bounce"];
               [sim_contact_row "C3" "c@x.org" "D1" "Success"];
               [sim_contact_row "C4" "d@x.org" "D2" "Success"]] [] 2)
    as (table & Hrun & Hrows).
  - repeat split; intros h; reflexivity.
  - repeat constructor.
  - exact Hfuel.
  - exists table. split; [exact Hrun |]. split; [exact Hrows |].
    apply (f_equal fst) in Hrun. cbn [fst] in Hrun.
    vm_compute in Hrun. now inversion Hrun.
Defined.

Lemma export_needs_one_poll_witness :
  _get_surv_data (job_server "complete" 1 job_complete) sim_read_csv 3
                 "Survey A" true true [] (mkWorld sim_client [])
  = (Raise (UnboundLocalError "req_check_resp"),
     mkWorld sim_client
       [surveys_request sim_client; export_request sim_client "SV_1" true []]).
Proof.
  destruct (export_needs_one_poll (job_server "complete" 1 job_complete)
              sim_read_csv) as [H _].
  exact (H sim_client "Survey A" "SV_1" "ES_1" true true [] [] 3
           (sim_survey_listed "complete" 1 job_complete) eq_refl eq_refl).
Defined.

(** * Further properties of the code *)

(** ** Resolving a survey name *)

Lemma get_survey_id_found_or_not server obj suname h surveys i :
  result_field (server h (surveys_request obj)) "elements" = Ok (JList surveys) ->
  find_survey surveys suname = Ok i ->
  _get_survey_id server suname (mkWorld obj h)
  = (if is_None i then Raise (ValueError "survey does not exist") else Ok i,
     mkWorld obj (h ++ [surveys_request obj])).
Proof.
  intros Hel Hfind.
  assert (Hlist : _list_surveys server (mkWorld obj h)
                  = (Ok (server h (surveys_request obj)),
                     mkWorld obj (h ++ [surveys_request obj])))
    by reflexivity.
  unfold _get_survey_id. run_with Hlist. run_lift Hel. run_refl.
  run_lift Hfind. destruct (is_None i); reflexivity.
Qed.

Lemma find_survey_skips suname before rest :
  Forall (other_survey suname) before ->
  find_survey (before ++ rest) suname = find_survey rest suname.
Proof.
  induction 1 as [| s before (n & Hn & Hne) _ IH]; [reflexivity |].
  cbn [app find_survey]. rewrite Hn. cbn [obind]. now rewrite Hne.
Qed.

(** The id of a survey is that of the first survey of the listing that has
    the name; the call costs one request, the listing. *)
Theorem get_survey_id_first_match server obj (suname : string)
    (h : list request) (before : list json) (hit : json) (after : list json)
    (i : json) :
  result_field (server h (surveys_request obj)) "elements"
    = Ok (JList (before ++ hit :: after)) ->
  Forall (other_survey suname) before ->
  getitem hit "name" = Ok (JStr suname) ->
  getitem hit "id" = Ok i ->
  is_None i = false ->
  _get_survey_id server suname (mkWorld obj h)
  = (Ok i, mkWorld obj (h ++ [surveys_request obj])).
Proof.
  intros Hel Hbefore Hname Hid Hnone.
  rewrite (get_survey_id_found_or_not server obj suname h _ i Hel).
  - now rewrite Hnone.
  - rewrite (find_survey_skips _ _ _ Hbefore). cbn [find_survey].
    rewrite Hname. cbn [obind is_str]. now rewrite String.eqb_refl.
Qed.

(** A name that no survey of the listing has raises the [ValueError]
    "survey does not exist" after the one listing request; so does a name
    whose first survey has [None] for its id, because [None] is what the
    search starts from. *)
Theorem get_survey_id_not_found server obj (suname : string)
    (h : list request) :
  (forall surveys,
     result_field (server h (surveys_request obj)) "elements"
       = Ok (JList surveys) ->
     Forall (other_survey suname) surveys ->
     _get_survey_id server suname (mkWorld obj h)
     = (Raise (ValueError "survey does not exist"),
        mkWorld obj (h ++ [surveys_request obj])))
  /\ (forall before hit after,
        result_field (server h (surveys_request obj)) "elements"
          = Ok (JList (before ++ hit :: after)) ->
        Forall (other_survey suname) before ->
        getitem hit "name" = Ok (JStr suname) ->
        getitem hit "id" = Ok JNull ->
        _get_survey_id server suname (mkWorld obj h)
        = (Raise (ValueError "survey does not exist"),
           mkWorld obj (h ++ [surveys_request obj]))).
Proof.
  split.
  - intros surveys Hel Hall.
    rewrite (get_survey_id_found_or_not server obj suname h _ JNull Hel);
      [reflexivity |].
    rewrite <- (app_nil_r surveys). now rewrite find_survey_skips.
  - intros before hit after Hel Hbefore Hname Hid.
    rewrite (get_survey_id_found_or_not server obj suname h _ JNull Hel);
      [reflexivity |].
    rewrite (find_survey_skips _ _ _ Hbefore). cbn [find_survey].
    rewrite Hname. cbn [obind is_str]. now rewrite String.eqb_refl.
Qed.

(** ** The cache after a listing without duplicates *)

Lemma dict_get_del_other (d : dict) k k' :
  k <> k' -> dict_get (dict_del d k) k' = dict_get d k'.
Proof.
  intros Hne. induction d as [| [k0 v0] d IH]; [reflexivity |].
  cbn [dict_del dict_get].
  destruct (String.eqb k0 k) eqn:E0.
  - apply String.eqb_eq in E0. subst k0.
    apply String.eqb_neq in Hne. now rewrite Hne.
  - cbn [dict_get]. now rewrite IH.
Qed.

Lemma build_cache_lookup (ds : list dict) :
  forall (names : list string) (acc : gmap string dict),
    names_of (map JObj ds) = Ok names ->
    exists m,
      build_cache (map JObj ds) acc = Ok m
      /\ (forall n, n ∉ names -> m !! n = acc !! n)
      /\ (NoDup names ->
          forall k d n, ds !! k = Some d ->
            dict_get d "name" = Some (JStr n) ->
            m !! n = Some (dict_del d "name")).
Proof.
  induction ds as [| d ds IH]; intros names acc Hnames.
  - inversion Hnames; subst. exists acc.
    split; [reflexivity |]. split; [reflexivity |].
    intros _ k d n Hk. discriminate.
  - cbn [map names_of getitem] in Hnames.
    destruct (dict_get d "name") as [v |] eqn:Hd; [| discriminate].
    cbn [obind] in Hnames. destruct v as [| | | s | |]; try discriminate.
    destruct (names_of (map JObj ds)) as [ns | | |] eqn:Hns; try discriminate.
    cbn [obind] in Hnames. inversion Hnames; subst names.
    destruct (IH ns (<[s := dict_del d "name"]> acc) eq_refl)
      as (m & Hm & Hout & Hin).
    exists m. split; [| split].
    + cbn [map build_cache]. unfold dict_pop. rewrite Hd. cbn [obind fst snd].
      exact Hm.
    + intros n Hn. apply not_elem_of_cons in Hn as [Hne Hn].
      rewrite (Hout n Hn). now rewrite lookup_insert_ne.
    + intros Hnd k d' n Hk Hname. apply NoDup_cons in Hnd as [Hs Hnd].
      destruct k as [| k].
      * cbn in Hk. injection Hk as <-. rewrite Hd in Hname.
        injection Hname as <-.
        rewrite (Hout s Hs). now rewrite lookup_insert_eq.
      * cbn in Hk. exact (Hin Hnd k d' n Hk Hname).
Qed.

(** A client constructed on a listing whose names are all different
    resolves each listed name to the id of its entry, without a request,
    and raises [KeyError] for a name the listing does not have. *)
Theorem construction_then_lookup server (cls : QualtricsAPI_class)
    (base lib : string) (token : option string) (h : list request)
    (ds : list dict) (names : list string) :
  result_field
    (server h (get_request
                 (auth_headers match token with
                               | Some t => t
                               | None => api_token_default cls
                               end)
                 (String.concat "/" [base; "mailinglists"])))
    "elements" = Ok (JList (map JObj ds)) ->
  names_of (map JObj ds) = Ok names ->
  NoDup names ->
  exists w,
    QualtricsAPI_new server cls base lib token h = (Ok tt, w)
    /\ length (log w) = S (length h)
    /\ (forall k d n i,
          ds !! k = Some d ->
          dict_get d "name" = Some (JStr n) ->
          dict_get d "id" = Some i ->
          get_mailing_list_id n w = (Ok i, w))
    /\ (forall n, n ∉ names ->
          get_mailing_list_id n w = (Raise (KeyError n), w)).
Proof.
  intros Hlisting Hnames Hnd.
  destruct (build_cache_lookup ds names ∅ Hnames) as (m & Hm & Hout & Hin).
  eexists. split; [| split; [| split]].
  - unfold QualtricsAPI_new, __post_init__. run_refl. run_refl.
    erewrite bind_Ok; [reflexivity |].
    unfold _list_mailing_lists.
    erewrite bind_Ok by (apply (run_build_url ["mailinglists"])).
    run_refl. run_refl. run_lift Hlisting.
    run_refl. run_lift Hnames. run_refl.
    rewrite <- (names_of_length _ _ Hnames).
    rewrite (size_list_to_set names Hnd), Nat.eqb_refl. cbn [negb].
    unfold lift. rewrite Hm. reflexivity.
  - cbn [set_mls log self add_request]. rewrite length_app. simpl. lia.
  - intros k d n i Hk Hname Hid.
    unfold get_mailing_list_id, _get_mailing_list_attr.
    run_refl. cbn [set_mls self mls].
    rewrite (Hin Hnd k d n Hk Hname). unfold lift, getitem.
    rewrite dict_get_del_other by discriminate. now rewrite Hid.
  - intros n Hn.
    unfold get_mailing_list_id, _get_mailing_list_attr.
    run_refl. cbn [set_mls self mls].
    rewrite (Hout n Hn). reflexivity.
Qed.

(** ** The links paginator when no page fails *)

Section Links.

Variable server : list request -> request -> response.
Variable obj : QualtricsAPI.

Lemma fetch_next_page (l : links_locals) (h : list request) u page frame np :
  nextPage l = JStr u ->
  server h (get_request (_headers obj) u) = page ->
  page_frame page frame ->
  result_field page "nextPage" = Ok np ->
  exists l',
    fetch_next server (l, mkWorld obj h)
    = (Ok tt, (l', mkWorld obj (h ++ [get_request (_headers obj) u])))
    /\ dfs l' = dfs l ++ [frame]
    /\ nextPage l' = np.
Proof.
  intros Hnp Hpage (elements & Hel & Hframe) Hnext.
  eexists. split; [| split].
  - unfold fetch_next. run_refl. run_refl. run_refl.
    cbn [fst snd nextPage]. rewrite Hnp.
    erewrite bind_Ok by reflexivity. run_refl.
    cbn [snd fst log self]. fold (get_request (_headers obj) u).
    rewrite Hpage. run_lift Hel. run_lift Hframe. run_refl. run_refl.
    run_lift Hnext. reflexivity.
  - reflexivity.
  - reflexivity.
Qed.

Lemma attempts_first_try (n : nat) (s s' : links_locals * world) :
  fetch_next server s = (Ok tt, s') ->
  attempts server (S n) s = (Ok tt, s').
Proof.
  intros H. cbn [attempts]. unfold bind at 1, try_except_KeyError.
  rewrite (bind_Ok _ _ _ _ _ H). reflexivity.
Qed.

Lemma link_pages_chain (rest : list (string * response)) :
  forall (frames : list DataFrame) (l : links_locals) (h : list request)
         (fuel : nat),
    nextPage l = cursor_to rest ->
    linked server obj rest ->
    Forall2 (fun p frame => page_frame (snd p) frame) rest frames ->
    length rest <= fuel ->
    exists l',
      link_pages server fuel (l, mkWorld obj h)
      = (Ok tt, (l', mkWorld obj (h ++ page_requests obj rest)))
      /\ dfs l' = dfs l ++ frames.
Proof.
  induction rest as [| [u page] rest IH];
    intros frames l h fuel Hcur Hlinked Hframes Hfuel.
  - inversion Hframes; subst. exists l. split.
    + unfold page_requests. cbn [map]. rewrite app_nil_r.
      destruct fuel; cbn [link_pages]; run_refl;
        cbn [fst]; rewrite Hcur; reflexivity.
    + now rewrite app_nil_r.
  - inversion Hframes as [| ? frame ? frames' Hframe Hrest]; subst.
    cbn [snd] in Hframe. destruct Hlinked as (Hserver & Hnext & Hlinked).
    destruct fuel as [| fuel]; [simpl in Hfuel; lia |].
    destruct (fetch_next_page l h u page frame _ Hcur (Hserver h) Hframe Hnext)
      as (l1 & Hfetch & Hdfs1 & Hnp1).
    destruct (IH frames' l1 (h ++ [get_request (_headers obj) u]) fuel
                Hnp1 Hlinked Hrest) as (l' & Hloop & Hdfs').
    { simpl in Hfuel. lia. }
    exists l'. split.
    + cbn [link_pages]. run_refl. cbn [fst]. rewrite Hcur.
      cbn [cursor_to is_None negb].
      rewrite (bind_Ok _ _ _ _ _ (attempts_first_try 9 _ _ Hfetch)).
      rewrite Hloop. unfold page_requests. cbn [map fst].
      rewrite <- app_assoc. reflexivity.
    + rewrite Hdfs', Hdfs1, <- app_assoc. reflexivity.
Qed.

(** When no page lacks a field, the links paginator asks for the survey,
    the first page and each next page once, in this order, and returns the
    concatenation of the frames of the pages, in order, with its column
    names in lower case.  The column names are ASCII, where [lower] is
    [str.lower], and there is at least one. *)
Theorem get_dist_links_concatenates (dist_id surv_name sid : string)
    (verbose : bool) (first : response) (frame : DataFrame)
    (rest : list (string * response)) (frames : list DataFrame)
    (all : DataFrame) (h0 : list request) (fuel : nat) :
  survey_listed server obj surv_name sid ->
  server (h0 ++ [surveys_request obj]) (links_request obj dist_id (JStr sid))
    = first ->
  page_frame first frame ->
  result_field first "nextPage" = Ok (cursor_to rest) ->
  linked server obj rest ->
  Forall2 (fun p fr => page_frame (snd p) fr) rest frames ->
  length rest <= fuel ->
  pd_concat (frame :: frames) = Ok all ->
  columns all <> [] ->
  forallb ascii_only (columns all) = true ->
  _get_dist_links server fuel dist_id surv_name verbose (mkWorld obj h0)
  = (Ok {| columns := map lower (columns all);
           index := index all;
           data := data all |},
     mkWorld obj (h0 ++ surveys_request obj
                     :: links_request obj dist_id (JStr sid)
                     :: page_requests obj rest)).
Proof.
  intros Hsurvey Hfirst (elements & Hel & Hframe) Hnext Hlinked Hframes Hfuel
    Hall Hcols Hascii.
  unfold _get_dist_links.
  run_with (run_build_url ["distributions"; dist_id; "links"] (mkWorld obj h0)).
  run_refl.
  run_with (run_get_survey_id server obj surv_name sid Hsurvey h0).
  run_refl. cbn [log self].
  fold (links_request obj dist_id (JStr sid)). rewrite Hfirst.
  run_lift Hnext. run_lift Hel. run_lift Hframe.
  unfold with_locals.
  destruct (link_pages_chain rest frames
              {| count := 1; r := first; df := None; dfs := [] ++ [frame];
                 nextPage := cursor_to rest |}
              ((h0 ++ [surveys_request obj])
                 ++ [links_request obj dist_id (JStr sid)])
              fuel eq_refl Hlinked Hframes Hfuel) as (l' & Hloop & Hdfs).
  rewrite (bind_Ok _ _ _ _ _ Hloop). run_refl. cbn [fst]. rewrite Hdfs.
  cbn [dfs app]. rewrite <- !app_assoc. cbn [app].
  unfold bind, lift. rewrite Hall. unfold lower_columns. rewrite Hascii.
  destruct (columns all) as [| c cs]; [congruence | reflexivity].
Qed.

End Links.

(** ** The export poller at its edges *)

Section PollerEdges.

Variable server : list request -> request -> response.
Variable pd_read_csv : list Byte.byte -> outcome DataFrame.
Variable obj : QualtricsAPI.
Variables (surv_name : string) (verbose finished_only : bool).
Variable embedded_fields : list string.
Variable h0 : list request.

(** A survey name that does not resolve ends the export before any job is
    created: the only request is the listing of the surveys. *)
Theorem export_unknown_survey (surveys : list json) (fuel : nat) :
  result_field (server h0 (surveys_request obj)) "elements"
    = Ok (JList surveys) ->
  Forall (other_survey surv_name) surveys ->
  _get_surv_data server pd_read_csv fuel surv_name verbose finished_only
                 embedded_fields (mkWorld obj h0)
  = (Raise (ValueError "survey does not exist"),
     mkWorld obj (h0 ++ [surveys_request obj])).
Proof.
  intros Hel Hall. unfold _get_surv_data.
  erewrite bind_Raise; [reflexivity |].
  rewrite (get_survey_id_found_or_not server obj surv_name h0 _ JNull Hel);
    [reflexivity |].
  rewrite <- (app_nil_r surveys). now rewrite find_survey_skips.
Qed.

Variables (sid pid : string).
Hypothesis Hsurvey : survey_listed server obj surv_name sid.

Local Abbreviation created :=
  (server (h0 ++ [surveys_request obj])
          (export_request obj sid finished_only embedded_fields)).
Local Abbreviation start := (started obj sid finished_only embedded_fields h0).

Hypothesis Hpid : result_field created "progressId" = Ok (JStr pid).

(** A job that is failed when it is created raises the export failure
    without a single status check. *)
Theorem export_failed_at_creation (fuel : nat) :
  result_field created "status" = Ok (JStr "failed") ->
  _get_surv_data server pd_read_csv fuel surv_name verbose finished_only
                 embedded_fields (mkWorld obj h0)
  = (Raise (PlainException "export failed"), mkWorld obj start).
Proof.
  intros Hst.
  rewrite (export_prelude server pd_read_csv obj surv_name sid pid verbose
             Hsurvey finished_only embedded_fields h0 _ Hpid Hst).
  rewrite (bind_Ok _ _ _ _ _
             (poll_stop server surv_name pid verbose fuel (JStr "failed")
                        JNull None _ eq_refl)).
  reflexivity.
Qed.

(** No timeout: while the job stays in progress without a file id, the
    poller goes on asking; whatever the number of turns it is given, it
    uses them all on status checks and neither returns nor raises. *)
Theorem export_polls_without_end (st0 : json) :
  result_field created "status" = Ok st0 ->
  job_running st0 ->
  (forall j, still_running verbose (nth_status server obj sid pid start j)) ->
  forall fuel,
    _get_surv_data server pd_read_csv fuel surv_name verbose finished_only
                   embedded_fields (mkWorld obj h0)
    = (OutOfFuel, mkWorld obj (start ++ poll_rounds obj sid pid fuel))
    /\ status_checks obj sid pid (poll_rounds obj sid pid fuel) = fuel.
Proof.
  intros Hst Hrun0 Hrun fuel. split.
  - rewrite (export_prelude server pd_read_csv obj surv_name sid pid verbose
               Hsurvey finished_only embedded_fields h0 _ Hpid Hst).
    destruct (poll_running server obj surv_name sid pid verbose Hsurvey fuel
                start st0 None Hrun0 (fun j _ => Hrun j))
      as (st' & rc' & [Hc Hf] & _ & _ & Hpoll).
    specialize (Hpoll 0). rewrite Nat.add_0_r in Hpoll.
    unfold bind. rewrite Hpoll. cbn [poll]. rewrite Hc, Hf. reflexivity.
  - apply status_checks_rounds.
Qed.

End PollerEdges.

(** ** The contacts paginator on a chain that does not end *)

Lemma contact_pages_cycle server obj u page rows :
  (forall h, server h (get_request (_headers obj) u) = page) ->
  _parse_distribution_page page = Ok rows ->
  result_field page "nextPage" = Ok (JStr u) ->
  forall fuel acc count h,
    contact_pages server fuel (JStr u) acc count (mkWorld obj h)
    = (OutOfFuel,
       mkWorld obj (h ++ repeat (get_request (_headers obj) u) fuel)).
Proof.
  intros Hserver Hparse Hnext.
  destruct (page_fields page rows _ Hparse Hnext)
    as (data & res & elements & n & Hdata & Hres & Hel & Hlen & Hnp).
  induction fuel as [| fuel IH]; intros acc count h.
  - cbn [contact_pages repeat is_None negb]. now rewrite app_nil_r.
  - cbn [contact_pages is_None negb].
    run_refl. run_refl. cbn [log self].
    fold (get_request (_headers obj) u). rewrite Hserver.
    run_lift Hdata. run_lift Hres. run_lift Hel. run_lift Hlen.
    run_lift Hparse. run_lift Hres. run_lift Hnp.
    rewrite IH. cbn [repeat]. rewrite <- app_assoc. reflexivity.
Qed.

(** The paginator follows the cursors blindly: when a page names itself
    as the next page, it fetches that page again and again, as many times
    as it is given turns, and neither returns nor raises. *)
Theorem get_distribution_cycle server obj (ml_id : string) (verbose : bool)
    (first : response) (rows0 : list dict) (u : string) (page : response)
    (rows : list dict) (h0 : list request) (fuel : nat) :
  server h0 (get_request (_headers obj) (contacts_url obj ml_id)) = first ->
  _parse_distribution_page first = Ok rows0 ->
  result_field first "nextPage" = Ok (JStr u) ->
  (forall h, server h (get_request (_headers obj) u) = page) ->
  _parse_distribution_page page = Ok rows ->
  result_field page "nextPage" = Ok (JStr u) ->
  _get_distribution server fuel ml_id verbose (mkWorld obj h0)
  = (OutOfFuel,
     mkWorld obj (h0 ++ get_request (_headers obj) (contacts_url obj ml_id)
                     :: repeat (get_request (_headers obj) u) fuel)).
Proof.
  intros Hfirst Hparse0 Hnext0 Hserver Hparse Hnext.
  unfold _get_distribution.
  run_with (run_build_url ["mailinglists"; ml_id; "contacts"] (mkWorld obj h0)).
  run_refl. run_refl. cbn [log self].
  fold (contacts_url obj ml_id).
  fold (get_request (_headers obj) (contacts_url obj ml_id)).
  rewrite Hfirst. run_lift Hnext0. run_lift Hparse0.
  unfold bind.
  rewrite (contact_pages_cycle server obj u page rows Hserver Hparse Hnext).
  rewrite <- app_assoc. reflexivity.
Qed.

(** ** Converting a table into contacts *)

Lemma cell_value_inv c v : cell_value c = Ok v -> c = Val v.
Proof. destruct c; simpl; intros H; now inversion H. Qed.

Lemma row_contact_of_row cols emailcol langcol ecols label row contact :
  row_contact cols emailcol langcol ecols label row = Ok contact ->
  contact_of_row cols emailcol langcol ecols row contact.
Proof.
  unfold row_contact. intros H.
  destruct (row_getattr cols label row emailcol) as [e | | |] eqn:He;
    try discriminate.
  cbn [obind] in H.
  destruct (cell_value e) as [email | | |] eqn:Hv; try discriminate.
  apply cell_value_inv in Hv. subst e. cbn [obind] in H.
  exists label, email. split; [exact He |].
  destruct langcol as [lc |].
  - destruct (row_getattr cols label row lc) as [l | | |] eqn:Hl;
      try discriminate.
    cbn [obind] in H.
    destruct (cell_value l) as [language | | |] eqn:Hlv; try discriminate.
    apply cell_value_inv in Hlv. subst l. cbn [obind] in H.
    destruct ecols as [ecs |].
    + destruct (getattrs cols label row ecs) as [values | | |] eqn:Hg;
        try discriminate.
      cbn [obind] in H. inversion H; subst contact.
      split; [reflexivity |]. split; [now exists language |].
      now exists values.
    + inversion H; subst contact.
      split; [reflexivity |]. split; [now exists language | reflexivity].
  - cbn [obind] in H. destruct ecols as [ecs |].
    + destruct (getattrs cols label row ecs) as [values | | |] eqn:Hg;
        try discriminate.
      cbn [obind] in H. inversion H; subst contact.
      split; [reflexivity |]. split; [reflexivity |]. now exists values.
    + inversion H; subst contact. repeat split.
Qed.

Lemma rows_contacts_of_rows cols emailcol langcol ecols rows :
  forall labels contacts,
    rows_contacts cols emailcol langcol ecols labels rows = Ok contacts ->
    Forall2 (contact_of_row cols emailcol langcol ecols) rows contacts.
Proof.
  induction rows as [| row rows IH]; intros labels contacts H.
  - inversion H. constructor.
  - cbn [rows_contacts] in H.
    destruct (row_contact cols emailcol langcol ecols (List.hd 0 labels) row)
      as [c | | |] eqn:Hc; try discriminate.
    cbn [obind] in H.
    destruct (rows_contacts cols emailcol langcol ecols (List.tl labels) rows)
      as [cs | | |] eqn:Hcs; try discriminate.
    inversion H; subst contacts. constructor.
    + exact (row_contact_of_row _ _ _ _ _ _ _ Hc).
    + exact (IH _ _ Hcs).
Qed.

Lemma emails_of_length contacts emails :
  emails_of contacts = Ok emails -> length emails = length contacts.
Proof.
  revert emails. induction contacts as [| c cs IH]; simpl; intros emails H.
  - now inversion H.
  - destruct (dict_get c "email") as [e |]; simpl in H; try discriminate.
    destruct e; try discriminate.
    destruct (emails_of cs) as [es | | |]; simpl in H; try discriminate.
    inversion H. simpl. now rewrite (IH es).
Qed.

(** Contacts that come out of the conversion are one per row, in the order
    of the rows, at most 10000, each made of its row, and no two of them
    have the same email. *)
Theorem convert_df_to_contacts_passed (df : DataFrame) (emailcol : string)
    (langcol : option string) (ecols : option ecols_arg)
    (contacts : list dict) :
  _convert_df_to_contacts df emailcol langcol ecols = Ok (Passed contacts) ->
  Forall2 (contact_of_row (columns df) emailcol langcol (ecols_list ecols))
          (data df) contacts
  /\ (Z.of_nat (length contacts) <= 10000)%Z
  /\ exists emails, emails_of contacts = Ok emails /\ NoDup emails.
Proof.
  unfold _convert_df_to_contacts. intros H.
  destruct (Z.of_nat (length (data df)) <=? 10000)%Z eqn:Hlen;
    [| discriminate].
  cbn [negb] in H.
  destruct (rows_contacts (columns df) emailcol langcol (ecols_list ecols)
              (index df) (data df)) as [cs | | |] eqn:Hcs; try discriminate.
  cbn [obind] in H.
  destruct (emails_of cs) as [emails | | |] eqn:Hem; try discriminate.
  cbn [obind] in H.
  destruct (size (list_to_set emails : gset string) =? length (data df))%nat
    eqn:Hsize; [| discriminate].
  inversion H; subst contacts. clear H.
  pose proof (rows_contacts_of_rows _ _ _ _ _ _ _ Hcs) as Hrows.
  pose proof (Forall2_length _ _ _ Hrows) as Hl.
  split; [exact Hrows |]. split.
  - apply Z.leb_le in Hlen. now rewrite <- Hl.
  - exists emails. split; [exact Hem |].
    apply size_list_to_set_NoDup. apply Nat.eqb_eq in Hsize.
    rewrite Hsize. rewrite (emails_of_length _ _ Hem). exact Hl.
Qed.

(** Two rows with the same email make the conversion fail on its second
    assertion, the one without a message, once every row has been
    converted. *)
Theorem convert_df_to_contacts_duplicate (df : DataFrame) (emailcol : string)
    (langcol : option string) (ecols : option ecols_arg)
    (contacts : list dict) (emails : list string) (i j : nat) (e : string) :
  (Z.of_nat (length (data df)) <= 10000)%Z ->
  rows_contacts (columns df) emailcol langcol (ecols_list ecols)
                (index df) (data df) = Ok contacts ->
  emails_of contacts = Ok emails ->
  i < j -> emails !! i = Some e -> emails !! j = Some e ->
  _convert_df_to_contacts df emailcol langcol ecols = Ok (AssertionFailed "").
Proof.
  intros Hlen Hcs Hem Hij Hi Hj. unfold _convert_df_to_contacts.
  apply Z.leb_le in Hlen. rewrite Hlen. cbn [negb].
  rewrite Hcs. cbn [obind]. rewrite Hem. cbn [obind].
  destruct (size (list_to_set emails : gset string) =? length (data df))%nat
    eqn:Hsize; [| reflexivity].
  exfalso. apply Nat.eqb_eq in Hsize.
  pose proof (Forall2_length _ _ _ (rows_contacts_of_rows _ _ _ _ _ _ _ Hcs))
    as Hl.
  rewrite Hl, <- (emails_of_length _ _ Hem) in Hsize.
  apply size_list_to_set_NoDup in Hsize.
  pose proof (NoDup_lookup _ _ _ _ Hsize Hi Hj). lia.
Qed.

(** ** Importing contacts *)

(** [import_contacts] sends one request, the import, and only for a name
    that resolves and a table that passes both assertions: a name that does
    not resolve raises before the table is looked at, a table of more than
    10000 rows or one that fails an assertion stops the call with nothing
    sent. *)
Theorem import_contacts_sends_once server (mlname : string) (df : DataFrame)
    (emailcol : string) (langcol : option string) (ecols : option ecols_arg)
    (w : world) :
  (forall e, get_mailing_list_id mlname w = (Raise e, w) ->
     import_contacts server mlname df emailcol langcol ecols w = (Raise e, w))
  /\ (forall i msg,
        get_mailing_list_id mlname w = (Ok i, w) ->
        _convert_df_to_contacts df emailcol langcol ecols
          = Ok (AssertionFailed msg) ->
        import_contacts server mlname df emailcol langcol ecols w
        = (Ok (AssertionFailed msg), w))
  /\ (forall i,
        get_mailing_list_id mlname w = (Ok i, w) ->
        (10000 < Z.of_nat (length (data df)))%Z ->
        import_contacts server mlname df emailcol langcol ecols w
        = (Ok (AssertionFailed "maximum contacts to import at once is 10000"),
           w))
  /\ (forall mlid contacts,
        get_mailing_list_id mlname w = (Ok (JStr mlid), w) ->
        _convert_df_to_contacts df emailcol langcol ecols
          = Ok (Passed contacts) ->
        import_contacts server mlname df emailcol langcol ecols w
        = (Ok (Passed (server (log w) (import_request (self w) mlid contacts))),
           add_request (import_request (self w) mlid contacts) w)).
Proof.
  assert (Hfail : forall i msg,
            get_mailing_list_id mlname w = (Ok i, w) ->
            _convert_df_to_contacts df emailcol langcol ecols
              = Ok (AssertionFailed msg) ->
            import_contacts server mlname df emailcol langcol ecols w
            = (Ok (AssertionFailed msg), w)).
  { intros i msg Hget Hconv. unfold import_contacts.
    run_with Hget. run_lift Hconv. reflexivity. }
  split; [| split; [exact Hfail | split]].
  - intros e Hget. unfold import_contacts.
    now rewrite (bind_Raise _ _ _ _ _ Hget).
  - intros i Hget Hlen. apply (Hfail i _ Hget).
    unfold _convert_df_to_contacts.
    apply Z.ltb_lt in Hlen. rewrite Z.leb_antisym, Hlen. reflexivity.
  - intros mlid contacts Hget Hconv. unfold import_contacts.
    run_with Hget. run_lift Hconv. cbv beta iota.
    run_with (run_build_url ["mailinglists"; mlid; "contactimports"] w).
    run_refl. run_refl. reflexivity.
Qed.

(** ** Creating distribution links *)

(** [_create_distribution_links] creates a distribution only when both
    names resolve: an unknown mailing list raises with nothing sent, an
    unknown survey raises after the listing of the surveys, and otherwise
    the creation is the one request after that listing. *)
Theorem create_distribution_links_resolves_first server obj (ts : string)
    (suname mlname : string) (h : list request) :
  (forall e, get_mailing_list_id mlname (mkWorld obj h)
             = (Raise e, mkWorld obj h) ->
     _create_distribution_links server ts suname mlname (mkWorld obj h)
     = (Raise e, mkWorld obj h))
  /\ (forall mlid surveys,
        get_mailing_list_id mlname (mkWorld obj h) = (Ok mlid, mkWorld obj h) ->
        result_field (server h (surveys_request obj)) "elements"
          = Ok (JList surveys) ->
        Forall (other_survey suname) surveys ->
        _create_distribution_links server ts suname mlname (mkWorld obj h)
        = (Raise (ValueError "survey does not exist"),
           mkWorld obj (h ++ [surveys_request obj])))
  /\ (forall mlid sid,
        get_mailing_list_id mlname (mkWorld obj h) = (Ok mlid, mkWorld obj h) ->
        survey_listed server obj suname sid ->
        _create_distribution_links server ts suname mlname (mkWorld obj h)
        = (Ok (server (h ++ [surveys_request obj])
                      (create_links_request obj ts (JStr sid) mlid)),
           mkWorld obj (h ++ [surveys_request obj;
                              create_links_request obj ts (JStr sid) mlid]))).
Proof.
  split; [| split].
  - intros e Hget. unfold _create_distribution_links.
    now rewrite (bind_Raise _ _ _ _ _ Hget).
  - intros mlid surveys Hget Hel Hall. unfold _create_distribution_links.
    run_with Hget. run_with (run_build_url ["distributions"] (mkWorld obj h)).
    run_refl.
    erewrite bind_Raise; [reflexivity |].
    rewrite (get_survey_id_found_or_not server obj suname h _ JNull Hel);
      [reflexivity |].
    rewrite <- (app_nil_r surveys). now rewrite find_survey_skips.
  - intros mlid sid Hget Hsurvey. unfold _create_distribution_links.
    run_with Hget. run_with (run_build_url ["distributions"] (mkWorld obj h)).
    run_refl.
    run_with (run_get_survey_id server obj suname sid Hsurvey h).
    unfold requests_post, send. cbn [log self].
    rewrite <- app_assoc. reflexivity.
Qed.

(** ** The invites of a survey *)

Lemma invites_lookup results ds :
  Forall2 is_distribution results ds ->
  forall acc, exists dists,
    invites results acc = Ok dists
    /\ forall k,
         dict_get dists k
         = match last (List.filter
                         (fun d => is_invite d && String.eqb (d_list d) k) ds)
           with
           | Some d => Some (invite_of d)
           | None => dict_get acc k
           end.
Proof.
  induction 1 as [| result d results ds Hd _ IH]; intros acc.
  - exists acc. split; reflexivity.
  - destruct Hd as (rec & Hty & Hrec & Hsa & Hid & Hml & Hda).
    cbn [invites]. rewrite Hty. cbn [obind]. rewrite Hrec. cbn [obind].
    rewrite Hsa. cbn [obind]. rewrite Hid. cbn [obind]. rewrite Hml.
    cbn [obind]. rewrite Hda. cbn [obind]. fold (is_invite d).
    destruct (is_invite d) eqn:Hinv.
    + destruct (IH (dict_set acc (d_list d) (invite_of d)))
        as (dists & Hrun & Hlook).
      exists dists. split; [exact Hrun |].
      intros k. rewrite Hlook. cbn [List.filter]. rewrite Hinv.
      cbn [andb]. rewrite dict_get_set.
      destruct (String.eqb (d_list d) k); [| reflexivity].
      rewrite last_cons.
      destruct (last (List.filter _ ds)); reflexivity.
    + destruct (IH acc) as (dists & Hrun & Hlook).
      exists dists. split; [exact Hrun |].
      intros k. rewrite Hlook. cbn [List.filter]. rewrite Hinv.
      reflexivity.
Qed.

(** [_get_distribution_ids] keeps the invites that were not sent to a
    sample and nothing else (no reminder, no test): a mailing list is in
    the result exactly when it has such an invite, with the distribution id
    and send date of the last of them in the listing.  The call costs two
    requests. *)
Theorem get_distribution_ids_invites server obj (surv_name sid : string)
    (h : list request) (results : list json) (ds : list distribution) :
  survey_listed server obj surv_name sid ->
  result_field (server (h ++ [surveys_request obj])
                       (distributions_request obj (JStr sid))) "elements"
    = Ok (JList results) ->
  Forall2 is_distribution results ds ->
  exists dists,
    _get_distribution_ids server surv_name (mkWorld obj h)
    = (Ok dists,
       mkWorld obj (h ++ [surveys_request obj;
                          distributions_request obj (JStr sid)]))
    /\ forall k,
         dict_get dists k
         = invite_of <$>
             last (List.filter
                     (fun d => is_invite d && String.eqb (d_list d) k) ds).
Proof.
  intros Hsurvey Hel Hds.
  destruct (invites_lookup results ds Hds []) as (dists & Hrun & Hlook).
  exists dists. split.
  - unfold _get_distribution_ids.
    run_with (run_build_url ["distributions"] (mkWorld obj h)).
    run_refl. run_with (run_get_survey_id server obj surv_name sid Hsurvey h).
    run_refl. cbn [log self]. fold (distributions_request obj (JStr sid)).
    run_lift Hel. run_refl. unfold lift. rewrite Hrun.
    rewrite <- app_assoc. reflexivity.
  - intros k. rewrite Hlook.
    destruct (last (List.filter _ ds)); reflexivity.
Qed.

(** A survey without any such invite has no distribution data at all:
    [get_all_distribution_data] raises the [ValueError] of [pd.concat] on
    an empty list, it does not return an empty table. *)
Theorem get_all_distribution_data_no_invite server obj
    (surv_name sid : string) (verbose : bool) (h : list request)
    (results : list json) (ds : list distribution) (fuel : nat) :
  survey_listed server obj surv_name sid ->
  result_field (server (h ++ [surveys_request obj])
                       (distributions_request obj (JStr sid))) "elements"
    = Ok (JList results) ->
  Forall2 is_distribution results ds ->
  Forall (fun d => is_invite d = false) ds ->
  get_all_distribution_data server fuel surv_name verbose (mkWorld obj h)
  = (Raise (ValueError "No objects to concatenate"),
     mkWorld obj (h ++ [surveys_request obj;
                        distributions_request obj (JStr sid)])).
Proof.
  intros Hsurvey Hel Hds Hnone.
  assert (Hinv : invites results [] = Ok []).
  { clear Hel. generalize (@nil (string * json)) as acc.
    induction Hds as [| result d results ds Hd _ IH]; intros acc;
      [reflexivity |].
    apply Forall_cons in Hnone as [Hd0 Hnone].
    destruct Hd as (rec & Hty & Hrec & Hsa & Hid & Hml & Hda).
    cbn [invites]. rewrite Hty. cbn [obind]. rewrite Hrec. cbn [obind].
    rewrite Hsa. cbn [obind]. rewrite Hid. cbn [obind]. rewrite Hml.
    cbn [obind]. rewrite Hda. cbn [obind]. fold (is_invite d).
    rewrite Hd0. now apply IH. }
  unfold get_all_distribution_data.
  erewrite bind_Ok.
  2:{ unfold _get_distribution_ids.
      run_with (run_build_url ["distributions"] (mkWorld obj h)).
      run_refl. run_with (run_get_survey_id server obj surv_name sid Hsurvey h).
      run_refl. cbn [log self]. fold (distributions_request obj (JStr sid)).
      run_lift Hel. run_refl. unfold lift. rewrite Hinv. reflexivity. }
  cbn [map distributions_of]. run_refl.
  unfold bind, lift. cbn [pd_concat]. rewrite <- app_assoc. reflexivity.
Qed.

(** ** Finished and unfinished responses in one table *)

Lemma position_lookup c cols : forall n,
  position c cols = Some n -> cols !! n = Some c.
Proof.
  induction cols as [| c' cols IH]; intros n H; [discriminate |].
  cbn [position] in H. destruct (String.eqb c' c) eqn:E.
  - apply String.eqb_eq in E. subst c'. now inversion H.
  - destruct (position c cols) as [m |]; [| discriminate].
    inversion H. cbn. now apply IH.
Qed.

Lemma position_None c cols : position c cols = None -> c ∉ cols.
Proof.
  induction cols as [| c' cols IH]; intros H Hin.
  - now apply not_elem_of_nil in Hin.
  - cbn [position] in H. destruct (String.eqb c' c) eqn:E; [discriminate |].
    apply String.eqb_neq in E.
    destruct (position c cols); [discriminate |].
    apply elem_of_cons in Hin as [-> | Hin]; [congruence |].
    now apply IH.
Qed.

Lemma position_elem c cols : c ∈ cols -> exists n, position c cols = Some n.
Proof.
  intros Hin. destruct (position c cols) as [n |] eqn:E; [now exists n |].
  now apply position_None in E.
Qed.

Lemma nth_map_lookup {A} (f : A -> cell) (l : list A) n a :
  l !! n = Some a -> nth n (map f l) NaN = f a.
Proof.
  revert n. induction l as [| x l IH]; intros [| n] H; try discriminate.
  - now inversion H.
  - cbn. now apply IH.
Qed.

(** The cells of a column after [realign]. *)
Lemma realign_column c cols df n m :
  position c cols = Some n ->
  position c (columns df) = Some m ->
  map (fun row => nth n row NaN) (realign cols df)
  = map (fun row => nth m row NaN) (data df).
Proof.
  intros Hn Hm. unfold realign. rewrite map_map.
  apply map_ext. intros row.
  rewrite (nth_map_lookup _ cols n c (position_lookup _ _ _ Hn)).
  now rewrite Hm.
Qed.

Lemma set_column_cells (t : DataFrame) (col : string) (v : json) :
  well_formed t ->
  exists t',
    set_column t col v = Ok t'
    /\ well_formed t'
    /\ index t' = index t
    /\ length (data t') = length (data t)
    /\ column_cells t' col = Some (repeat (Val v) (length (data t))).
Proof.
  intros [Hnd Hrows]. unfold set_column.
  rewrite (dedup_keys_NoDup _ Hnd), Nat.eqb_refl. cbn [negb].
  destruct (position col (columns t)) as [n |] eqn:Hpos.
  - eexists. split; [reflexivity |].
    pose proof (lookup_lt_Some _ _ _ (position_lookup _ _ _ Hpos)) as Hlt.
    split; [| split; [reflexivity | split; [cbn [data]; now rewrite length_map |]]].
    + split; [exact Hnd |]. cbn [data columns].
      apply Forall_map. eapply Forall_impl; [exact Hrows |].
      intros row Hrow. cbn beta. now rewrite length_insert.
    + unfold column_cells. cbn [columns data]. rewrite Hpos. f_equal.
      rewrite map_map. clear Hpos.
      induction Hrows as [| row rows Hrow _ IH]; [reflexivity |].
      cbn [map length repeat]. rewrite IH. f_equal.
      apply nth_lookup_Some with (d := NaN).
      apply list_lookup_insert_eq. lia.
  - eexists. split; [reflexivity |].
    pose proof (position_None _ _ Hpos) as Hnin.
    split; [| split; [reflexivity | split; [cbn [data]; now rewrite length_map |]]].
    + split; cbn [data columns].
      * apply NoDup_app. split; [exact Hnd |]. split.
        -- intros x Hx Hx'. apply list_elem_of_singleton in Hx'. now subst.
        -- apply NoDup_singleton.
      * apply Forall_map. eapply Forall_impl; [exact Hrows |].
        intros row Hrow. cbn beta. rewrite !length_app, Hrow. reflexivity.
    + unfold column_cells. cbn [columns data].
      assert (Hp : position col (columns t ++ [col])
                   = Some (length (columns t))).
      { clear Hnd Hrows. induction (columns t) as [| c cs IH].
        - cbn. now rewrite String.eqb_refl.
        - cbn [position] in Hpos. cbn [app position length].
          destruct (String.eqb c col); [discriminate |].
          destruct (position col cs) eqn:E; [discriminate |].
          rewrite IH; [reflexivity | reflexivity |].
          intros Hin. apply Hnin. now right. }
      rewrite Hp. f_equal. rewrite map_map.
      induction Hrows as [| row rows Hrow _ IH]; [reflexivity |].
      cbn [map length repeat]. rewrite IH. f_equal.
      apply nth_lookup_Some with (d := NaN).
      rewrite lookup_app_r by lia. rewrite Hrow, Nat.sub_diag. reflexivity.
Qed.

Lemma column_cells_inv df col cells :
  column_cells df col = Some cells ->
  exists m, position col (columns df) = Some m
            /\ cells = map (fun row => nth m row NaN) (data df).
Proof.
  unfold column_cells. destruct (position col (columns df)) as [m |];
    intros H; [| discriminate].
  exists m. split; [reflexivity | now inversion H].
Qed.

Lemma concat_labels_column (a b : DataFrame) (col : string)
    (cells_a cells_b : list cell) :
  well_formed a -> well_formed b ->
  column_cells a col = Some cells_a ->
  column_cells b col = Some cells_b ->
  exists t,
    pd_concat_labels ([] ++ [a] ++ [b]) = Ok t
    /\ index t = index a ++ index b
    /\ length (data t) = length (data a) + length (data b)
    /\ column_cells t col = Some (cells_a ++ cells_b).
Proof.
  intros [Hnda _] [Hndb _] Ha Hb.
  apply column_cells_inv in Ha as (ma & Hma & ->).
  apply column_cells_inv in Hb as (mb & Hmb & ->).
  unfold pd_concat_labels. cbn [app forallb].
  rewrite (dedup_keys_NoDup _ Hnda), (dedup_keys_NoDup _ Hndb), !Nat.eqb_refl.
  cbn [andb]. eexists. split; [reflexivity |].
  cbn [index data columns map concat]. rewrite !app_nil_r.
  split; [reflexivity |]. split.
  - unfold realign. now rewrite length_app, !length_map.
  - unfold column_cells. cbn [columns data].
    destruct (position_elem col (dedup_keys (columns a ++ columns b)))
      as (n & Hn).
    { apply dedup_keys_elem, elem_of_app. left.
      apply list_elem_of_lookup. exists ma. now apply position_lookup. }
    rewrite Hn, map_app.
    rewrite (realign_column col _ a n ma Hn Hma).
    rewrite (realign_column col _ b n mb Hn Hmb). reflexivity.
Qed.

(** [get_all_surv_data] exports the responses in progress first, then the
    finished ones, and stacks the two tables with their row labels; the
    column [finished] of the result holds the flag of the export a row came
    from, in place of whatever column of that name the platform sent. *)
Theorem get_all_surv_data_finished server pd_read_csv (fuel : nat)
    (surv_name : string) (verbose : bool) (embedded_fields : list string)
    (w w1 w2 : world) (t1 t2 : DataFrame) :
  _get_surv_data server pd_read_csv fuel surv_name verbose false
                 embedded_fields w = (Ok t1, w1) ->
  _get_surv_data server pd_read_csv fuel surv_name verbose true
                 embedded_fields w1 = (Ok t2, w2) ->
  well_formed t1 -> well_formed t2 ->
  exists t,
    get_all_surv_data server pd_read_csv fuel surv_name verbose
                      embedded_fields w = (Ok t, w2)
    /\ index t = index t1 ++ index t2
    /\ length (data t) = length (data t1) + length (data t2)
    /\ column_cells t "finished"
       = Some (repeat (Val (JBool false)) (length (data t1))
               ++ repeat (Val (JBool true)) (length (data t2))).
Proof.
  intros Hrun1 Hrun2 Hwf1 Hwf2.
  destruct (set_column_cells t1 "finished" (JBool false) Hwf1)
    as (a & Hseta & Hwfa & Hia & Hla & Hca).
  destruct (set_column_cells t2 "finished" (JBool true) Hwf2)
    as (b & Hsetb & Hwfb & Hib & Hlb & Hcb).
  destruct (concat_labels_column a b "finished" _ _ Hwfa Hwfb Hca Hcb)
    as (t & Hcat & Hit & Hlt & Hct).
  exists t. split; [| split; [| split]].
  - unfold get_all_surv_data.
    run_with Hrun1. run_lift Hseta. run_with Hrun2. run_lift Hsetb.
    unfold lift. now rewrite Hcat.
  - now rewrite Hit, Hia, Hib.
  - now rewrite Hlt, Hla, Hlb.
  - exact Hct.
Qed.

(** ** Merging a contact with a history entry *)

(** In the row made of a contact and one of its history entries, a field
    that the entry has takes the value of the entry, also when it is one of
    [contactid], [email], [language] and [unsubscribed]; every other field
    is the contact's. *)
Theorem history_entry_fields_win (person : json) (c : contact) (n : nat)
    (e : dict) :
  is_contact person c ->
  c_history c !! n = Some e ->
  NoDup (map fst e) ->
  exists rows row,
    parse_person person = Ok rows
    /\ rows !! n = Some row
    /\ forall k,
         dict_get row k = match dict_get e k with
                          | Some v => Some v
                          | None => dict_get (contact_fields c) k
                          end.
Proof.
  intros Hc Hn Hnd.
  exists (map (dict_or (contact_fields c)) (c_history c)),
         (dict_or (contact_fields c) e).
  split; [now apply parse_person_contact |]. split.
  - rewrite list_lookup_fmap, Hn. reflexivity.
  - intros k. now apply dict_get_or.
Qed.

(** ** A created mailing list that the listing does not show *)

(** When the name still does not resolve after the creation and the reload,
    [create_mailing_list] raises the [KeyError] of the second lookup: it
    has sent its one POST and one listing, it does not try again, and the
    reloaded cache stays in place. *)
Theorem create_mailing_list_not_listed server (name : string)
    (category : option string) (w w2 : world) (k : string)
    (m : gmap string dict) :
  get_mailing_list_id name w = (Raise (KeyError k), w) ->
  _list_mailing_lists server
    (add_request (creation_request (self w) name category) w) = (Ok m, w2) ->
  m !! name = None ->
  create_mailing_list server name category w
  = (Raise (KeyError name), set_mls m w2)
  /\ log (set_mls m w2)
     = log w ++ [creation_request (self w) name category;
                 listing_request (self w)]
  /\ mls (self (set_mls m w2)) = Some m.
Proof.
  intros Hget Hlist Hnone. split; [| split].
  - unfold create_mailing_list, try_except_KeyError. rewrite Hget.
    run_with (run_build_url ["mailinglists"] w).
    run_refl. run_refl. run_refl.
    fold (creation_request (self w) name category).
    change (mkWorld (self w) (log w ++ [creation_request (self w) name category]))
      with (add_request (creation_request (self w) name category) w).
    run_with Hlist. run_refl.
    unfold get_mailing_list_id, _get_mailing_list_attr. run_refl.
    cbn [set_mls self mls]. now rewrite Hnone.
  - pose proof (list_mailing_lists_world server
      (add_request (creation_request (self w) name category) w)) as Hw.
    rewrite Hlist in Hw. cbn [snd] in Hw. subst w2.
    cbn [set_mls log add_request self]. now rewrite <- app_assoc.
  - reflexivity.
Qed.

(** * The further properties on the simulated platform *)

Lemma sim_surveys_listed results :
  survey_listed (dist_server results) sim_client "Survey A" "SV_1".
Proof. intros h. eexists. split; reflexivity. Defined.

Lemma sim_survey_b_other : Forall (other_survey "Survey A")
                                  [JObj [("name", JStr "Survey B");
                                         ("id", JStr "SV_2")]].
Proof. repeat constructor. eexists. split; reflexivity. Defined.

Lemma get_survey_id_first_match_witness :
  _get_survey_id (dist_server []) "Survey A" (mkWorld sim_client [])
  = (Ok (JStr "SV_1"), mkWorld sim_client [surveys_request sim_client]).
Proof.
  exact (get_survey_id_first_match (dist_server []) sim_client "Survey A" []
           [JObj [("name", JStr "Survey B"); ("id", JStr "SV_2")]]
           (JObj [("name", JStr "Survey A"); ("id", JStr "SV_1")])
           [JObj [("name", JStr "Survey A"); ("id", JStr "SV_9")]]
           (JStr "SV_1") eq_refl sim_survey_b_other eq_refl eq_refl eq_refl).
Defined.

Lemma sim_no_survey_z : Forall (other_survey "Survey Z") sim_surveys.
Proof. repeat constructor; eexists; split; reflexivity. Defined.

Lemma get_survey_id_not_found_witness :
  _get_survey_id (dist_server []) "Survey Z" (mkWorld sim_client [])
  = (Raise (ValueError "survey does not exist"),
     mkWorld sim_client [surveys_request sim_client]).
Proof.
  destruct (get_survey_id_not_found (dist_server []) sim_client "Survey Z" [])
    as [H _].
  exact (H sim_surveys eq_refl sim_no_survey_z).
Defined.

Lemma construction_then_lookup_witness :
  exists w,
    QualtricsAPI_new one_list_server {| api_token_default := "env" |}
                     sim_base "UR_1" (Some "t0k3n") [] = (Ok tt, w)
    /\ get_mailing_list_id "panel" w = (Ok (JStr "ML_1"), w)
    /\ get_mailing_list_id "pilot" w = (Raise (KeyError "pilot"), w).
Proof.
  destruct (construction_then_lookup one_list_server
              {| api_token_default := "env" |} sim_base "UR_1"
              (Some "t0k3n") []
              [[("name", JStr "panel"); ("id", JStr "ML_1");
                ("category", JNull)]]
              ["panel"] eq_refl eq_refl (NoDup_singleton "panel"))
    as (w & Hnew & _ & Hin & Hout).
  exists w. split; [exact Hnew |]. split.
  - exact (Hin 0 _ "panel" (JStr "ML_1") eq_refl eq_refl eq_refl).
  - apply Hout. intros Hin'. apply list_elem_of_singleton in Hin'.
    discriminate.
Defined.

Lemma sim_links_survey_listed :
  survey_listed (links_server next_2 0 no_result) sim_client
                "Survey A" "SV_1".
Proof. intros h. eexists. split; reflexivity. Defined.

Lemma get_dist_links_concatenates_witness :
  _get_dist_links (links_server next_2 0 no_result) 2 "D1" "Survey A"
                  false (mkWorld sim_client [])
  = (Ok {| columns := ["contactid"];
           index := [0; 1; 2];
           data := [[Val (JStr "C1")]; [Val (JStr "C2")]; [Val (JStr "C3")]] |},
     mkWorld sim_client
       [surveys_request sim_client;
        links_request sim_client "D1" (JStr "SV_1");
        get_request (_headers sim_client) next_2;
        get_request (_headers sim_client) next_3]).
Proof.
  assert (Hfuel : 2 <= 2) by lia.
  assert (Hcols : ["contactId"] <> ([] : list string)) by discriminate.
  rewrite (get_dist_links_concatenates (links_server next_2 0 no_result)
             sim_client "D1" "Survey A" "SV_1" false
             (links_page "C1" (JStr next_2))
             (DataFrame_of_records [[("contactId", JStr "C1")]])
             [(next_2, links_page "C2" (JStr next_3));
              (next_3, links_page "C3" JNull)]
             [DataFrame_of_records [[("contactId", JStr "C2")]];
              DataFrame_of_records [[("contactId", JStr "C3")]]]
             {| columns := ["contactId"];
                index := [0; 1; 2];
                data := [[Val (JStr "C1")]; [Val (JStr "C2")];
                         [Val (JStr "C3")]] |}
             [] 2 sim_links_survey_listed eq_refl).
  - reflexivity.
  - eexists. split; reflexivity.
  - reflexivity.
  - repeat split; intros h; reflexivity.
  - repeat constructor; eexists; split; reflexivity.
  - exact Hfuel.
  - reflexivity.
  - exact Hcols.
  - reflexivity.
Defined.

Lemma export_unknown_survey_witness :
  _get_surv_data (dist_server []) sim_read_csv 3 "Survey Z" true true []
                 (mkWorld sim_client [])
  = (Raise (ValueError "survey does not exist"),
     mkWorld sim_client [surveys_request sim_client]).
Proof.
  exact (export_unknown_survey (dist_server []) sim_read_csv sim_client
           "Survey Z" true true [] [] sim_surveys 3 eq_refl sim_no_survey_z).
Defined.

Lemma export_failed_at_creation_witness :
  _get_surv_data (job_server "failed" 2 job_failed) sim_read_csv 3
                 "Survey A" true true [] (mkWorld sim_client [])
  = (Raise (PlainException "export failed"),
     mkWorld sim_client
       [surveys_request sim_client; export_request sim_client "SV_1" true []]).
Proof.
  exact (export_failed_at_creation (job_server "failed" 2 job_failed)
           sim_read_csv sim_client "Survey A" true true [] [] "SV_1" "ES_1"
           (sim_survey_listed "failed" 2 job_failed) eq_refl 3 eq_refl).
Defined.

Lemma sim_job_always_running :
  forall j,
    still_running true
      (nth_status (job_server "inProgress" 0 job_idle) sim_client "SV_1" "ES_1"
                  (started sim_client "SV_1" true [] []) j).
Proof.
  intros j. exists (JStr "inProgress").
  split; [split; [reflexivity | eexists; split; [reflexivity | reflexivity]] |].
  split; [split; reflexivity | reflexivity].
Defined.

Lemma export_polls_without_end_witness :
  fst (_get_surv_data (job_server "inProgress" 0 job_idle) sim_read_csv 7
                      "Survey A" true true [] (mkWorld sim_client []))
  = OutOfFuel.
Proof.
  destruct (export_polls_without_end (job_server "inProgress" 0 job_idle)
              sim_read_csv sim_client "Survey A" true true [] [] "SV_1" "ES_1"
              (sim_survey_listed "inProgress" 0 job_idle) eq_refl
              (JStr "inProgress") eq_refl (conj eq_refl eq_refl)
              sim_job_always_running 7) as [Hrun _].
  rewrite Hrun. reflexivity.
Defined.

Lemma get_distribution_cycle_witness :
  fst (_get_distribution cycle_server 5 "ML_1" false (mkWorld sim_client []))
  = OutOfFuel.
Proof.
  rewrite (get_distribution_cycle cycle_server sim_client "ML_1" false
             page_A (rows_of page_A) "https://sim.qualtrics.com/next/B"
             page_loop (rows_of page_loop) [] 5 eq_refl eq_refl eq_refl
             (fun h => eq_refl) eq_refl eq_refl).
  reflexivity.
Defined.

Lemma convert_df_to_contacts_passed_witness :
  exists emails, emails_of sim_contacts_list = Ok emails /\ NoDup emails.
Proof.
  destruct (convert_df_to_contacts_passed sim_contacts "email" (Some "lang")
              (Some (OneColumn "cohort")) sim_contacts_list eq_refl)
    as (_ & _ & H).
  exact H.
Defined.

Lemma convert_df_to_contacts_duplicate_witness :
  _convert_df_to_contacts sim_contacts_twice "email" (Some "lang")
                          (Some (OneColumn "cohort"))
  = Ok (AssertionFailed "").
Proof.
  assert (Hij : 0 < 2) by lia.
  assert (Hlen : (Z.of_nat (length (data sim_contacts_twice)) <= 10000)%Z)
    by (vm_compute; discriminate).
  eapply (convert_df_to_contacts_duplicate sim_contacts_twice "email"
            (Some "lang") (Some (OneColumn "cohort")) _
            ["a@x.org"; "b@x.org"; "a@x.org"] 0 2 "a@x.org" Hlen).
  - reflexivity.
  - reflexivity.
  - exact Hij.
  - reflexivity.
  - reflexivity.
Defined.

Lemma import_contacts_sends_once_witness :
  import_contacts one_list_server "panel" sim_contacts "email" (Some "lang")
                  (Some (OneColumn "cohort")) (mkWorld sim_cached [])
  = (Ok (Passed (one_list_server [] (import_request sim_cached "ML_1"
                                                    sim_contacts_list))),
     mkWorld sim_cached [import_request sim_cached "ML_1" sim_contacts_list]).
Proof.
  destruct (import_contacts_sends_once one_list_server "panel" sim_contacts
              "email" (Some "lang") (Some (OneColumn "cohort"))
              (mkWorld sim_cached [])) as (_ & _ & _ & H).
  exact (H "ML_1" sim_contacts_list eq_refl eq_refl).
Defined.

Lemma create_distribution_links_resolves_first_witness :
  _create_distribution_links (dist_server []) "2021-12-19 19:54:09"
                             "Survey A" "panel" (mkWorld sim_cached [])
  = (Ok (dist_server [] [surveys_request sim_cached]
           (create_links_request sim_cached "2021-12-19 19:54:09"
                                 (JStr "SV_1") (JStr "ML_1"))),
     mkWorld sim_cached
       [surveys_request sim_cached;
        create_links_request sim_cached "2021-12-19 19:54:09"
                             (JStr "SV_1") (JStr "ML_1")]).
Proof.
  destruct (create_distribution_links_resolves_first (dist_server [])
              sim_cached "2021-12-19 19:54:09" "Survey A" "panel" [])
    as (_ & _ & H).
  apply (H (JStr "ML_1") "SV_1" eq_refl).
  intros h. eexists. split; reflexivity.
Defined.

Lemma sim_distributions_read :
  Forall2 is_distribution sim_distributions sim_distribution_records.
Proof. repeat constructor; eexists; repeat split; reflexivity. Defined.

Lemma get_distribution_ids_invites_witness :
  exists dists,
    fst (_get_distribution_ids (dist_server sim_distributions) "Survey A"
                               (mkWorld sim_client [])) = Ok dists
    /\ dict_get dists "ML_1"
       = Some (JObj [("dist_id", JStr "EMD_4");
                     ("send_date", JStr "2021-12-23T08:00:00Z")])
    /\ dict_get dists "ML_2" = None.
Proof.
  destruct (get_distribution_ids_invites (dist_server sim_distributions)
              sim_client "Survey A" "SV_1" [] sim_distributions
              sim_distribution_records (sim_surveys_listed sim_distributions)
              eq_refl sim_distributions_read) as (dists & Hrun & Hlook).
  exists dists. split; [now rewrite Hrun |].
  split; rewrite Hlook; reflexivity.
Defined.

Lemma get_all_distribution_data_no_invite_witness :
  get_all_distribution_data (dist_server sim_reminders) 3 "Survey A" false
                            (mkWorld sim_client [])
  = (Raise (ValueError "No objects to concatenate"),
     mkWorld sim_client [surveys_request sim_client;
                         distributions_request sim_client (JStr "SV_1")]).
Proof.
  apply (get_all_distribution_data_no_invite (dist_server sim_reminders)
           sim_client "Survey A" "SV_1" false [] sim_reminders
           [mkDistribution (JStr "Reminder") JNull (JStr "EMD_2") "ML_1"
                           (JStr "2021-12-21T08:00:00Z")]
           3 (sim_surveys_listed sim_reminders) eq_refl).
  - repeat constructor; eexists; repeat split; reflexivity.
  - repeat constructor.
Defined.

Lemma sim_export_well_formed : well_formed sim_export.
Proof.
  split.
  - apply NoDup_cons. split.
    + intros H. apply list_elem_of_singleton in H. discriminate.
    + apply NoDup_singleton.
  - repeat constructor.
Defined.

Lemma get_all_surv_data_finished_witness :
  exists t,
    fst (get_all_surv_data (job_server "inProgress" 2 job_complete)
                           sim_read_csv 3 "Survey A" true []
                           (mkWorld sim_client [])) = Ok t
    /\ column_cells t "finished"
       = Some [Val (JBool false); Val (JBool false);
               Val (JBool true); Val (JBool true)].
Proof.
  destruct (get_all_surv_data_finished (job_server "inProgress" 2 job_complete)
              sim_read_csv 3 "Survey A" true [] (mkWorld sim_client [])
              (snd (_get_surv_data (job_server "inProgress" 2 job_complete)
                      sim_read_csv 3 "Survey A" true false []
                      (mkWorld sim_client [])))
              (snd (_get_surv_data (job_server "inProgress" 2 job_complete)
                      sim_read_csv 3 "Survey A" true true []
                      (snd (_get_surv_data
                              (job_server "inProgress" 2 job_complete)
                              sim_read_csv 3 "Survey A" true false []
                              (mkWorld sim_client [])))))
              sim_export sim_export)
    as (t & Hrun & _ & _ & Hcol).
  - vm_compute. reflexivity.
  - vm_compute. reflexivity.
  - exact sim_export_well_formed.
  - exact sim_export_well_formed.
  - exists t. split; [now rewrite Hrun | exact Hcol].
Defined.

Lemma history_entry_fields_win_witness :
  exists rows row,
    parse_person (sim_person "C1" "a@x.org"
                    [sim_sent "D1" "Success"; sim_sent "D2" "Bounce"])
    = Ok rows
    /\ rows !! 1 = Some row
    /\ dict_get row "result" = Some (JStr "Bounce")
    /\ dict_get row "email" = Some (JStr "a@x.org").
Proof.
  destruct (history_entry_fields_win
              (sim_person "C1" "a@x.org"
                 [sim_sent "D1" "Success"; sim_sent "D2" "Bounce"])
              (mkContact (JStr "C1") (JStr "a@x.org") (JStr "EN") (JBool false)
                 [[("emailDistributionId", JStr "D1"); ("result", JStr "Success")];
                  [("emailDistributionId", JStr "D2"); ("result", JStr "Bounce")]])
              1 [("emailDistributionId", JStr "D2"); ("result", JStr "Bounce")])
    as (rows & row & Hrows & Hrow & Hfields).
  - eexists. repeat split; reflexivity.
  - reflexivity.
  - apply NoDup_cons. split.
    + intros H. apply list_elem_of_singleton in H. discriminate.
    + apply NoDup_singleton.
  - exists rows, row. split; [exact Hrows |]. split; [exact Hrow |].
    split; rewrite Hfields; reflexivity.
Defined.

Lemma create_mailing_list_not_listed_witness :
  fst (create_mailing_list one_list_server "pilot" None (mkWorld sim_client []))
  = Raise (KeyError "pilot").
Proof.
  destruct (create_mailing_list_not_listed one_list_server "pilot" None
              (mkWorld sim_client [])
              (snd (_list_mailing_lists one_list_server
                      (add_request (creation_request sim_client "pilot" None)
                                   (mkWorld sim_client []))))
              "pilot"
              {["panel" := [("id", JStr "ML_1"); ("category", JNull)]]})
    as (Hrun & _).
  - reflexivity.
  - vm_compute. reflexivity.
  - vm_compute. reflexivity.
  - rewrite Hrun. reflexivity.
Defined.

(** * Two more edges of the contact import *)

(** The email column must be reachable as an attribute of the row tuples:
    a column whose name is no Python identifier or is a keyword cannot
    serve even though the table has it, and a name the table lacks cannot
    either; a table with at least one row then raises [AttributeError]
    on its first row. *)
Theorem convert_df_to_contacts_unusable_column (df : DataFrame)
    (emailcol : string) (langcol : option string) (ecols : option ecols_arg)
    (row : list cell) (rows : list (list cell)) :
  data df = row :: rows ->
  (Z.of_nat (length (data df)) <= 10000)%Z ->
  ascii_only emailcol = true ->
  starts_with_underscore emailcol = false ->
  negb (is_identifier emailcol) || is_keyword emailcol = true
  \/ (position emailcol (columns df) = None
      /\ String.eqb emailcol "Index" = false
      /\ String.eqb emailcol "count" = false
      /\ String.eqb emailcol "index" = false) ->
  _convert_df_to_contacts df emailcol langcol ecols
  = Raise (AttributeError emailcol).
Proof.
  intros Hdata Hlen Hascii Hunder Hbad. unfold _convert_df_to_contacts.
  apply Z.leb_le in Hlen. rewrite Hlen. cbn [negb]. rewrite Hdata.
  cbn [rows_contacts]. unfold row_contact, row_getattr.
  rewrite Hascii, Hunder. cbn [negb orb].
  destruct (negb (is_identifier emailcol) || is_keyword emailcol) eqn:Hid;
    [reflexivity |].
  destruct Hbad as [Hbad | (Hpos & Hi & Hc & Hx)]; [discriminate |].
  rewrite Hi, Hpos, Hc, Hx. reflexivity.
Qed.

(** A table without rows passes both assertions whatever its columns, and
    [import_contacts] sends it: the import request goes out with an empty
    list of contacts. *)
Theorem import_contacts_empty_table server (mlname mlid : string)
    (df : DataFrame) (emailcol : string) (langcol : option string)
    (ecols : option ecols_arg) (w : world) :
  data df = [] ->
  get_mailing_list_id mlname w = (Ok (JStr mlid), w) ->
  _convert_df_to_contacts df emailcol langcol ecols = Ok (Passed [])
  /\ import_contacts server mlname df emailcol langcol ecols w
     = (Ok (Passed (server (log w) (import_request (self w) mlid []))),
        add_request (import_request (self w) mlid []) w).
Proof.
  intros Hdata Hget.
  assert (Hconv : _convert_df_to_contacts df emailcol langcol ecols
                  = Ok (Passed [])).
  { unfold _convert_df_to_contacts. rewrite Hdata. reflexivity. }
  split; [exact Hconv |].
  unfold import_contacts. run_with Hget. run_lift Hconv. cbv beta iota.
  run_with (run_build_url ["mailinglists"; mlid; "contactimports"] w).
  run_refl. run_refl. reflexivity.
Qed.

Lemma convert_df_to_contacts_unusable_column_witness :
  _convert_df_to_contacts sim_contacts_spaced "e mail" (Some "lang") None
  = Raise (AttributeError "e mail").
Proof.
  assert (Hlen : (Z.of_nat (length (data sim_contacts_spaced)) <= 10000)%Z)
    by (vm_compute; discriminate).
  exact (convert_df_to_contacts_unusable_column sim_contacts_spaced "e mail"
           (Some "lang") None _ [] eq_refl Hlen eq_refl eq_refl
           (or_introl eq_refl)).
Defined.

Lemma import_contacts_empty_table_witness :
  import_contacts one_list_server "panel" sim_contacts_none "email" None None
                  (mkWorld sim_cached [])
  = (Ok (Passed (one_list_server [] (import_request sim_cached "ML_1" []))),
     mkWorld sim_cached [import_request sim_cached "ML_1" []]).
Proof.
  destruct (import_contacts_empty_table one_list_server "panel" "ML_1"
              sim_contacts_none "email" None None (mkWorld sim_cached [])
              eq_refl eq_refl) as [_ H].
  exact H.
Defined.
